(** * Cursor & Origin Alignment Tools: a shallow embedding of
      [cursor_align_addon.py] and the properties of its operators.

    Conventions of the model.
    - Python floats are idealised as real numbers ([R]): [radians] is
      multiplication by [PI / 180], [** 0.5] is [sqrt].
    - The host application's objects are records.  A scene owns a list of
      objects, each with a unique [name]; [context.selected_objects] is the
      sub-list whose [select] flag is set, [context.active_object] is a name
      looked up in the scene.
    - The host's math library ([mathutils]) and the host operators called
      through [bpy.ops] are not part of the add-on.  Purely structural
      accessors (translation column, 3x3 to 4x4 embedding, dot product) are
      written out; everything else is a field of the [Host] class and stays
      abstract in every theorem.  All host calls are taken to return.
      [Euler.normalized()] is such a field too; the range the add-on
      documents for it at its call site is a hypothesis of the theorems that
      need it, and nothing else is assumed of it.
    - Where the magnitude of a float matters (repeated addition in
      [object.rotate_axis_step]) the loop body is given a second time on
      binary64 values, in the module [Float64].
    - An operator's [execute] returns its status set, the reports it sent, and
      the context after its mutations. *)

From Stdlib Require Import Floats.
From Stdlib Require Import Reals Lra Lia List String Ascii Bool ZArith.
From Stdlib Require Import Permutation Sorted.
Import ListNotations.

Open Scope R_scope.

(** ** Host value types *)

Module Vector.
Record t : Type := mk { x : R; y : R; z : R }.

Definition zero : t := mk 0 0 0.
Definition add (a b : t) : t := mk (x a + x b) (y a + y b) (z a + z b).
Definition sub (a b : t) : t := mk (x a - x b) (y a - y b) (z a - z b).
Definition mul (a : t) (k : R) : t := mk (x a * k) (y a * k) (z a * k).
Definition dot (a b : t) : R := x a * x b + y a * y b + z a * z b.
Definition copy (a : t) : t := a.
End Vector.

Module Euler.
Record t : Type := mk { x : R; y : R; z : R }.

Definition zero : t := mk 0 0 0.
Definition copy (e : t) : t := e.

(** Every component within [[-PI, PI]]. *)
Definition in_range (e : t) : Prop :=
  (- PI <= x e <= PI) /\ (- PI <= y e <= PI) /\ (- PI <= z e <= PI).

(** One angle brought into [[-PI, PI]] by removing whole turns. *)
Definition wrap_angle (a : R) : R :=
  a - 2 * PI * IZR (Int_part ((a + PI) / (2 * PI))).

(** One function among those that keep every component within
    [[-PI, PI]].  It stands in for the host's [Euler.normalized()] in the
    closed examples only; no theorem relies on how it reduces an angle. *)
Definition wrap_turns (e : t) : t :=
  mk (wrap_angle (x e)) (wrap_angle (y e)) (wrap_angle (z e)).
End Euler.

Module Quaternion.
Record t : Type := mk { w : R; x : R; y : R; z : R }.
End Quaternion.

Module Matrix3.
Record t : Type := mk { r0 : Vector.t; r1 : Vector.t; r2 : Vector.t }.
End Matrix3.

Module Matrix4.
Record row : Type := mkrow { c0 : R; c1 : R; c2 : R; c3 : R }.
Record t : Type := mk { r0 : row; r1 : row; r2 : row; r3 : row }.

(** [m.to_translation()] and the getter of [m.translation]: the first three
    entries of the last column. *)
Definition to_translation (m : t) : Vector.t :=
  Vector.mk (c3 (r0 m)) (c3 (r1 m)) (c3 (r2 m)).

(** [m.translation = v] *)
Definition set_translation (m : t) (v : Vector.t) : t :=
  mk (mkrow (c0 (r0 m)) (c1 (r0 m)) (c2 (r0 m)) (Vector.x v))
     (mkrow (c0 (r1 m)) (c1 (r1 m)) (c2 (r1 m)) (Vector.y v))
     (mkrow (c0 (r2 m)) (c1 (r2 m)) (c2 (r2 m)) (Vector.z v))
     (r3 m).

(** [m.to_3x3()] *)
Definition to_3x3 (m : t) : Matrix3.t :=
  Matrix3.mk (Vector.mk (c0 (r0 m)) (c1 (r0 m)) (c2 (r0 m)))
             (Vector.mk (c0 (r1 m)) (c1 (r1 m)) (c2 (r1 m)))
             (Vector.mk (c0 (r2 m)) (c1 (r2 m)) (c2 (r2 m))).

(** [m3.to_4x4()] *)
Definition of_3x3 (m : Matrix3.t) : t :=
  let row3 v := mkrow (Vector.x v) (Vector.y v) (Vector.z v) 0 in
  mk (row3 (Matrix3.r0 m)) (row3 (Matrix3.r1 m)) (row3 (Matrix3.r2 m))
     (mkrow 0 0 0 1).

(** [m[0][0] *= sx; m[1][1] *= sy; m[2][2] *= sz] *)
Definition mul_diagonal (m : t) (s : Vector.t) : t :=
  mk (mkrow (c0 (r0 m) * Vector.x s) (c1 (r0 m)) (c2 (r0 m)) (c3 (r0 m)))
     (mkrow (c0 (r1 m)) (c1 (r1 m) * Vector.y s) (c2 (r1 m)) (c3 (r1 m)))
     (mkrow (c0 (r2 m)) (c1 (r2 m)) (c2 (r2 m) * Vector.z s) (c3 (r2 m)))
     (r3 m).

(** [m[i][:3]] for [i] in 0..2 (any other index is not used by the code) *)
Definition row_xyz (m : t) (i : nat) : Vector.t :=
  let r := match i with O => r0 m | 1%nat => r1 m | _ => r2 m end in
  Vector.mk (c0 r) (c1 r) (c2 r).
End Matrix4.

(** ** Scene settings: [CursorAlignProperties] *)

Inductive RotationStep : Type :=
  | Step90 | Step45 | Step30 | Step15 | StepCUSTOM.

Inductive PieMenuKey : Type := KeyALT | KeyCTRL | KeySHIFT | KeyNONE.

Record CursorAlignProperties : Type := mkProps {
  rotation_step : RotationStep;
  custom_step : R;
  use_snap_menu : bool;
  use_pie_menu : bool;
  pie_menu_key : PieMenuKey
}.

(** The declaration [FloatProperty(default=22.5, min=0.1, max=360.0)]. *)
Definition custom_step_default : R := 22.5.
Definition custom_step_min : R := 0.1.
Definition custom_step_max : R := 360.

Definition default_props : CursorAlignProperties :=
  mkProps Step90 custom_step_default true false KeyALT.

(** The host clamps a value written to a float property to its declared
    [min]/[max]. *)
Definition clamp (lo hi v : R) : R :=
  if Rlt_dec v lo then lo else if Rlt_dec hi v then hi else v.

Definition set_custom_step (p : CursorAlignProperties) (v : R)
  : CursorAlignProperties :=
  mkProps (rotation_step p) (clamp custom_step_min custom_step_max v)
          (use_snap_menu p) (use_pie_menu p) (pie_menu_key p).

Definition set_rotation_step (p : CursorAlignProperties) (s : RotationStep)
  : CursorAlignProperties :=
  mkProps s (custom_step p) (use_snap_menu p) (use_pie_menu p) (pie_menu_key p).

(** The range constraint of the stored custom angle. *)
Definition props_ok (p : CursorAlignProperties) : Prop :=
  custom_step_min <= custom_step p <= custom_step_max.

(** [float(props.rotation_step)] on the four numeric identifiers; the
    identifier [CUSTOM] is never converted. *)
Definition float_of_step (s : RotationStep) : R :=
  match s with
  | Step90 => 90
  | Step45 => 45
  | Step30 => 30
  | Step15 => 15
  | StepCUSTOM => 0
  end.

Definition is_custom (s : RotationStep) : bool :=
  match s with StepCUSTOM => true | _ => false end.

(** [math.radians] *)
Definition radians (deg : R) : R := deg * (PI / 180).

(** ** Scene graph *)

Module Cursor.
Record t : Type := mk {
  location : Vector.t;
  rotation_euler : Euler.t;
  rotation_mode : string
}.

Definition with_location (c : t) (v : Vector.t) : t :=
  mk v (rotation_euler c) (rotation_mode c).
Definition with_rotation_euler (c : t) (e : Euler.t) : t :=
  mk (location c) e (rotation_mode c).
End Cursor.

Module Object.
Record t : Type := mk {
  name : nat;
  select : bool;
  location : Vector.t;
  rotation_euler : Euler.t;
  matrix_world : Matrix4.t
}.

Definition with_location (o : t) (v : Vector.t) : t :=
  mk (name o) (select o) v (rotation_euler o) (matrix_world o).
Definition with_rotation_euler (o : t) (e : Euler.t) : t :=
  mk (name o) (select o) (location o) e (matrix_world o).
Definition with_matrix_world (o : t) (m : Matrix4.t) : t :=
  mk (name o) (select o) (location o) (rotation_euler o) m.
End Object.

Module BMFace.
Record t : Type := mk { select : bool; normal : Vector.t }.
End BMFace.

Module Region.
(** [region.data]; an attribute that is absent raises [AttributeError]. *)
Record data_t : Type := mkdata {
  view_rotation : option Quaternion.t;
  view_matrix : option Matrix4.t
}.
Record t : Type := mk { type : string; data : data_t }.
End Region.

Module Space.
Record t : Type := mk { type : string }.
End Space.

Module Area.
Record t : Type := mk {
  type : string;
  spaces : list Space.t;
  regions : list Region.t
}.
End Area.

Module OrientationSlot.
Record t : Type := mk { name : string; matrix : Matrix4.t }.
End OrientationSlot.

Record Scene : Type := mkScene {
  cursor : Cursor.t;
  cursor_align_props : CursorAlignProperties;
  objects : list Object.t;
  transform_orientation_slots : list OrientationSlot.t
}.

(** An entry of [addon_utils.modules()]. *)
Record AddonModule : Type := mkAddonModule {
  module_name : string;
  (** [addon_utils.check(name)[1]] *)
  module_loaded : bool
}.

Record Context : Type := mkContext {
  scene : Scene;
  active_object_name : option nat;
  mode : string;
  screen_areas : list Area.t;
  edit_faces : list BMFace.t;
  (** [addon_utils.modules()] at the time of the call *)
  addon_utils_modules : list AddonModule
}.

Fixpoint is_machine_tools_available (modules : list AddonModule) : bool :=
  match modules with
  | [] => false
  | m :: rest =>
      if (String.eqb (module_name m) "MACHIN3tools"
          || String.eqb (module_name m) "machin3tools")
         && module_loaded m
      then true
      else is_machine_tools_available rest
  end.

(** [is_machine_tools_available()] as an operator sees it. *)
Definition machine_tools_available (context : Context) : bool :=
  is_machine_tools_available (addon_utils_modules context).

Definition selected_objects (context : Context) : list Object.t :=
  filter Object.select (objects (scene context)).

Definition active_object (context : Context) : option Object.t :=
  match active_object_name context with
  | Some n => find (fun o => Nat.eqb (Object.name o) n) (objects (scene context))
  | None => None
  end.

Definition set_cursor (context : Context) (c : Cursor.t) : Context :=
  mkContext
    (mkScene c (cursor_align_props (scene context)) (objects (scene context))
             (transform_orientation_slots (scene context)))
    (active_object_name context) (mode context) (screen_areas context)
    (edit_faces context) (addon_utils_modules context).

Definition set_objects (context : Context) (l : list Object.t) : Context :=
  mkContext
    (mkScene (cursor (scene context)) (cursor_align_props (scene context)) l
             (transform_orientation_slots (scene context)))
    (active_object_name context) (mode context) (screen_areas context)
    (edit_faces context) (addon_utils_modules context).

Definition set_slots (context : Context) (l : list OrientationSlot.t) : Context :=
  mkContext
    (mkScene (cursor (scene context)) (cursor_align_props (scene context))
             (objects (scene context)) l)
    (active_object_name context) (mode context) (screen_areas context)
    (edit_faces context) (addon_utils_modules context).

(** [for obj in context.selected_objects: <mutate obj>]: every selected
    object of the scene is replaced by its mutated version. *)
Definition for_each_selected (f : Object.t -> Object.t) (context : Context)
  : Context :=
  set_objects context
    (map (fun o => if Object.select o then f o else o)
         (objects (scene context))).

(** Assignment through an object reference held in a local list. *)
Definition assign_location (n : nat) (v : Vector.t) (l : list Object.t)
  : list Object.t :=
  map (fun o => if Nat.eqb (Object.name o) n then Object.with_location o v
                else o) l.

(** ** The host interface

    Math-library conversions and host operators the add-on calls. *)

Class Host : Type := {
  (** [Euler.normalized()], called by [rotate_euler] *)
  euler_normalized : Euler.t -> Euler.t;
  (** [Euler.to_matrix()] *)
  euler_to_matrix : Euler.t -> Matrix3.t;
  (** [Euler.to_matrix_4x4()], as called by
      [object.align_objects_to_each_other] *)
  euler_to_matrix_4x4 : Euler.t -> Matrix4.t;
  (** [Matrix.to_euler(order)] on a 3x3 matrix *)
  matrix3_to_euler : Matrix3.t -> string -> Euler.t;
  (** [Matrix.to_euler()] on a 4x4 matrix *)
  matrix4_to_euler : Matrix4.t -> Euler.t;
  (** [Matrix.to_scale()] *)
  matrix_to_scale : Matrix4.t -> Vector.t;
  (** [Quaternion.to_euler(order)] *)
  quaternion_to_euler : Quaternion.t -> string -> Euler.t;
  (** [Quaternion.to_matrix()] *)
  quaternion_to_matrix : Quaternion.t -> Matrix3.t;
  (** [Vector.rotation_difference(other)] *)
  rotation_difference : Vector.t -> Vector.t -> Quaternion.t;
  (** [cursor.matrix] *)
  cursor_matrix : Cursor.t -> Matrix4.t;
  (** [bpy.ops.object.origin_set(type=...)] *)
  origin_set : string -> Context -> Context;
  (** [bpy.ops.view3d.snap_selected_to_cursor(use_offset=..., use_rotation=...)] *)
  snap_selected_to_cursor : bool -> bool -> Context -> Context;
  (** [bpy.ops.view3d.snap_cursor_to_selected()] *)
  snap_cursor_to_selected : Context -> Context;
  (** [bpy.ops.transform.create_orientation(name=..., use_view=...)] *)
  create_orientation : string -> bool -> Context -> Context;
  (** [bpy.ops.wm.call_menu(name=...)] *)
  call_menu : string -> Context -> Context
}.

(** ** Operator results *)

Inductive Status : Type := FINISHED | CANCELLED.
Inductive ReportType : Type := WARNING | INFO.

Record Outcome : Type := mkOutcome {
  status : Status;
  reports : list (ReportType * string);
  after : Context
}.

Definition finished (context : Context) : Outcome :=
  mkOutcome FINISHED [] context.

Definition cancelled (msg : string) (context : Context) : Outcome :=
  mkOutcome CANCELLED [(WARNING, msg)] context.

Inductive Axis : Type := X | Y | Z.
Inductive Direction : Type := POS | NEG.

Definition axis_name (a : Axis) : string :=
  match a with X => "X" | Y => "Y" | Z => "Z" end.

(** ** Helper functions of the add-on *)

Definition get_step (s : Scene) : R :=
  let props := cursor_align_props s in
  let angle_deg :=
    if is_custom (rotation_step props) then custom_step props
    else float_of_step (rotation_step props) in
  radians angle_deg.

(** [str.upper] on ASCII letters. *)
Definition upper_ascii (c : ascii) : ascii :=
  let n := nat_of_ascii c in
  if andb (Nat.leb 97 n) (Nat.leb n 122) then ascii_of_nat (n - 32) else c.

Fixpoint upper (s : string) : string :=
  match s with
  | EmptyString => EmptyString
  | String c s' => String (upper_ascii c) (upper s')
  end.

Definition rotate_euler {host : Host} (euler : Euler.t) (axis : string)
           (delta : R) : Euler.t :=
  let new_eul := Euler.copy euler in
  let axis := upper axis in
  let new_eul :=
    if String.eqb axis "X" then
      Euler.mk (Euler.x new_eul + delta) (Euler.y new_eul) (Euler.z new_eul)
    else if String.eqb axis "Y" then
      Euler.mk (Euler.x new_eul) (Euler.y new_eul + delta) (Euler.z new_eul)
    else if String.eqb axis "Z" then
      Euler.mk (Euler.x new_eul) (Euler.y new_eul) (Euler.z new_eul + delta)
    else new_eul in
  euler_normalized new_eul.

Section Operators.
Context {host : Host}.

Definition copy_object_rotation_to_cursor (obj : Object.t) (cur : Cursor.t)
  : Cursor.t :=
  let matrix := Matrix4.to_3x3 (Object.matrix_world obj) in
  Cursor.with_rotation_euler cur
    (matrix3_to_euler matrix (Cursor.rotation_mode cur)).

Definition apply_cursor_rotation_to_object (cur : Cursor.t) (obj : Object.t)
  : Object.t :=
  let cur_rot := euler_to_matrix (Cursor.rotation_euler cur) in
  let obj_mat := Object.matrix_world obj in
  let scale := matrix_to_scale obj_mat in
  let loc := Matrix4.to_translation obj_mat in
  let new_mat := Matrix4.of_3x3 cur_rot in
  let new_mat := Matrix4.mul_diagonal new_mat scale in
  let new_mat := Matrix4.set_translation new_mat loc in
  Object.with_matrix_world obj new_mat.

(** ** Cursor operators *)

Definition CURSOR_OT_reset_orientation (context : Context) : Outcome :=
  let cur := cursor (scene context) in
  finished (set_cursor context (Cursor.with_rotation_euler cur (Euler.mk 0 0 0))).

Definition CURSOR_OT_rotate_axis (axis : Axis) (direction : Direction)
           (context : Context) : Outcome :=
  let sc := scene context in
  let cur := cursor sc in
  let step_rad := get_step sc in
  let delta := match direction with POS => step_rad | NEG => - step_rad end in
  finished
    (set_cursor context
       (Cursor.with_rotation_euler cur
          (rotate_euler (Cursor.rotation_euler cur) (axis_name axis) delta))).

Definition CURSOR_OT_flip_axis (axis : Axis) (context : Context) : Outcome :=
  let cur := cursor (scene context) in
  let eul := Euler.copy (Cursor.rotation_euler cur) in
  let eul :=
    match axis with
    | X => Euler.mk (- Euler.x eul) (Euler.y eul) (Euler.z eul)
    | Y => Euler.mk (Euler.x eul) (- Euler.y eul) (Euler.z eul)
    | Z => Euler.mk (Euler.x eul) (Euler.y eul) (- Euler.z eul)
    end in
  finished (set_cursor context (Cursor.with_rotation_euler cur eul)).

Definition CURSOR_OT_copy_from_object (context : Context) : Outcome :=
  match active_object context with
  | None => cancelled "No active object to copy from" context
  | Some obj =>
      finished
        (set_cursor context
           (copy_object_rotation_to_cursor obj (cursor (scene context))))
  end.

Definition CURSOR_OT_apply_to_object (context : Context) : Outcome :=
  match selected_objects context with
  | [] => cancelled "No objects selected" context
  | _ :: _ =>
      let cur := cursor (scene context) in
      finished
        (for_each_selected (apply_cursor_rotation_to_object cur) context)
  end.

(** The innermost loop of [cursor.align_to_view]: the first WINDOW region
    whose data has [view_rotation], or failing that [view_matrix], decides
    the orientation; a region with neither is skipped ([continue]). *)
Fixpoint view_euler_of_regions (rotation_mode : string)
         (regions : list Region.t) : option Euler.t :=
  match regions with
  | [] => None
  | region :: rest =>
      if String.eqb (Region.type region) "WINDOW" then
        match Region.view_rotation (Region.data region) with
        | Some view_rotation =>
            Some (quaternion_to_euler view_rotation rotation_mode)
        | None =>
            match Region.view_matrix (Region.data region) with
            | Some view_matrix =>
                Some (matrix3_to_euler (Matrix4.to_3x3 view_matrix) "XYZ")
            | None => view_euler_of_regions rotation_mode rest
            end
        end
      else view_euler_of_regions rotation_mode rest
  end.

Fixpoint view_euler_of_spaces (rotation_mode : string)
         (regions : list Region.t) (spaces : list Space.t)
  : option Euler.t :=
  match spaces with
  | [] => None
  | space :: rest =>
      if String.eqb (Space.type space) "VIEW_3D" then
        match view_euler_of_regions rotation_mode regions with
        | Some e => Some e
        | None => view_euler_of_spaces rotation_mode regions rest
        end
      else view_euler_of_spaces rotation_mode regions rest
  end.

Fixpoint view_euler_of_areas (rotation_mode : string) (areas : list Area.t)
  : option Euler.t :=
  match areas with
  | [] => None
  | area :: rest =>
      if String.eqb (Area.type area) "VIEW_3D" then
        match view_euler_of_spaces rotation_mode (Area.regions area)
                                   (Area.spaces area) with
        | Some e => Some e
        | None => view_euler_of_areas rotation_mode rest
        end
      else view_euler_of_areas rotation_mode rest
  end.

Definition CURSOR_OT_align_to_view (context : Context) : Outcome :=
  let cur := cursor (scene context) in
  match view_euler_of_areas (Cursor.rotation_mode cur)
                            (screen_areas context) with
  | Some e => finished (set_cursor context (Cursor.with_rotation_euler cur e))
  | None => cancelled "Could not determine view orientation" context
  end.

(** [for face in selected_faces: avg_normal = avg_normal + face.normal] *)
Definition sum_normals (selected_faces : list BMFace.t) : Vector.t :=
  fold_left (fun acc face => Vector.add acc (BMFace.normal face))
            selected_faces Vector.zero.

Definition vector_length (v : Vector.t) : R :=
  sqrt (Vector.x v ^ 2 + Vector.y v ^ 2 + Vector.z v ^ 2).

Definition up_vec : Vector.t := Vector.mk 0 0 1.

Definition CURSOR_OT_align_to_surface (context : Context) : Outcome :=
  if negb (String.eqb (mode context) "EDIT_MESH") then
    cancelled "Must be in Edit Mode with faces selected" context
  else
    let selected_faces := filter BMFace.select (edit_faces context) in
    match selected_faces with
    | [] => cancelled "No faces selected" context
    | _ :: _ =>
        let avg_normal := sum_normals selected_faces in
        let length := vector_length avg_normal in
        if Rlt_dec 0 length then
          let normal_vec :=
            Vector.mk (Vector.x avg_normal / length)
                      (Vector.y avg_normal / length)
                      (Vector.z avg_normal / length) in
          let cur := cursor (scene context) in
          if Rlt_dec (Rabs (Vector.dot normal_vec up_vec)) 0.99 then
            let rotation_matrix :=
              quaternion_to_matrix (rotation_difference normal_vec up_vec) in
            finished
              (set_cursor context
                 (Cursor.with_rotation_euler cur
                    (matrix3_to_euler rotation_matrix
                                      (Cursor.rotation_mode cur))))
          else
            finished
              (set_cursor context
                 (Cursor.with_rotation_euler cur (Euler.mk 0 0 0)))
        else cancelled "Could not calculate surface normal" context
    end.

Inductive Orientation : Type := FRONT | RIGHT | TOP | BACK | LEFT | BOTTOM.

Definition CURSOR_OT_set_preset_orientation (orientation : Orientation)
           (context : Context) : Outcome :=
  let cur := cursor (scene context) in
  let e :=
    match orientation with
    | FRONT => Euler.mk 0 0 0
    | RIGHT => Euler.mk 0 0 (- 1.570796)
    | TOP => Euler.mk 1.570796 0 0
    | BACK => Euler.mk 0 0 3.141593
    | LEFT => Euler.mk 0 0 1.570796
    | BOTTOM => Euler.mk (- 1.570796) 0 0
    end in
  finished (set_cursor context (Cursor.with_rotation_euler cur e)).

(** The accumulation loop of [cursor.set_to_selection_center]. *)
Definition sum_locations (l : list Object.t) : Vector.t * nat :=
  fold_left
    (fun (acc : Vector.t * nat) obj =>
       (Vector.add (fst acc) (Object.location obj), S (snd acc)))
    l (Vector.zero, O).

Definition CURSOR_OT_set_to_selection_center (context : Context) : Outcome :=
  match selected_objects context with
  | [] => cancelled "No objects selected" context
  | _ :: _ =>
      let (center, count) := sum_locations (selected_objects context) in
      if Nat.ltb 0 count then
        let center :=
          Vector.mk (Vector.x center / INR count)
                    (Vector.y center / INR count)
                    (Vector.z center / INR count) in
        finished
          (set_cursor context
             (Cursor.with_location (cursor (scene context)) center))
      else finished context
  end.

Definition CURSOR_OT_set_to_view_center (context : Context) : Outcome :=
  finished
    (set_cursor context
       (Cursor.with_location (cursor (scene context)) (Vector.mk 0 0 0))).
End Operators.

Section ObjectOperators.
Context {host : Host}.

Definition OBJECT_OT_origin_to_cursor (context : Context) : Outcome :=
  match selected_objects context with
  | [] => cancelled "No objects selected" context
  | _ :: _ =>
      let info :=
        if machine_tools_available context then
          [(INFO, "Consider using Machine Tools 'machin3.origin_to_cursor' for advanced options"%string)]
        else [] in
      mkOutcome FINISHED info (origin_set "ORIGIN_CURSOR" context)
  end.

Definition OBJECT_OT_rotate_axis (axis : Axis) (direction : Direction)
           (context : Context) : Outcome :=
  match selected_objects context with
  | [] => cancelled "No objects selected" context
  | _ :: _ =>
      let step_rad := get_step (scene context) in
      let delta :=
        match direction with POS => step_rad | NEG => - step_rad end in
      finished
        (for_each_selected
           (fun obj =>
              let eul := Euler.copy (Object.rotation_euler obj) in
              let eul :=
                match axis with
                | X => Euler.mk (Euler.x eul + delta) (Euler.y eul) (Euler.z eul)
                | Y => Euler.mk (Euler.x eul) (Euler.y eul + delta) (Euler.z eul)
                | Z => Euler.mk (Euler.x eul) (Euler.y eul) (Euler.z eul + delta)
                end in
              Object.with_rotation_euler obj eul)
           context)
  end.

Definition OBJECT_OT_reset_orientation (context : Context) : Outcome :=
  match selected_objects context with
  | [] => cancelled "No objects selected" context
  | _ :: _ =>
      finished
        (for_each_selected
           (fun obj => Object.with_rotation_euler obj (Euler.mk 0 0 0))
           context)
  end.

Definition OBJECT_OT_align_to_cursor (move_objects use_rotation : bool)
           (context : Context) : Outcome :=
  match selected_objects context with
  | [] => cancelled "No objects selected" context
  | _ :: _ =>
      let use_offset := negb move_objects in
      finished (snap_selected_to_cursor use_offset use_rotation context)
  end.

Definition OBJECT_OT_snap_cursor_to_selected (context : Context) : Outcome :=
  if andb (match selected_objects context with [] => true | _ => false end)
          (negb (String.eqb (mode context) "EDIT_MESH")) then
    cancelled "Nothing selected" context
  else finished (snap_cursor_to_selected context).

Definition OBJECT_OT_snap_selected_to_cursor (use_offset : bool)
           (context : Context) : Outcome :=
  match selected_objects context with
  | [] => cancelled "No objects selected" context
  | _ :: _ => finished (snap_selected_to_cursor use_offset false context)
  end.

(** [for orientation in slots: if orientation.name == name: ...; break] *)
Fixpoint assign_first_slot (name : string) (m : Matrix4.t)
         (slots : list OrientationSlot.t) : list OrientationSlot.t :=
  match slots with
  | [] => []
  | orientation :: rest =>
      if String.eqb (OrientationSlot.name orientation) name then
        OrientationSlot.mk (OrientationSlot.name orientation) m :: rest
      else orientation :: assign_first_slot name m rest
  end.

Definition OBJECT_OT_create_transform_orientation (name : string)
           (context : Context) : Outcome :=
  let context := create_orientation name false context in
  let cur := cursor (scene context) in
  let context :=
    set_slots context
      (assign_first_slot name (cursor_matrix cur)
         (transform_orientation_slots (scene context))) in
  mkOutcome FINISHED
    [(INFO, ("Created transform orientation '" ++ name ++ "' from cursor")%string)]
    context.

(** [obj != active] on object references. *)
Definition is_not (active : option Object.t) (obj : Object.t) : bool :=
  match active with
  | Some a => negb (Nat.eqb (Object.name obj) (Object.name a))
  | None => true
  end.

Definition OBJECT_OT_align_objects_to_each_other (context : Context)
  : Outcome :=
  let active := active_object context in
  let selected := filter (is_not active) (selected_objects context) in
  match active with
  | None => cancelled "No active object" context
  | Some active_obj =>
      match selected with
      | [] => cancelled "No other objects selected" context
      | _ :: _ =>
          let active_rot := matrix4_to_euler (Object.matrix_world active_obj) in
          finished
            (set_objects context
               (map
                  (fun obj =>
                     if andb (Object.select obj) (is_not active obj) then
                       let world_pos :=
                         Matrix4.to_translation (Object.matrix_world obj) in
                       let world_scale :=
                         matrix_to_scale (Object.matrix_world obj) in
                       let new_matrix := euler_to_matrix_4x4 active_rot in
                       let new_matrix :=
                         Matrix4.set_translation new_matrix world_pos in
                       let new_matrix :=
                         Matrix4.mul_diagonal new_matrix world_scale in
                       Object.with_matrix_world obj new_matrix
                     else obj)
                  (objects (scene context))))
      end
  end.

(** [positions.sort(key=lambda x: x[0])]: a stable sort on the first
    component. *)
Fixpoint insert_by_key (p : R * nat) (l : list (R * nat)) : list (R * nat) :=
  match l with
  | [] => [p]
  | q :: rest =>
      if Rle_dec (fst p) (fst q) then p :: q :: rest
      else q :: insert_by_key p rest
  end.

Fixpoint sort_by_key (l : list (R * nat)) : list (R * nat) :=
  match l with
  | [] => []
  | p :: rest => insert_by_key p (sort_by_key rest)
  end.

Definition axis_index (a : Axis) : nat :=
  match a with X => 0 | Y => 1 | Z => 2 end.

(** [for i, (_, obj) in enumerate(positions): obj.location = ...], with
    [i] counted from [start]. *)
Fixpoint distribute_from (start : nat) (origin direction : Vector.t)
         (spacing : R) (positions : list (R * nat)) (l : list Object.t)
  : list Object.t :=
  match positions with
  | [] => l
  | (_, obj) :: rest =>
      let offset := INR start * spacing in
      let new_pos := Vector.add origin (Vector.mul direction offset) in
      distribute_from (S start) origin direction spacing rest
                      (assign_location obj new_pos l)
  end.

Definition OBJECT_OT_distribute_along_cursor (spacing : R) (axis : Axis)
           (context : Context) : Outcome :=
  if Nat.ltb (List.length (selected_objects context)) 2 then
    cancelled "Select at least 2 objects" context
  else
    let cur := cursor (scene context) in
    let cursor_matrix := cursor_matrix cur in
    let objs := selected_objects context in
    let axis_idx := axis_index axis in
    let positions :=
      map (fun obj =>
             let rel_pos :=
               Vector.sub (Matrix4.to_translation (Object.matrix_world obj))
                          (Cursor.location cur) in
             let axis_pos :=
               Vector.dot rel_pos (Matrix4.row_xyz cursor_matrix axis_idx) in
             (axis_pos, Object.name obj))
          objs in
    let positions := sort_by_key positions in
    finished
      (set_objects context
         (distribute_from 0 (Cursor.location cur)
            (Matrix4.row_xyz cursor_matrix axis_idx) spacing positions
            (objects (scene context)))).

Definition OBJECT_OT_copy_cursor_location (context : Context) : Outcome :=
  match selected_objects context with
  | [] => cancelled "No objects selected" context
  | _ :: _ =>
      let cursor_location := Cursor.location (cursor (scene context)) in
      finished
        (for_each_selected
           (fun obj => Object.with_location obj (Vector.copy cursor_location))
           context)
  end.

Definition CURSOR_OT_machine_tools_menu (context : Context) : Outcome :=
  finished (call_menu "VIEW3D_MT_cursor_align_machine_tools" context).

(** ** The operators registered by the add-on, with their properties *)

Inductive Operator : Type :=
  | cursor_reset_orientation
  | cursor_rotate_axis (axis : Axis) (direction : Direction)
  | cursor_flip_axis (axis : Axis)
  | cursor_copy_from_object
  | cursor_apply_to_object
  | cursor_align_to_view
  | cursor_align_to_surface
  | cursor_set_preset_orientation (orientation : Orientation)
  | cursor_set_to_selection_center
  | cursor_set_to_view_center
  | object_origin_to_cursor
  | object_rotate_axis_step (axis : Axis) (direction : Direction)
  | object_reset_orientation
  | object_align_to_cursor (move_objects use_rotation : bool)
  | object_cursor_to_selected
  | object_selected_to_cursor (use_offset : bool)
  | object_create_transform_orientation (name : string)
  | object_align_objects_to_each_other
  | object_distribute_along_cursor (spacing : R) (axis : Axis)
  | object_copy_cursor_location
  | cursor_machine_tools_menu.

Definition execute (op : Operator) (context : Context) : Outcome :=
  match op with
  | cursor_reset_orientation => CURSOR_OT_reset_orientation context
  | cursor_rotate_axis a d => CURSOR_OT_rotate_axis a d context
  | cursor_flip_axis a => CURSOR_OT_flip_axis a context
  | cursor_copy_from_object => CURSOR_OT_copy_from_object context
  | cursor_apply_to_object => CURSOR_OT_apply_to_object context
  | cursor_align_to_view => CURSOR_OT_align_to_view context
  | cursor_align_to_surface => CURSOR_OT_align_to_surface context
  | cursor_set_preset_orientation o =>
      CURSOR_OT_set_preset_orientation o context
  | cursor_set_to_selection_center =>
      CURSOR_OT_set_to_selection_center context
  | cursor_set_to_view_center => CURSOR_OT_set_to_view_center context
  | object_origin_to_cursor => OBJECT_OT_origin_to_cursor context
  | object_rotate_axis_step a d => OBJECT_OT_rotate_axis a d context
  | object_reset_orientation => OBJECT_OT_reset_orientation context
  | object_align_to_cursor m r => OBJECT_OT_align_to_cursor m r context
  | object_cursor_to_selected => OBJECT_OT_snap_cursor_to_selected context
  | object_selected_to_cursor u => OBJECT_OT_snap_selected_to_cursor u context
  | object_create_transform_orientation n =>
      OBJECT_OT_create_transform_orientation n context
  | object_align_objects_to_each_other =>
      OBJECT_OT_align_objects_to_each_other context
  | object_distribute_along_cursor s a =>
      OBJECT_OT_distribute_along_cursor s a context
  | object_copy_cursor_location => OBJECT_OT_copy_cursor_location context
  | cursor_machine_tools_menu => CURSOR_OT_machine_tools_menu context
  end.
End ObjectOperators.

(** ** Notions used to state the properties *)

Definition add_to_axis (e : Euler.t) (a : Axis) (d : R) : Euler.t :=
  match a with
  | X => Euler.mk (Euler.x e + d) (Euler.y e) (Euler.z e)
  | Y => Euler.mk (Euler.x e) (Euler.y e + d) (Euler.z e)
  | Z => Euler.mk (Euler.x e) (Euler.y e) (Euler.z e + d)
  end.


Definition signed_step (d : Direction) (s : Scene) : R :=
  match d with POS => get_step s | NEG => - get_step s end.

(** Modelled from the spec: [Euler.normalized()] is a method of the host's
    math library and is absent from the sources.  The one thing stated of it,
    by C9 and by the comment at its only call site ("keep values within
    [-pi, pi]"), is that every component of its result lies within
    [[-PI, PI]].  That is a hypothesis where it is needed; nothing
    is assumed about how the method reduces an angle. *)
Definition keeps_within_pi (host : Host) : Prop :=
  forall e : Euler.t, Euler.in_range (euler_normalized e).

Definition vector_sum (l : list Vector.t) : Vector.t :=
  fold_right Vector.add Vector.zero l.

Definition vector_div (v : Vector.t) (k : R) : Vector.t :=
  Vector.mk (Vector.x v / k) (Vector.y v / k) (Vector.z v / k).

(** Componentwise arithmetic mean. *)
Definition mean (l : list Vector.t) : Vector.t :=
  vector_div (vector_sum l) (INR (List.length l)).

Definition normalize (v : Vector.t) : Vector.t :=
  vector_div v (vector_length v).

Definition selected_normals (context : Context) : list Vector.t :=
  map BMFace.normal (filter BMFace.select (edit_faces context)).

Definition is_nil {A : Type} (l : list A) : bool :=
  match l with [] => true | _ :: _ => false end.

Definition is_none {A : Type} (o : option A) : bool :=
  match o with None => true | Some _ => false end.

(** A view is determinable when some 3D-view area has a 3D-view space and a
    window region that exposes a view rotation or a view matrix. *)
Definition region_has_view (r : Region.t) : bool :=
  String.eqb (Region.type r) "WINDOW"
  && negb (is_none (Region.view_rotation (Region.data r))
           && is_none (Region.view_matrix (Region.data r))).

Definition determinable_view (areas : list Area.t) : bool :=
  existsb
    (fun area =>
       String.eqb (Area.type area) "VIEW_3D"
       && existsb (fun sp => String.eqb (Space.type sp) "VIEW_3D")
                  (Area.spaces area)
       && existsb region_has_view (Area.regions area))
    areas.

Definition others_selected (context : Context) : list Object.t :=
  filter (is_not (active_object context)) (selected_objects context).

(** The selection or context an operator requires is missing. *)
Definition requirement_missing (op : Operator) (context : Context) : bool :=
  match op with
  | cursor_copy_from_object => is_none (active_object context)
  | cursor_apply_to_object
  | cursor_set_to_selection_center
  | object_origin_to_cursor
  | object_rotate_axis_step _ _
  | object_reset_orientation
  | object_align_to_cursor _ _
  | object_selected_to_cursor _
  | object_copy_cursor_location => is_nil (selected_objects context)
  | object_cursor_to_selected =>
      is_nil (selected_objects context)
      && negb (String.eqb (mode context) "EDIT_MESH")
  | cursor_align_to_view => negb (determinable_view (screen_areas context))
  | cursor_align_to_surface =>
      negb (String.eqb (mode context) "EDIT_MESH")
      || is_nil (filter BMFace.select (edit_faces context))
  | object_align_objects_to_each_other =>
      is_none (active_object context) || is_nil (others_selected context)
  | object_distribute_along_cursor _ _ =>
      Nat.ltb (List.length (selected_objects context)) 2
  | cursor_reset_orientation
  | cursor_rotate_axis _ _
  | cursor_flip_axis _
  | cursor_set_preset_orientation _
  | cursor_set_to_view_center
  | object_create_transform_orientation _
  | cursor_machine_tools_menu => false
  end.

(** The operator cancelled with one warning and touched nothing. *)
Definition cancelled_cleanly (out : Outcome) (context : Context) : Prop :=
  status out = CANCELLED
  /\ (exists msg, reports out = [(WARNING, msg)])
  /\ after out = context.

(** The selected faces' normals cancel out. *)
Definition degenerate_normal (context : Context) : Prop :=
  String.eqb (mode context) "EDIT_MESH" = true
  /\ selected_normals context <> []
  /\ vector_sum (selected_normals context) = Vector.zero.

(** *** Loops under fuel

    To state that an [execute] returns, its loops are written a second time
    with the iteration made explicit.  [for_loop] recurses on its fuel, not
    on the collection: it spends one unit on every element it visits and
    gives no result once the fuel is used up, so a loop that went on for ever
    would give none whatever the fuel.  A loop body either goes on to the next
    element or leaves the loop ([return], [break]), and may run loops of its
    own on the fuel that is left.  A result comes with the number of loop
    bodies and comprehension elements that were evaluated.  The sort and the
    host calls each count as one step of the host. *)

Inductive Flow (St Res : Type) : Type :=
  | Next (s : St)
  | Leave (r : Res).

Arguments Next {St Res} s.
Arguments Leave {St Res} r.

Definition Run (A : Type) : Type := option (A * nat).

Definition ret {A : Type} (a : A) : Run A := Some (a, O).

Definition bind {A B : Type} (m : Run A) (k : A -> Run B) : Run B :=
  match m with
  | None => None
  | Some (a, n) =>
      match k a with
      | None => None
      | Some (b, n') => Some (b, (n + n')%nat)
      end
  end.

Notation "x <- m ;; k" := (bind m (fun x => k))
  (at level 61, m at next level, right associativity).

Fixpoint for_loop {A St Res : Type} (fuel : nat) (items : list A)
         (body : nat -> A -> St -> Run (Flow St Res)) (s : St)
  : Run (Flow St Res) :=
  match fuel with
  | O => None
  | S fuel' =>
      match items with
      | [] => ret (Next s)
      | x :: rest =>
          match body fuel' x s with
          | None => None
          | Some (Leave r, k) => Some (Leave r, S k)
          | Some (Next s', k) =>
              match for_loop fuel' rest body s' with
              | None => None
              | Some (res, n) => Some (res, S (k + n))
              end
          end
      end
  end.

(** A loop body that runs no loop of its own. *)
Definition plain {A St Res : Type} (f : A -> St -> Flow St Res)
  : nat -> A -> St -> Run (Flow St Res) :=
  fun _ x s => ret (f x s).

(** The state in which a loop without [break] or [return] ends. *)
Definition final {St : Type} (r : Flow St Empty_set) : St :=
  match r with
  | Next s => s
  | Leave r => match r with end
  end.

(** [[f(x) for x in items if keep(x)]], and a loop that only appends. *)
Definition collect {A B : Type} (fuel : nat) (items : list A)
           (keep : A -> bool) (f : A -> B) : Run (list B) :=
  r <- for_loop fuel items
         (plain (fun x acc => Next (if keep x then acc ++ [f x] else acc)))
         [] ;;
  ret (final r).

(** Assignments made through the object references a loop was given: the
    scene's objects satisfying [p] are, in scene order, the ones the loop
    walked, and [written] holds what the loop made of each. *)
Fixpoint write_back (p : Object.t -> bool) (written : list Object.t)
         (l : list Object.t) : list Object.t :=
  match l with
  | [] => []
  | o :: rest =>
      if p o then
        match written with
        | w :: ws => w :: write_back p ws rest
        | [] => o :: write_back p [] rest
        end
      else o :: write_back p written rest
  end.

(** [slots[i].matrix = m] *)
Fixpoint assign_slot (i : nat) (m : Matrix4.t)
         (slots : list OrientationSlot.t) : list OrientationSlot.t :=
  match slots with
  | [] => []
  | orientation :: rest =>
      match i with
      | O => OrientationSlot.mk (OrientationSlot.name orientation) m :: rest
      | S j => orientation :: assign_slot j m rest
      end
  end.

Module Fuel.
Section Operators.
Context {host : Host}.

Definition is_machine_tools_available (fuel : nat)
           (modules : list AddonModule) : Run bool :=
  r <- for_loop fuel modules
         (plain (fun m (_ : unit) =>
                   if (String.eqb (module_name m) "MACHIN3tools"
                       || String.eqb (module_name m) "machin3tools")
                      && module_loaded m
                   then Leave true
                   else Next tt))
         tt ;;
  ret (match r with Leave found => found | Next _ => false end).

(** [for obj in context.selected_objects: <mutate obj>] *)
Definition for_each_selected (fuel : nat) (f : Object.t -> Object.t)
           (context : Context) : Run Context :=
  written <- collect fuel (selected_objects context) (fun _ => true) f ;;
  ret (set_objects context
         (write_back Object.select written (objects (scene context)))).

Definition CURSOR_OT_apply_to_object (fuel : nat) (context : Context)
  : Run Outcome :=
  match selected_objects context with
  | [] => ret (cancelled "No objects selected" context)
  | _ :: _ =>
      let cur := cursor (scene context) in
      context' <- for_each_selected fuel
                    (apply_cursor_rotation_to_object cur) context ;;
      ret (finished context')
  end.

Definition view_euler_of_regions (fuel : nat) (rotation_mode : string)
           (regions : list Region.t) : Run (Flow unit Euler.t) :=
  for_loop fuel regions
    (plain (fun region (_ : unit) =>
              if String.eqb (Region.type region) "WINDOW" then
                match Region.view_rotation (Region.data region) with
                | Some view_rotation =>
                    Leave (quaternion_to_euler view_rotation rotation_mode)
                | None =>
                    match Region.view_matrix (Region.data region) with
                    | Some view_matrix =>
                        Leave (matrix3_to_euler (Matrix4.to_3x3 view_matrix)
                                                "XYZ")
                    | None => Next tt
                    end
                end
              else Next tt))
    tt.

Definition view_euler_of_spaces (fuel : nat) (rotation_mode : string)
           (regions : list Region.t) (spaces : list Space.t)
  : Run (Flow unit Euler.t) :=
  for_loop fuel spaces
    (fun fuel' space (_ : unit) =>
       if String.eqb (Space.type space) "VIEW_3D" then
         view_euler_of_regions fuel' rotation_mode regions
       else ret (Next tt))
    tt.

Definition view_euler_of_areas (fuel : nat) (rotation_mode : string)
           (areas : list Area.t) : Run (Flow unit Euler.t) :=
  for_loop fuel areas
    (fun fuel' area (_ : unit) =>
       if String.eqb (Area.type area) "VIEW_3D" then
         view_euler_of_spaces fuel' rotation_mode (Area.regions area)
                              (Area.spaces area)
       else ret (Next tt))
    tt.

Definition CURSOR_OT_align_to_view (fuel : nat) (context : Context)
  : Run Outcome :=
  let cur := cursor (scene context) in
  r <- view_euler_of_areas fuel (Cursor.rotation_mode cur)
         (screen_areas context) ;;
  ret (match r with
       | Leave e =>
           finished (set_cursor context (Cursor.with_rotation_euler cur e))
       | Next _ => cancelled "Could not determine view orientation" context
       end).

Definition CURSOR_OT_align_to_surface (fuel : nat) (context : Context)
  : Run Outcome :=
  if negb (String.eqb (mode context) "EDIT_MESH") then
    ret (cancelled "Must be in Edit Mode with faces selected" context)
  else
    selected_faces <- collect fuel (edit_faces context) BMFace.select
                        (fun f => f) ;;
    match selected_faces with
    | [] => ret (cancelled "No faces selected" context)
    | _ :: _ =>
        r <- for_loop fuel selected_faces
               (plain (fun face avg_normal =>
                         Next (Vector.add avg_normal (BMFace.normal face))))
               Vector.zero ;;
        let avg_normal := final r in
        let length := vector_length avg_normal in
        if Rlt_dec 0 length then
          let normal_vec :=
            Vector.mk (Vector.x avg_normal / length)
                      (Vector.y avg_normal / length)
                      (Vector.z avg_normal / length) in
          let cur := cursor (scene context) in
          if Rlt_dec (Rabs (Vector.dot normal_vec up_vec)) 0.99 then
            let rotation_matrix :=
              quaternion_to_matrix (rotation_difference normal_vec up_vec) in
            ret (finished
                   (set_cursor context
                      (Cursor.with_rotation_euler cur
                         (matrix3_to_euler rotation_matrix
                                           (Cursor.rotation_mode cur)))))
          else
            ret (finished
                   (set_cursor context
                      (Cursor.with_rotation_euler cur (Euler.mk 0 0 0))))
        else ret (cancelled "Could not calculate surface normal" context)
    end.

Definition CURSOR_OT_set_to_selection_center (fuel : nat) (context : Context)
  : Run Outcome :=
  match selected_objects context with
  | [] => ret (cancelled "No objects selected" context)
  | _ :: _ =>
      r <- for_loop fuel (selected_objects context)
             (plain (fun obj (acc : Vector.t * nat) =>
                       Next (Vector.add (fst acc) (Object.location obj),
                             S (snd acc))))
             (Vector.zero, O) ;;
      let (center, count) := final r in
      if Nat.ltb 0 count then
        let center :=
          Vector.mk (Vector.x center / INR count)
                    (Vector.y center / INR count)
                    (Vector.z center / INR count) in
        ret (finished
               (set_cursor context
                  (Cursor.with_location (cursor (scene context)) center)))
      else ret (finished context)
  end.

Definition OBJECT_OT_origin_to_cursor (fuel : nat) (context : Context)
  : Run Outcome :=
  match selected_objects context with
  | [] => ret (cancelled "No objects selected" context)
  | _ :: _ =>
      available <- is_machine_tools_available fuel
                     (addon_utils_modules context) ;;
      let info :=
        if available then
          [(INFO, "Consider using Machine Tools 'machin3.origin_to_cursor' for advanced options"%string)]
        else [] in
      ret (mkOutcome FINISHED info (origin_set "ORIGIN_CURSOR" context))
  end.

Definition OBJECT_OT_rotate_axis (fuel : nat) (axis : Axis)
           (direction : Direction) (context : Context) : Run Outcome :=
  match selected_objects context with
  | [] => ret (cancelled "No objects selected" context)
  | _ :: _ =>
      let step_rad := get_step (scene context) in
      let delta :=
        match direction with POS => step_rad | NEG => - step_rad end in
      context' <- for_each_selected fuel
                    (fun obj =>
                       let eul := Euler.copy (Object.rotation_euler obj) in
                       let eul :=
                         match axis with
                         | X => Euler.mk (Euler.x eul + delta) (Euler.y eul)
                                         (Euler.z eul)
                         | Y => Euler.mk (Euler.x eul) (Euler.y eul + delta)
                                         (Euler.z eul)
                         | Z => Euler.mk (Euler.x eul) (Euler.y eul)
                                         (Euler.z eul + delta)
                         end in
                       Object.with_rotation_euler obj eul)
                    context ;;
      ret (finished context')
  end.

Definition OBJECT_OT_reset_orientation (fuel : nat) (context : Context)
  : Run Outcome :=
  match selected_objects context with
  | [] => ret (cancelled "No objects selected" context)
  | _ :: _ =>
      context' <- for_each_selected fuel
                    (fun obj =>
                       Object.with_rotation_euler obj (Euler.mk 0 0 0))
                    context ;;
      ret (finished context')
  end.

Definition OBJECT_OT_create_transform_orientation (fuel : nat)
           (name : string) (context : Context) : Run Outcome :=
  let context := create_orientation name false context in
  let cur := cursor (scene context) in
  let slots := transform_orientation_slots (scene context) in
  r <- for_loop fuel slots
         (plain (fun orientation (i : nat) =>
                   if String.eqb (OrientationSlot.name orientation) name
                   then Leave i
                   else Next (S i)))
         O ;;
  let slots :=
    match r with
    | Leave i => assign_slot i (cursor_matrix cur) slots
    | Next _ => slots
    end in
  ret (mkOutcome FINISHED
         [(INFO, ("Created transform orientation '" ++ name ++ "' from cursor")%string)]
         (set_slots context slots)).

Definition OBJECT_OT_align_objects_to_each_other (fuel : nat)
           (context : Context) : Run Outcome :=
  let active := active_object context in
  selected <- collect fuel (selected_objects context) (is_not active)
                (fun obj => obj) ;;
  match active with
  | None => ret (cancelled "No active object" context)
  | Some active_obj =>
      match selected with
      | [] => ret (cancelled "No other objects selected" context)
      | _ :: _ =>
          let active_rot := matrix4_to_euler (Object.matrix_world active_obj) in
          written <- collect fuel selected (fun _ => true)
                       (fun obj =>
                          let world_pos :=
                            Matrix4.to_translation (Object.matrix_world obj) in
                          let world_scale :=
                            matrix_to_scale (Object.matrix_world obj) in
                          let new_matrix := euler_to_matrix_4x4 active_rot in
                          let new_matrix :=
                            Matrix4.set_translation new_matrix world_pos in
                          let new_matrix :=
                            Matrix4.mul_diagonal new_matrix world_scale in
                          Object.with_matrix_world obj new_matrix) ;;
          ret (finished
                 (set_objects context
                    (write_back
                       (fun obj => andb (Object.select obj) (is_not active obj))
                       written (objects (scene context)))))
      end
  end.

Definition OBJECT_OT_distribute_along_cursor (fuel : nat) (spacing : R)
           (axis : Axis) (context : Context) : Run Outcome :=
  if Nat.ltb (List.length (selected_objects context)) 2 then
    ret (cancelled "Select at least 2 objects" context)
  else
    let cur := cursor (scene context) in
    let cursor_matrix := cursor_matrix cur in
    let objs := selected_objects context in
    let axis_idx := axis_index axis in
    positions <- collect fuel objs (fun _ => true)
                   (fun obj =>
                      let rel_pos :=
                        Vector.sub
                          (Matrix4.to_translation (Object.matrix_world obj))
                          (Cursor.location cur) in
                      let axis_pos :=
                        Vector.dot rel_pos
                                   (Matrix4.row_xyz cursor_matrix axis_idx) in
                      (axis_pos, Object.name obj)) ;;
    let positions := sort_by_key positions in
    r <- for_loop fuel positions
           (plain (fun (p : R * nat) (st : nat * list Object.t) =>
                     let offset := INR (fst st) * spacing in
                     let new_pos :=
                       Vector.add (Cursor.location cur)
                         (Vector.mul (Matrix4.row_xyz cursor_matrix axis_idx)
                                     offset) in
                     Next (S (fst st),
                           assign_location (snd p) new_pos (snd st))))
           (O, objects (scene context)) ;;
    ret (finished (set_objects context (snd (final r)))).

Definition OBJECT_OT_copy_cursor_location (fuel : nat) (context : Context)
  : Run Outcome :=
  match selected_objects context with
  | [] => ret (cancelled "No objects selected" context)
  | _ :: _ =>
      let cursor_location := Cursor.location (cursor (scene context)) in
      context' <- for_each_selected fuel
                    (fun obj =>
                       Object.with_location obj (Vector.copy cursor_location))
                    context ;;
      ret (finished context')
  end.

(** An operator without a loop of its own is its [execute] as given above. *)
Definition execute (fuel : nat) (op : Operator) (context : Context)
  : Run Outcome :=
  match op with
  | cursor_apply_to_object => CURSOR_OT_apply_to_object fuel context
  | cursor_align_to_view => CURSOR_OT_align_to_view fuel context
  | cursor_align_to_surface => CURSOR_OT_align_to_surface fuel context
  | cursor_set_to_selection_center =>
      CURSOR_OT_set_to_selection_center fuel context
  | object_origin_to_cursor => OBJECT_OT_origin_to_cursor fuel context
  | object_rotate_axis_step a d => OBJECT_OT_rotate_axis fuel a d context
  | object_reset_orientation => OBJECT_OT_reset_orientation fuel context
  | object_create_transform_orientation n =>
      OBJECT_OT_create_transform_orientation fuel n context
  | object_align_objects_to_each_other =>
      OBJECT_OT_align_objects_to_each_other fuel context
  | object_distribute_along_cursor s a =>
      OBJECT_OT_distribute_along_cursor fuel s a context
  | object_copy_cursor_location => OBJECT_OT_copy_cursor_location fuel context
  | cursor_reset_orientation
  | cursor_rotate_axis _ _
  | cursor_flip_axis _
  | cursor_copy_from_object
  | cursor_set_preset_orientation _
  | cursor_set_to_view_center
  | object_align_to_cursor _ _
  | object_cursor_to_selected
  | object_selected_to_cursor _
  | cursor_machine_tools_menu => ret (execute op context)
  end.
End Operators.
End Fuel.

(** The pure reading of a loop: what [for_loop] computes when it is given
    enough fuel. *)
Fixpoint fold_flow {A St Res : Type} (f : A -> St -> Flow St Res)
         (items : list A) (s : St) : Flow St Res :=
  match items with
  | [] => Next s
  | x :: rest =>
      match f x s with
      | Leave r => Leave r
      | Next s' => fold_flow f rest s'
      end
  end.

(** A search that [return]s what it finds, as a loop result. *)
Definition flow_of {A : Type} (found : option A) : Flow unit A :=
  match found with
  | Some a => Leave a
  | None => Next tt
  end.

(** The context whose collections an operator walks: the one it is called
    in, except that [object.create_transform_orientation] walks the slots left
    by the host operator it calls first. *)
Definition walked_context {host : Host} (op : Operator) (context : Context)
  : Context :=
  match op with
  | object_create_transform_orientation name =>
      create_orientation name false context
  | _ => context
  end.

(** The size of the collections an operator can walk: the scene's objects
    and the mesh faces (each walked at most twice), the orientation slots, the
    add-on modules, the screen areas, and per area its spaces and, for each
    space, its regions. *)
Definition area_size (area : Area.t) : nat :=
  (S (List.length (Area.spaces area))
   * S (List.length (Area.regions area)))%nat.

Definition collections_size (context : Context) : nat :=
  (2 * List.length (objects (scene context))
   + 2 * List.length (edit_faces context)
   + List.length (transform_orientation_slots (scene context))
   + List.length (addon_utils_modules context)
   + List.length (screen_areas context)
   + list_sum (map area_size (screen_areas context)))%nat.

(** ** Binary64 arithmetic

    A Python float is an IEEE binary64 value.  The body of
    [object.rotate_axis_step] and [get_step] are given here on such values,
    with an object reduced to its selection flag and its Euler rotation. *)

Module Float64.
Record Euler : Type := mkEuler { x : float; y : float; z : float }.

Record Object : Type := mkObject { select : bool; rotation_euler : Euler }.

Record Scene : Type := mkFloatScene {
  rotation_step : RotationStep;
  custom_step : float;
  objects : list Object
}.

(** [math.pi] *)
Definition pi : float := 0x1.921fb54442d18p+1%float.

(** [math.radians]: multiplication by [pi / 180] *)
Definition radians (deg : float) : float := (deg * (pi / 180))%float.

(** [float(props.rotation_step)] *)
Definition float_of_step (s : RotationStep) : float :=
  match s with
  | Step90 => 90%float
  | Step45 => 45%float
  | Step30 => 30%float
  | Step15 => 15%float
  | StepCUSTOM => 0%float
  end.

Definition get_step (s : Scene) : float :=
  let angle_deg :=
    if is_custom (rotation_step s) then custom_step s
    else float_of_step (rotation_step s) in
  radians angle_deg.

Definition OBJECT_OT_rotate_axis (axis : Axis) (direction : Direction)
           (s : Scene) : Status * Scene :=
  match filter select (objects s) with
  | [] => (CANCELLED, s)
  | _ :: _ =>
      let step_rad := get_step s in
      let delta :=
        match direction with POS => step_rad | NEG => (- step_rad)%float end in
      (FINISHED,
       mkFloatScene (rotation_step s) (custom_step s)
         (map (fun obj =>
                 if select obj then
                   let eul := rotation_euler obj in
                   let eul :=
                     match axis with
                     | X => mkEuler (x eul + delta)%float (y eul) (z eul)
                     | Y => mkEuler (x eul) (y eul + delta)%float (z eul)
                     | Z => mkEuler (x eul) (y eul) (z eul + delta)%float
                     end in
                   mkObject (select obj) eul
                 else obj)
              (objects s)))
  end.


End Float64.

(** ** Closed examples

    A host whose operators leave the context alone and whose conversions
    return fixed values.  It only instantiates the closed examples; no
    theorem depends on what a host conversion computes. *)

Definition identity3 : Matrix3.t :=
  Matrix3.mk (Vector.mk 1 0 0) (Vector.mk 0 1 0) (Vector.mk 0 0 1).

Definition identity4 : Matrix4.t := Matrix4.of_3x3 identity3.

Definition idle_host : Host := {|
  euler_normalized := Euler.wrap_turns;
  euler_to_matrix := fun _ => identity3;
  euler_to_matrix_4x4 := fun _ => identity4;
  matrix3_to_euler := fun _ _ => Euler.zero;
  matrix4_to_euler := fun _ => Euler.zero;
  matrix_to_scale := fun _ => Vector.mk 1 1 1;
  quaternion_to_euler := fun _ _ => Euler.zero;
  quaternion_to_matrix := fun _ => identity3;
  rotation_difference := fun _ _ => Quaternion.mk 1 0 0 0;
  cursor_matrix := fun _ => identity4;
  origin_set := fun _ c => c;
  snap_selected_to_cursor := fun _ _ c => c;
  snap_cursor_to_selected := fun c => c;
  create_orientation := fun _ _ c => c;
  call_menu := fun _ c => c
|}.

Definition translation4 (v : Vector.t) : Matrix4.t :=
  Matrix4.set_translation identity4 v.

(** Two selected objects at (1,2,3) and (3,4,5), the first one active. *)
Definition cube : Object.t :=
  Object.mk 1 true (Vector.mk 1 2 3) (Euler.mk 0 0 0)
            (translation4 (Vector.mk 1 2 3)).

Definition lamp : Object.t :=
  Object.mk 2 true (Vector.mk 3 4 5) (Euler.mk 0 0 0)
            (translation4 (Vector.mk 3 4 5)).

Definition example_scene (rot : Euler.t) (objs : list Object.t) : Scene :=
  mkScene (Cursor.mk Vector.zero rot "XYZ") default_props objs [].

Definition object_mode_context : Context :=
  mkContext (example_scene (Euler.mk 0 0 3) [cube; lamp]) (Some 1%nat)
            "OBJECT" [] [] [].

(** Edit mode with the top and the bottom face of a cube selected. *)
Definition opposite_faces : list BMFace.t :=
  [BMFace.mk true (Vector.mk 0 0 1); BMFace.mk true (Vector.mk 0 0 (-1))].

Definition opposite_faces_context : Context :=
  mkContext (example_scene Euler.zero [cube]) (Some 1%nat)
            "EDIT_MESH" [] opposite_faces [].

(** Edit mode with one face selected whose normal points along +X. *)
Definition side_face_context : Context :=
  mkContext (example_scene Euler.zero [cube]) (Some 1%nat)
            "EDIT_MESH" [] [BMFace.mk true (Vector.mk 1 0 0)] [].

(** Object mode, cursor at rest, both objects selected. *)
Definition rest_context : Context :=
  mkContext (example_scene Euler.zero [cube; lamp]) (Some 1%nat)
            "OBJECT" [] [] [].

(** Object mode with two objects, none of them selected. *)
Definition nothing_selected_context : Context :=
  mkContext
    (example_scene Euler.zero
       [Object.mk 1 false (Vector.mk 1 2 3) (Euler.mk 0 0 0)
                  (translation4 (Vector.mk 1 2 3));
        Object.mk 2 false (Vector.mk 3 4 5) (Euler.mk 0 0 0)
                  (translation4 (Vector.mk 3 4 5))])
    None "OBJECT" [] [] [].



(** No object, no face, no area: only orientation slots, one of them named
    "Cursor". *)
Definition slots_only_context : Context :=
  mkContext
    (mkScene (Cursor.mk Vector.zero Euler.zero "XYZ") default_props []
             [OrientationSlot.mk "GLOBAL" identity4;
              OrientationSlot.mk "Cursor" identity4])
    None "OBJECT" [] [] [].

(** Both objects selected, the farther one listed first. *)
Definition far_first_context : Context :=
  mkContext (example_scene Euler.zero [lamp; cube]) (Some 1%nat)
            "OBJECT" [] [] [].

(** ** Operator families

    Operators that only write to the 3D cursor, and operators that only
    write to scene objects; the remaining ones hand over to a host
    operator. *)

Definition writes_cursor_only (op : Operator) : bool :=
  match op with
  | cursor_reset_orientation
  | cursor_rotate_axis _ _
  | cursor_flip_axis _
  | cursor_copy_from_object
  | cursor_align_to_view
  | cursor_align_to_surface
  | cursor_set_preset_orientation _
  | cursor_set_to_selection_center
  | cursor_set_to_view_center => true
  | _ => false
  end.

Definition writes_cursor_location (op : Operator) : bool :=
  match op with
  | cursor_set_to_selection_center | cursor_set_to_view_center => true
  | _ => false
  end.

Definition writes_selected_objects (op : Operator) : bool :=
  match op with
  | cursor_apply_to_object
  | object_rotate_axis_step _ _
  | object_reset_orientation
  | object_align_objects_to_each_other
  | object_copy_cursor_location => true
  | _ => false
  end.

(** What an object-writing operator may do to one object: keep its name and
    selection flag, and leave it alone when it is not selected. *)
Definition same_identity (o o' : Object.t) : Prop :=
  Object.name o' = Object.name o
  /\ Object.select o' = Object.select o
  /\ (Object.select o = false -> o' = o).

(** Edit mode with one selected face that looks straight down. *)
Definition down_face_context : Context :=
  mkContext (example_scene (Euler.mk 0 0 3) [cube]) (Some 1%nat)
            "EDIT_MESH" [] [BMFace.mk true (Vector.mk 0 0 (-1))] [].

(** A screen: a properties editor, then a 3D viewport whose header region
    has no view data and whose window region has a view rotation. *)
Definition example_areas : list Area.t :=
  [Area.mk "PROPERTIES" [Space.mk "PROPERTIES"]
           [Region.mk "WINDOW" (Region.mkdata None None)];
   Area.mk "VIEW_3D" [Space.mk "VIEW_3D"]
           [Region.mk "HEADER" (Region.mkdata None None);
            Region.mk "WINDOW"
                      (Region.mkdata (Some (Quaternion.mk 1 0 0 0)) None)]].

Definition viewport_context : Context :=
  mkContext (example_scene (Euler.mk 0 0 3) [cube]) (Some 1%nat)
            "OBJECT" example_areas [] [].

(** The same scene with an orientation slot named "Cursor" between two
    others, the last of which carries the same name again. *)
Definition example_slots : list OrientationSlot.t :=
  [OrientationSlot.mk "GLOBAL" identity4;
   OrientationSlot.mk "Cursor" identity4;
   OrientationSlot.mk "Cursor" identity4].

Definition slots_context : Context :=
  mkContext
    (mkScene (Cursor.mk Vector.zero Euler.zero "XYZ") default_props [cube]
             example_slots)
    (Some 1%nat) "OBJECT" [] [] [].

(** *** Distribution along a row of the cursor matrix

    [object.distribute_along_cursor] takes its direction from
    [cursor_matrix[axis_idx][:3]], the first three entries of row
    [axis_idx] of [cursor.matrix]. *)

(** The key [object.distribute_along_cursor] sorts an object by: its
    world position relative to the cursor, projected on that row. *)
Definition row_projection {host : Host} (axis : Axis) (context : Context)
           (obj : Object.t) : R :=
  let cur := cursor (scene context) in
  Vector.dot
    (Vector.sub (Matrix4.to_translation (Object.matrix_world obj))
                (Cursor.location cur))
    (Matrix4.row_xyz (cursor_matrix cur) (axis_index axis)).

Definition row_projections {host : Host} (axis : Axis) (context : Context)
  : list (R * nat) :=
  map (fun obj => (row_projection axis context obj, Object.name obj))
      (selected_objects context).

(** The [i]-th place along that row: the cursor location moved by
    [i * spacing] times the row. *)
Definition row_slot {host : Host} (spacing : R) (axis : Axis)
           (context : Context) (i : nat) : Vector.t :=
  let cur := cursor (scene context) in
  Vector.add (Cursor.location cur)
             (Vector.mul (Matrix4.row_xyz (cursor_matrix cur) (axis_index axis))
                         (INR i * spacing)).

(** What the assignment loop does to one object of the scene. *)
Fixpoint placed (start : nat) (origin direction : Vector.t) (spacing : R)
         (positions : list (R * nat)) (o : Object.t) : Object.t :=
  match positions with
  | [] => o
  | (_, n) :: rest =>
      placed (S start) origin direction spacing rest
        (if Nat.eqb (Object.name o) n then
           Object.with_location o
             (Vector.add origin
                         (Vector.mul direction (INR start * spacing)))
         else o)
  end.

Definition key_le (p q : R * nat) : Prop := fst p <= fst q.

(** ** Registration

    The state the registration functions read and write.  The host side is
    kept to what those functions touch: the add-on modules [addon_utils]
    lists, the Machine Tools pie class in [bpy.types] with the two attributes
    the add-on reads and writes, the draw functions appended to the snap
    menu, the registered classes, the scene property, and the items of the
    "3D View" keymap of the add-on key configuration.  A keymap item is told
    apart by the id the host gives it when it is created.  The module's own
    global [addon_keymaps] holds the handles of the items it created. *)

Inductive DrawMethod : Type :=
  | foreign_draw (id : nat)
  | enhanced_draw.

Record PieClass : Type := mkPieClass {
  (** the attribute [draw], if the class has one *)
  pie_draw : option DrawMethod;
  (** the attribute [_original_draw_cursor_align], if the class has one *)
  pie_original_draw : option DrawMethod
}.

Record KeymapItem : Type := mkKeymapItem {
  kmi_id : nat;
  kmi_idname : string;
  kmi_type : string;
  kmi_value : string;
  kmi_shift : bool;
  kmi_ctrl : bool;
  kmi_alt : bool;
  kmi_properties_name : string
}.

Record Registry : Type := mkRegistry {
  addon_modules : list AddonModule;
  MACHIN3_MT_cursor_pie : option PieClass;
  snap_menu_draw_funcs : list string;
  registered_classes : list string;
  scene_property_defined : bool;
  (** the settings of the scene [bpy.context] leads to, if it leads to one *)
  context_scene_props : option CursorAlignProperties;
  keyconfig_addon : bool;
  view3d_keymap_items : list KeymapItem;
  next_keymap_item_id : nat;
  addon_keymaps : list nat
}.

Definition with_pie_class (r : Registry) (c : option PieClass) : Registry :=
  mkRegistry (addon_modules r) c (snap_menu_draw_funcs r)
             (registered_classes r) (scene_property_defined r)
             (context_scene_props r) (keyconfig_addon r)
             (view3d_keymap_items r) (next_keymap_item_id r)
             (addon_keymaps r).

Definition with_snap_menu (r : Registry) (l : list string) : Registry :=
  mkRegistry (addon_modules r) (MACHIN3_MT_cursor_pie r) l
             (registered_classes r) (scene_property_defined r)
             (context_scene_props r) (keyconfig_addon r)
             (view3d_keymap_items r) (next_keymap_item_id r)
             (addon_keymaps r).

Definition with_classes (r : Registry) (l : list string) : Registry :=
  mkRegistry (addon_modules r) (MACHIN3_MT_cursor_pie r)
             (snap_menu_draw_funcs r) l (scene_property_defined r)
             (context_scene_props r) (keyconfig_addon r)
             (view3d_keymap_items r) (next_keymap_item_id r)
             (addon_keymaps r).

Definition with_scene_property (r : Registry) (b : bool) : Registry :=
  mkRegistry (addon_modules r) (MACHIN3_MT_cursor_pie r)
             (snap_menu_draw_funcs r) (registered_classes r) b
             (context_scene_props r) (keyconfig_addon r)
             (view3d_keymap_items r) (next_keymap_item_id r)
             (addon_keymaps r).

Definition with_keymap (r : Registry) (items : list KeymapItem) (next : nat)
           (handles : list nat) : Registry :=
  mkRegistry (addon_modules r) (MACHIN3_MT_cursor_pie r)
             (snap_menu_draw_funcs r) (registered_classes r)
             (scene_property_defined r) (context_scene_props r)
             (keyconfig_addon r) items next handles.

(** [bpy.context.scene.cursor_align_props]; [None] stands for the
    [AttributeError] raised when the context has no scene or the property is
    not defined. *)
Definition lookup_props (r : Registry) : option CursorAlignProperties :=
  if scene_property_defined r then context_scene_props r else None.

Definition integrate_with_machine_tools_cursor_pie (r : Registry)
  : bool * Registry :=
  match MACHIN3_MT_cursor_pie r with
  | Some cursor_pie_class =>
      match pie_draw cursor_pie_class with
      | Some current_draw =>
          let original :=
            match pie_original_draw cursor_pie_class with
            | None => Some current_draw
            | Some kept => Some kept
            end in
          (true,
           with_pie_class r (Some (mkPieClass (Some enhanced_draw) original)))
      | None => (false, r)
      end
  | None => (false, r)
  end.

Definition remove_machine_tools_integration (r : Registry) : Registry :=
  match MACHIN3_MT_cursor_pie r with
  | Some cursor_pie_class =>
      match pie_original_draw cursor_pie_class with
      | Some original =>
          with_pie_class r (Some (mkPieClass (Some original) None))
      | None => r
      end
  | None => r
  end.

Definition pie_wheel_idname : string := "VIEW3D_MT_cursor_origin_wheel".

(** [keymap.keymap_items.new(...)], the assignment of [properties.name] and
    [addon_keymaps.append((keymap, keymap_item))]. *)
Definition bind_pie_key (r : Registry) (shift ctrl alt : bool) : Registry :=
  let keymap_item :=
    mkKeymapItem (next_keymap_item_id r) "wm.call_menu_pie" "S" "PRESS"
                 shift ctrl alt pie_wheel_idname in
  with_keymap r (view3d_keymap_items r ++ [keymap_item])
              (S (next_keymap_item_id r))
              (addon_keymaps r ++ [kmi_id keymap_item]).

Definition register_keymap_pie (r : Registry) : Registry :=
  if negb (keyconfig_addon r) then r
  else
    let key_modifier :=
      match lookup_props r with
      | Some props => pie_menu_key props
      | None => KeyALT
      end in
    match key_modifier with
    | KeySHIFT => bind_pie_key r true false false
    | KeyCTRL => bind_pie_key r false true false
    | KeyALT => bind_pie_key r false false true
    | KeyNONE => r
    end.

(** [km.keymap_items.remove(kmi)] *)
Definition remove_keymap_item (id : nat) (items : list KeymapItem)
  : list KeymapItem :=
  filter (fun item => negb (Nat.eqb (kmi_id item) id)) items.

Definition unregister_keymap_pie (r : Registry) : Registry :=
  with_keymap r
    (fold_left (fun items kmi => remove_keymap_item kmi items)
               (addon_keymaps r) (view3d_keymap_items r))
    (next_keymap_item_id r) [].

Definition register_menu_draw (r : Registry) : Registry :=
  with_snap_menu r (snap_menu_draw_funcs r ++ ["draw_snap_menu"%string]).

(** [list.remove]: the first occurrence goes; an absent element raises, which
    every caller here either swallows or does not meet. *)
Fixpoint remove_first (x : string) (l : list string) : list string :=
  match l with
  | [] => []
  | y :: rest => if String.eqb y x then rest else y :: remove_first x rest
  end.

Definition unregister_menu_draw (r : Registry) : Registry :=
  with_snap_menu r (remove_first "draw_snap_menu" (snap_menu_draw_funcs r)).

Definition classes : list string :=
  ["CursorAlignProperties";
   "CURSOR_OT_reset_orientation";
   "CURSOR_OT_rotate_axis";
   "CURSOR_OT_flip_axis";
   "CURSOR_OT_copy_from_object";
   "CURSOR_OT_apply_to_object";
   "CURSOR_OT_align_to_view";
   "CURSOR_OT_align_to_surface";
   "CURSOR_OT_set_preset_orientation";
   "CURSOR_OT_set_to_selection_center";
   "CURSOR_OT_set_to_view_center";
   "CURSOR_OT_machine_tools_menu";
   "OBJECT_OT_origin_to_cursor";
   "OBJECT_OT_rotate_axis";
   "OBJECT_OT_reset_orientation";
   "OBJECT_OT_align_to_cursor";
   "OBJECT_OT_snap_cursor_to_selected";
   "OBJECT_OT_snap_selected_to_cursor";
   "OBJECT_OT_create_transform_orientation";
   "OBJECT_OT_align_objects_to_each_other";
   "OBJECT_OT_distribute_along_cursor";
   "OBJECT_OT_copy_cursor_location";
   "VIEW3D_PT_cursor_align";
   "VIEW3D_MT_cursor_origin_wheel";
   "VIEW3D_MT_cursor_align_machine_tools";
   "CursorAlignAddonPreferences"]%string.

(** [bpy.utils.register_class] and [bpy.utils.unregister_class] *)
Definition register_class (r : Registry) (cls : string) : Registry :=
  with_classes r (registered_classes r ++ [cls]).

Definition unregister_class (r : Registry) (cls : string) : Registry :=
  with_classes r (remove_first cls (registered_classes r)).

Definition register (r : Registry) : Registry :=
  let r := fold_left register_class classes r in
  let r := with_scene_property r true in
  let machine_tools_available :=
    is_machine_tools_available (addon_modules r) in
  let r :=
    if machine_tools_available then
      snd (integrate_with_machine_tools_cursor_pie r)
    else register_menu_draw r in
  match lookup_props r with
  | Some props => if use_pie_menu props then register_keymap_pie r else r
  | None => r
  end.

Definition unregister (r : Registry) : Registry :=
  let r := unregister_menu_draw r in
  let r := unregister_keymap_pie r in
  let r := remove_machine_tools_integration r in
  let r := with_scene_property r false in
  fold_left unregister_class (rev classes) r.

(** A registry the add-on has left no trace in. *)
Definition untouched (r : Registry) : Prop :=
  (forall cls, In cls classes -> ~ In cls (registered_classes r))
  /\ scene_property_defined r = false
  /\ ~ In "draw_snap_menu"%string (snap_menu_draw_funcs r)
  /\ (forall c, MACHIN3_MT_cursor_pie r = Some c ->
                pie_original_draw c = None)
  /\ addon_keymaps r = []
  /\ Forall (fun item => (kmi_id item < next_keymap_item_id r)%nat)
            (view3d_keymap_items r).

(** Everything but the id counter of the keymap. *)
Definition same_registrations (r r' : Registry) : Prop :=
  addon_modules r' = addon_modules r
  /\ MACHIN3_MT_cursor_pie r' = MACHIN3_MT_cursor_pie r
  /\ snap_menu_draw_funcs r' = snap_menu_draw_funcs r
  /\ registered_classes r' = registered_classes r
  /\ scene_property_defined r' = scene_property_defined r
  /\ context_scene_props r' = context_scene_props r
  /\ keyconfig_addon r' = keyconfig_addon r
  /\ view3d_keymap_items r' = view3d_keymap_items r
  /\ addon_keymaps r' = addon_keymaps r.

(** A stock registry: Machine Tools enabled with its pie class, one foreign
    hotkey in the keymap, and a scene whose settings ask for the pie menu on
    Ctrl+S. *)
Definition machine_tools_registry : Registry :=
  mkRegistry
    [mkAddonModule "node_wrangler" true; mkAddonModule "MACHIN3tools" true]
    (Some (mkPieClass (Some (foreign_draw 7)) None))
    ["draw_other"%string] ["OtherPanel"%string] false
    (Some (mkProps Step90 22.5 true true KeyCTRL))
    true
    [mkKeymapItem 0 "wm.call_menu" "S" "PRESS" true false false
                  "VIEW3D_MT_snap"]
    1 [].

(** The same without Machine Tools. *)
Definition standalone_registry : Registry :=
  mkRegistry
    [mkAddonModule "node_wrangler" true; mkAddonModule "MACHIN3tools" false]
    None
    ["draw_other"%string] ["OtherPanel"%string] false
    (Some (mkProps Step90 22.5 true true KeyCTRL))
    true
    [mkKeymapItem 0 "wm.call_menu" "S" "PRESS" true false false
                  "VIEW3D_MT_snap"]
    1 [].

(** A hotkey that opens the add-on's pie wheel: S pressed with exactly one
    of Shift, Ctrl and Alt. *)
Definition pie_binding (item : KeymapItem) : Prop :=
  kmi_idname item = "wm.call_menu_pie"%string
  /\ kmi_type item = "S"%string
  /\ kmi_value item = "PRESS"%string
  /\ kmi_properties_name item = pie_wheel_idname
  /\ ((if kmi_shift item then 1 else 0)
      + (if kmi_ctrl item then 1 else 0)
      + (if kmi_alt item then 1 else 0) = 1)%nat.

(** [register_keymap_pie] called [n] times in a row. *)
Fixpoint register_keymap_pie_times (n : nat) (r : Registry) : Registry :=
  match n with
  | O => r
  | S k => register_keymap_pie (register_keymap_pie_times k r)
  end.

(** What the add-on has added to the keymap of [r0] on the way to [r]. *)
Definition keymap_grown (r0 r : Registry) (added : list KeymapItem) : Prop :=
  view3d_keymap_items r = view3d_keymap_items r0 ++ added
  /\ addon_keymaps r = addon_keymaps r0 ++ map kmi_id added
  /\ Forall pie_binding added
  /\ Forall (fun item =>
               (next_keymap_item_id r0 <= kmi_id item
                < next_keymap_item_id r)%nat) added
  /\ (next_keymap_item_id r0 <= next_keymap_item_id r)%nat.

(** ** User interface

    What a draw function puts on the layout, in drawing order.  Boxes, rows
    and columns only place the entries and icons only decorate them; both are
    left out.  A button drawn without [text] shows the operator's own label
    and is recorded with the empty text.  [settings] are the properties
    assigned on the value [layout.operator] returns. *)

Inductive UIEntry : Type :=
  | ui_label (text : string)
  | ui_separator
  | ui_prop (property text : string)
  | ui_operator (idname text : string) (settings : list (string * string)).

Definition kv (key value : string) : string * string := (key, value).

(** [props.rotation_step] as the identifier it is. *)
Definition step_identifier (s : RotationStep) : string :=
  match s with
  | Step90 => "90"
  | Step45 => "45"
  | Step30 => "30"
  | Step15 => "15"
  | StepCUSTOM => "CUSTOM"
  end.

(** The three buttons each rotation row of the sidebar panel draws. *)
Definition panel_rotation_row (idname axis : string) : list UIEntry :=
  [ui_operator idname (String.append "+" axis) [kv "axis" axis];
   ui_operator idname (String.append "-" axis) [kv "axis" axis];
   ui_operator idname (String.append "-" axis) [kv "direction" "NEG"]].

Definition VIEW3D_PT_cursor_align_draw (machine_tools : bool)
           (props : CursorAlignProperties) : list UIEntry :=
  ((if machine_tools then
      [ui_label "Machine Tools Integration";
       ui_operator "cursor.machine_tools_menu" "Quick Access Menu" [];
       ui_label "Add 'cursor.machine_tools_menu' to Quick Favorites"]
    else [])
   ++ [ui_label "Cursor Orientation";
       ui_prop "rotation_euler" "Euler";
       ui_operator "cursor.reset_orientation" "" []]
   ++ panel_rotation_row "cursor.rotate_axis" "X"
   ++ panel_rotation_row "cursor.rotate_axis" "Y"
   ++ panel_rotation_row "cursor.rotate_axis" "Z"
   ++ [ui_operator "cursor.flip_axis" "Flip X" [kv "axis" "X"];
       ui_operator "cursor.flip_axis" "Flip Y" [kv "axis" "Y"];
       ui_operator "cursor.flip_axis" "Flip Z" [kv "axis" "Z"];
       ui_operator "cursor.copy_from_object" "" [];
       ui_operator "cursor.apply_to_object" "" [];
       ui_operator "cursor.align_to_view" "Align to View" [];
       ui_operator "cursor.align_to_surface" "Align to Surface" [];
       ui_operator "cursor.set_preset_orientation" "Set Preset Orientation" [];
       ui_operator "cursor.set_to_selection_center"
                   "Cursor to Selection Center" [];
       ui_operator "cursor.set_to_view_center" "Cursor to View Center" [];
       ui_operator "object.create_transform_orientation"
                   "Create Transform Orientation" [];
       ui_label "Rotation Settings";
       ui_prop "rotation_step" "Step"]
   ++ (if is_custom (rotation_step props) then [ui_prop "custom_step" "Angle"]
       else [])
   ++ [ui_label "Object Alignment";
       ui_operator "object.cursor_to_selected" "Cursor to Sel" [];
       ui_operator "object.selected_to_cursor" "Sel to Cursor" [];
       ui_operator "object.origin_to_cursor" "Origin to Cursor" [];
       ui_operator "object.copy_cursor_location" "Copy Cursor Loc" [];
       ui_operator "object.reset_orientation" "Reset Rot" []]
   ++ panel_rotation_row "object.rotate_axis_step" "X"
   ++ panel_rotation_row "object.rotate_axis_step" "Y"
   ++ panel_rotation_row "object.rotate_axis_step" "Z"
   ++ [ui_operator "object.align_to_cursor" "Align to Cursor" [];
       ui_operator "object.align_objects_to_each_other" "Align to Active" [];
       ui_operator "object.distribute_along_cursor"
                   "Distribute Along Cursor" []]).

(** The two buttons the menus draw per axis. *)
Definition menu_rotation_row (axis : string) : list UIEntry :=
  [ui_operator "cursor.rotate_axis" (String.append "+" axis)
               [kv "axis" axis; kv "direction" "POS"];
   ui_operator "cursor.rotate_axis" (String.append "-" axis)
               [kv "axis" axis; kv "direction" "NEG"]].

Definition draw_snap_menu (machine_tools : bool) : list UIEntry :=
  (if machine_tools then []
   else
     [ui_separator;
      ui_label "Cursor & Origin Alignment";
      ui_operator "cursor.reset_orientation" "Cursor to World Orientation" [];
      ui_operator "cursor.align_to_view" "Cursor to View Orientation" [];
      ui_operator "cursor.align_to_surface" "Cursor to Surface Normal" [];
      ui_operator "cursor.set_preset_orientation" "Cursor to Preset" [];
      ui_operator "cursor.set_to_selection_center"
                  "Cursor to Selection Center" [];
      ui_operator "cursor.set_to_view_center" "Cursor to View Center" [];
      ui_operator "object.origin_to_cursor" "Origin to Cursor" [];
      ui_operator "object.copy_cursor_location" "Object to Cursor Location" [];
      ui_operator "object.align_to_cursor" "Objects to Cursor Orientation"
                  [kv "move_objects" "True"; kv "use_rotation" "True"];
      ui_operator "object.align_objects_to_each_other"
                  "Objects to Active Orientation" [];
      ui_separator;
      ui_label "Rotation & Transform"]
     ++ menu_rotation_row "X" ++ menu_rotation_row "Y"
     ++ menu_rotation_row "Z"
     ++ [ui_separator;
         ui_label "Utilities";
         ui_operator "cursor.copy_from_object" "Cursor to Object Rotation" [];
         ui_operator "cursor.apply_to_object" "Apply Cursor to Objects" [];
         ui_operator "object.create_transform_orientation"
                     "Create Transform Orientation" [];
         ui_operator "object.distribute_along_cursor"
                     "Distribute Along Cursor" []]).

Definition VIEW3D_MT_cursor_origin_wheel_draw (machine_tools : bool)
  : list UIEntry :=
  ([ui_operator "object.cursor_to_selected" "Cursor to Selected" [];
    ui_operator "object.selected_to_cursor" "Selected to Cursor"
                [kv "use_offset" "False"];
    ui_operator "object.origin_to_cursor" "Origin to Cursor" [];
    ui_operator "object.align_to_cursor" "Align to Cursor"
                [kv "move_objects" "True"; kv "use_rotation" "True"];
    ui_operator "cursor.reset_orientation" "Reset Cursor" [];
    ui_operator "object.reset_orientation" "Reset Objects" [];
    ui_operator "cursor.rotate_axis" "Rotate Cursor +Z"
                [kv "axis" "Z"; kv "direction" "POS"];
    ui_operator "object.rotate_axis_step" "Rotate Objects +Z"
                [kv "axis" "Z"; kv "direction" "POS"]]
   ++ (if negb machine_tools then
         [ui_operator "cursor.align_to_view" "Align to View" [];
          ui_operator "cursor.align_to_surface" "Align to Surface" []]
       else [])).

Definition VIEW3D_MT_cursor_align_machine_tools_draw
           (props : CursorAlignProperties) : list UIEntry :=
  ([ui_label "Cursor Orientation";
    ui_separator;
    ui_operator "cursor.reset_orientation" "" [];
    ui_operator "cursor.align_to_view" "" [];
    ui_operator "cursor.align_to_surface" "" [];
    ui_operator "cursor.set_preset_orientation" "" [];
    ui_separator;
    ui_label "Cursor Position";
    ui_separator;
    ui_operator "cursor.set_to_selection_center" "" [];
    ui_operator "cursor.set_to_view_center" "" [];
    ui_separator;
    ui_label (String.append "Rotate ("
                (String.append (step_identifier (rotation_step props)) "°)"));
    ui_separator]
   ++ menu_rotation_row "X" ++ menu_rotation_row "Y"
   ++ menu_rotation_row "Z").

(** The slot [enhanced_draw] adds to the Machine Tools pie before it calls
    the saved original. *)
Definition enhanced_draw_slot : list UIEntry :=
  [ui_label "Cursor Alignment";
   ui_separator;
   ui_operator "cursor.reset_orientation" "Reset" [];
   ui_operator "cursor.align_to_view" "to View" [];
   ui_operator "cursor.set_preset_orientation" "Preset" [];
   ui_operator "cursor.align_to_surface" "Surface" [];
   ui_operator "cursor.copy_from_object" "Copy" [];
   ui_operator "cursor.apply_to_object" "Apply" []].

(** *** From a button to the operator it runs

    The host builds the operator from the class registered under the
    button's [idname], with the declared default of every property that the
    button's settings do not assign. *)

(** The value a property ends up with: its last assignment, or the declared
    default. *)
Definition setting (key : string) (settings : list (string * string))
           (default : string) : string :=
  fold_left (fun current kv => if String.eqb (fst kv) key then snd kv
                               else current)
            settings default.

Definition axis_of (s : string) : Axis :=
  if String.eqb s "X" then X else if String.eqb s "Y" then Y else Z.

Definition direction_of (s : string) : Direction :=
  if String.eqb s "NEG" then NEG else POS.

Definition orientation_of (s : string) : Orientation :=
  if String.eqb s "RIGHT" then RIGHT
  else if String.eqb s "TOP" then TOP
  else if String.eqb s "BACK" then BACK
  else if String.eqb s "LEFT" then LEFT
  else if String.eqb s "BOTTOM" then BOTTOM
  else FRONT.

Definition bool_of (s : string) : bool := String.eqb s "True".

Definition op_entry (idname : string)
           (build : list (string * string) -> Operator)
  : string * (list (string * string) -> Operator) := (idname, build).

Definition operator_table : list (string * (list (string * string) -> Operator)) :=
  [op_entry "cursor.reset_orientation" ( fun _ => cursor_reset_orientation);
   op_entry "cursor.rotate_axis" (
    fun st => cursor_rotate_axis (axis_of (setting "axis" st "Z"))
                                 (direction_of (setting "direction" st "POS")));
   op_entry "cursor.flip_axis" (
    fun st => cursor_flip_axis (axis_of (setting "axis" st "Z")));
   op_entry "cursor.copy_from_object" ( fun _ => cursor_copy_from_object);
   op_entry "cursor.apply_to_object" ( fun _ => cursor_apply_to_object);
   op_entry "cursor.align_to_view" ( fun _ => cursor_align_to_view);
   op_entry "cursor.align_to_surface" ( fun _ => cursor_align_to_surface);
   op_entry "cursor.set_preset_orientation" (
    fun st =>
      cursor_set_preset_orientation
        (orientation_of (setting "orientation" st "FRONT")));
   op_entry "cursor.set_to_selection_center" ( fun _ => cursor_set_to_selection_center);
   op_entry "cursor.set_to_view_center" ( fun _ => cursor_set_to_view_center);
   op_entry "object.origin_to_cursor" ( fun _ => object_origin_to_cursor);
   op_entry "object.rotate_axis_step" (
    fun st =>
      object_rotate_axis_step (axis_of (setting "axis" st "Z"))
                              (direction_of (setting "direction" st "POS")));
   op_entry "object.reset_orientation" ( fun _ => object_reset_orientation);
   op_entry "object.align_to_cursor" (
    fun st =>
      object_align_to_cursor (bool_of (setting "move_objects" st "True"))
                             (bool_of (setting "use_rotation" st "True")));
   op_entry "object.cursor_to_selected" ( fun _ => object_cursor_to_selected);
   op_entry "object.selected_to_cursor" (
    fun st =>
      object_selected_to_cursor (bool_of (setting "use_offset" st "False")));
   op_entry "object.create_transform_orientation" (
    fun st =>
      object_create_transform_orientation (setting "name" st "Cursor"));
   op_entry "object.align_objects_to_each_other" (
    fun _ => object_align_objects_to_each_other);
   op_entry "object.distribute_along_cursor" (
    fun st =>
      object_distribute_along_cursor 1 (axis_of (setting "axis" st "Z")));
   op_entry "object.copy_cursor_location" ( fun _ => object_copy_cursor_location);
   op_entry "cursor.machine_tools_menu" ( fun _ => cursor_machine_tools_menu)].

Fixpoint lookup_operator (idname : string)
         (table : list (string * (list (string * string) -> Operator)))
  : option (list (string * string) -> Operator) :=
  match table with
  | [] => None
  | (id, build) :: rest =>
      if String.eqb id idname then Some build else lookup_operator idname rest
  end.

Definition operator_of_entry (e : UIEntry) : option Operator :=
  match e with
  | ui_operator idname _ settings =>
      match lookup_operator idname operator_table with
      | Some build => Some (build settings)
      | None => None
      end
  | _ => None
  end.

Definition is_button (e : UIEntry) : bool :=
  match e with ui_operator _ _ _ => true | _ => false end.

(** A button that rotates, with its label, axis and direction. *)
Definition rotation_of_entry (e : UIEntry)
  : option (string * Axis * Direction) :=
  match e, operator_of_entry e with
  | ui_operator _ text _, Some (cursor_rotate_axis a d) => Some (text, a, d)
  | ui_operator _ text _, Some (object_rotate_axis_step a d) =>
      Some (text, a, d)
  | _, _ => None
  end.

Definition rotation_label (a : Axis) (d : Direction) : string :=
  String.append (match d with POS => "+" | NEG => "-" end) (axis_name a).

(** Every place the add-on draws buttons. *)
Definition all_drawn (machine_tools : bool) (props : CursorAlignProperties)
  : list UIEntry :=
  VIEW3D_PT_cursor_align_draw machine_tools props
  ++ draw_snap_menu machine_tools
  ++ VIEW3D_MT_cursor_origin_wheel_draw machine_tools
  ++ VIEW3D_MT_cursor_align_machine_tools_draw props
  ++ enhanced_draw_slot.

(** * Properties *)

(** ** Angles *)

Lemma two_pi_pos : 0 < 2 * PI.
Proof. pose proof PI_RGT_0. lra. Qed.

Lemma wrap_angle_range (a : R) :
  - PI <= Euler.wrap_angle a < PI.
Proof.
  unfold Euler.wrap_angle.
  pose proof two_pi_pos as Hpos.
  destruct (base_Int_part ((a + PI) / (2 * PI))) as [Hlo Hhi].
  set (k := IZR (Int_part ((a + PI) / (2 * PI)))) in *.
  assert (Heq : (a + PI) / (2 * PI) * (2 * PI) = a + PI)
    by (field; lra).
  assert (H1 : k * (2 * PI) <= a + PI).
  { rewrite <- Heq. apply Rmult_le_compat_r; lra. }
  assert (H2 : a + PI < (k + 1) * (2 * PI)).
  { rewrite <- Heq. apply Rmult_lt_compat_r; lra. }
  split; lra.
Qed.

Lemma wrap_turns_in_range (e : Euler.t) : Euler.in_range (Euler.wrap_turns e).
Proof.
  unfold Euler.in_range, Euler.wrap_turns; simpl.
  pose proof (wrap_angle_range (Euler.x e)).
  pose proof (wrap_angle_range (Euler.y e)).
  pose proof (wrap_angle_range (Euler.z e)).
  repeat split; lra.
Qed.

Lemma idle_host_keeps_within_pi : keeps_within_pi idle_host.
Proof. intros e. apply wrap_turns_in_range. Qed.

Lemma radians_bounds (deg : R) :
  0 < deg <= 360 -> 0 < radians deg <= 2 * PI.
Proof.
  intros [Hlo Hhi]. unfold radians.
  pose proof PI_RGT_0 as Hpi.
  split.
  - apply Rmult_lt_0_compat; lra.
  - replace (2 * PI) with (360 * (PI / 180)) by field.
    apply Rmult_le_compat_r; lra.
Qed.

Lemma get_step_bounds (s : Scene) :
  props_ok (cursor_align_props s) -> 0 < get_step s <= 2 * PI.
Proof.
  unfold props_ok, custom_step_min, custom_step_max, get_step.
  intros [Hlo Hhi]. apply radians_bounds.
  destruct (rotation_step (cursor_align_props s)); simpl; lra.
Qed.

Lemma upper_axis_name (a : Axis) : upper (axis_name a) = axis_name a.
Proof. destruct a; reflexivity. Qed.

Lemma rotate_euler_axis {host : Host} (e : Euler.t) (a : Axis) (d : R) :
  rotate_euler e (axis_name a) d = euler_normalized (add_to_axis e a d).
Proof.
  unfold rotate_euler. rewrite upper_axis_name.
  destruct a; reflexivity.
Qed.

(** ** The helpers on concrete inputs *)

Example get_step_default : get_step (scene rest_context) = PI / 2.
Proof. unfold get_step, radians; simpl. lra. Qed.

Example get_step_custom :
  get_step
    (mkScene (Cursor.mk Vector.zero Euler.zero "XYZ")
             (mkProps StepCUSTOM 22.5 true false KeyALT) [] [])
  = PI / 8.
Proof. unfold get_step, radians; simpl. lra. Qed.

Example upper_lowercase : upper "xyz" = "XYZ"%string.
Proof. reflexivity. Qed.

Example rotate_euler_unknown_axis (host : Host) (e : Euler.t) (delta : R) :
  rotate_euler e "W" delta = euler_normalized e.
Proof. reflexivity. Qed.

Example sort_by_key_is_stable :
  sort_by_key [(2, 1%nat); (1, 2%nat); (2, 3%nat); (1, 4%nat)]
  = [(1, 2%nat); (1, 4%nat); (2, 1%nat); (2, 3%nat)].
Proof.
  simpl.
  repeat (match goal with
          | |- context [Rle_dec ?a ?b] => destruct (Rle_dec a b); try lra
          end; simpl).
  reflexivity.
Qed.

Example distribute_orders_by_row_projection :
  map (fun o => (Object.name o, Object.location o))
      (objects
         (scene
            (after
               (@OBJECT_OT_distribute_along_cursor idle_host 2 Z
                                                   far_first_context))))
  = [(2%nat, Vector.mk 0 0 2); (1%nat, Vector.mk 0 0 0)].
Proof.
  unfold OBJECT_OT_distribute_along_cursor. simpl.
  match goal with
  | |- context [Rle_dec ?a ?b] => destruct (Rle_dec a b) as [Hle|Hgt]
  end.
  - exfalso. unfold Vector.dot, Vector.sub in Hle. simpl in Hle. lra.
  - simpl. unfold Vector.add, Vector.mul; simpl.
    repeat f_equal; lra.
Qed.

(** ** Context bookkeeping *)

Lemma set_objects_same (context : Context) :
  set_objects context (objects (scene context)) = context.
Proof. destruct context as [[c p l s] a m ar f mt]. reflexivity. Qed.

Lemma set_cursor_same (context : Context) :
  set_cursor context (cursor (scene context)) = context.
Proof. destruct context as [[c p l s] a m ar f mt]. reflexivity. Qed.

Lemma filter_nil_all_false {A : Type} (p : A -> bool) (l : list A) :
  filter p l = [] -> forall a, In a l -> p a = false.
Proof.
  induction l as [|b l IH]; simpl; intros Hnil a Hin; [contradiction|].
  destruct (p b) eqn:Hb; [discriminate|].
  destruct Hin as [->|Hin]; auto.
Qed.

Lemma for_each_selected_none (f : Object.t -> Object.t) (context : Context) :
  selected_objects context = [] -> for_each_selected f context = context.
Proof.
  intros Hnil. unfold for_each_selected.
  transitivity (set_objects context (objects (scene context)));
    [|apply set_objects_same].
  f_equal.
  transitivity (map (fun o : Object.t => o) (objects (scene context)));
    [|apply map_id].
  apply map_ext_in. intros o Hin.
  rewrite (filter_nil_all_false _ _ Hnil o Hin). reflexivity.
Qed.

(** ** cursor.reset_orientation *)

(** C5: [cursor.reset_orientation] sets the cursor's Euler rotation to
    (0, 0, 0) and returns FINISHED in every context, whatever is selected;
    nothing but the cursor rotation changes. *)
Theorem reset_orientation_zeroes_cursor (context : Context) :
  let out := CURSOR_OT_reset_orientation context in
  status out = FINISHED
  /\ Cursor.rotation_euler (cursor (scene (after out))) = Euler.mk 0 0 0
  /\ after out
     = set_cursor context
         (Cursor.with_rotation_euler (cursor (scene context)) (Euler.mk 0 0 0)).
Proof. cbv zeta. repeat split. Qed.

(** ** cursor.flip_axis *)

Lemma flip_component_twice (a : Axis) (e : Euler.t) :
  let flip e :=
    match a with
    | X => Euler.mk (- Euler.x e) (Euler.y e) (Euler.z e)
    | Y => Euler.mk (Euler.x e) (- Euler.y e) (Euler.z e)
    | Z => Euler.mk (Euler.x e) (Euler.y e) (- Euler.z e)
    end in
  flip (flip e) = e.
Proof.
  destruct e as [ex ey ez]; destruct a; simpl; rewrite Ropp_involutive;
    reflexivity.
Qed.

(** C10: executing [cursor.flip_axis] twice with the same axis restores the
    cursor's Euler rotation (and the whole context) exactly, for every
    starting rotation and every axis. *)
Theorem flip_axis_twice_restores (a : Axis) (context : Context) :
  let twice :=
    after (CURSOR_OT_flip_axis a (after (CURSOR_OT_flip_axis a context))) in
  Cursor.rotation_euler (cursor (scene twice))
  = Cursor.rotation_euler (cursor (scene context))
  /\ twice = context.
Proof.
  cbv zeta.
  assert (Hctx :
    after (CURSOR_OT_flip_axis a (after (CURSOR_OT_flip_axis a context)))
    = context).
  { destruct context as [[[loc e rm] p l s] act m ar f mt].
    unfold CURSOR_OT_flip_axis, finished, set_cursor,
      Cursor.with_rotation_euler, Euler.copy; simpl.
    pose proof (flip_component_twice a e) as Hflip. cbv zeta in Hflip.
    destruct a; simpl in *; rewrite Hflip; reflexivity. }
  rewrite Hctx. split; reflexivity.
Qed.

(** ** Rotation step *)

Lemma clamp_within (lo hi v : R) :
  lo <= hi -> lo <= clamp lo hi v <= hi.
Proof.
  intros Hle. unfold clamp.
  destruct (Rlt_dec v lo); [lra|].
  destruct (Rlt_dec hi v); lra.
Qed.

(** C6: the stored custom step stays within 0.1 .. 360 degrees (it starts
    there, and writing the custom angle or the step choice keeps it there),
    and for every scene with such a stored angle [get_step] returns a strictly
    positive angle of at most 2 PI radians, for the presets and for CUSTOM. *)
Theorem custom_step_range_bounds_get_step :
  props_ok default_props
  /\ (forall p v, props_ok (set_custom_step p v))
  /\ (forall p s, props_ok p -> props_ok (set_rotation_step p s))
  /\ (forall s : Scene,
        props_ok (cursor_align_props s) -> 0 < get_step s <= 2 * PI).
Proof.
  split; [|split; [|split]].
  - unfold props_ok, default_props, custom_step_min, custom_step_max,
      custom_step_default; simpl; lra.
  - intros p v. unfold props_ok, set_custom_step; simpl.
    apply clamp_within. unfold custom_step_min, custom_step_max. lra.
  - intros p s Hp. exact Hp.
  - exact get_step_bounds.
Qed.

Lemma custom_step_range_bounds_get_step_witness :
  let s :=
    mkScene (Cursor.mk Vector.zero Euler.zero "XYZ")
            (set_rotation_step (set_custom_step default_props 1000) StepCUSTOM)
            [] [] in
  props_ok (cursor_align_props s) /\ 0 < get_step s <= 2 * PI.
Proof.
  cbv zeta.
  pose proof custom_step_range_bounds_get_step as [_ [Hset [Hkeep Hstep]]].
  assert (Hok : props_ok
                  (set_rotation_step (set_custom_step default_props 1000)
                                     StepCUSTOM))
    by (apply Hkeep, Hset).
  split; [exact Hok|].
  apply Hstep. exact Hok.
Defined.

(** ** cursor.rotate_axis and rotate_euler *)

Lemma cursor_rotate_axis_after {host : Host} (a : Axis) (d : Direction)
      (context : Context) :
  after (CURSOR_OT_rotate_axis a d context)
  = set_cursor context
      (Cursor.with_rotation_euler (cursor (scene context))
         (euler_normalized
            (add_to_axis (Cursor.rotation_euler (cursor (scene context))) a
                         (signed_step d (scene context))))).
Proof.
  unfold CURSOR_OT_rotate_axis, finished; simpl.
  rewrite rotate_euler_axis. destruct d; reflexivity.
Qed.

Lemma cursor_rotate_axis_result {host : Host} (a : Axis) (d : Direction)
      (context : Context) :
  Cursor.rotation_euler
    (cursor (scene (after (CURSOR_OT_rotate_axis a d context))))
  = euler_normalized
      (add_to_axis (Cursor.rotation_euler (cursor (scene context))) a
                   (signed_step d (scene context))).
Proof. rewrite cursor_rotate_axis_after. reflexivity. Qed.

(** A quarter turn about Z added to (0, 0, 3) leaves [[-PI, PI]]. *)
Lemma quarter_turn_from_three_outside :
  ~ Euler.in_range
      (add_to_axis
         (Cursor.rotation_euler (cursor (scene object_mode_context))) Z
         (signed_step POS (scene object_mode_context))).
Proof.
  intros [_ [_ [_ Hz]]].
  simpl in Hz. unfold get_step, radians in Hz. simpl in Hz.
  pose proof PI_4. lra.
Qed.

(** C3, as stated, fails: with the cursor at (0, 0, 3) and the 90 degree
    step, rotating about +Z does not leave (0, 0, 3 + PI/2), whatever the
    host's [Euler.normalized()] does within its documented range. *)
Lemma cursor_rotate_axis_not_plain_sum :
  ~ exists host : Host,
      keeps_within_pi host
      /\ Cursor.rotation_euler
           (cursor
              (scene
                 (after (@CURSOR_OT_rotate_axis host Z POS
                                                object_mode_context))))
         = add_to_axis
             (Cursor.rotation_euler (cursor (scene object_mode_context))) Z
             (signed_step POS (scene object_mode_context)).
Proof.
  intros [host [Hrange Heq]].
  apply quarter_turn_from_three_outside.
  rewrite <- Heq, cursor_rotate_axis_result. apply Hrange.
Qed.

(** C3 (amended): for every starting cursor rotation, axis and direction,
    [cursor.rotate_axis] finishes and sets the cursor rotation to what the
    host's [Euler.normalized()] returns for the prior Euler with the step (in
    radians, negated for NEG) added to the chosen axis component, the other
    two components of that argument being the prior values.  With the method
    keeping values within [-PI, PI], as documented at the call, the result
    lies within [-PI, PI]; so it is the plain sum only when the sum lies
    there too.  Nothing but the cursor rotation changes. *)
Theorem cursor_rotate_axis_adds_then_normalizes
        (host : Host) (a : Axis) (d : Direction) (context : Context) :
  keeps_within_pi host ->
  let prior := Cursor.rotation_euler (cursor (scene context)) in
  let target := add_to_axis prior a (signed_step d (scene context)) in
  let out := CURSOR_OT_rotate_axis a d context in
  let result := Cursor.rotation_euler (cursor (scene (after out))) in
  status out = FINISHED
  /\ result = euler_normalized target
  /\ Euler.in_range result
  /\ (result = target -> Euler.in_range target)
  /\ after out
     = set_cursor context
         (Cursor.with_rotation_euler (cursor (scene context)) result).
Proof.
  intros Hrange. cbv zeta.
  rewrite cursor_rotate_axis_result, cursor_rotate_axis_after.
  split; [reflexivity|]. split; [reflexivity|].
  split; [apply Hrange|].
  split; [|reflexivity].
  intros <-. apply Hrange.
Qed.

Lemma cursor_rotate_axis_adds_then_normalizes_witness :
  keeps_within_pi idle_host
  /\ Euler.in_range
       (Cursor.rotation_euler
          (cursor
             (scene
                (after (@CURSOR_OT_rotate_axis idle_host Y NEG
                                               rest_context))))).
Proof.
  split; [exact idle_host_keeps_within_pi|].
  exact (proj1 (proj2 (proj2
           (cursor_rotate_axis_adds_then_normalizes
              idle_host Y NEG rest_context idle_host_keeps_within_pi)))).
Defined.

(** ** object.rotate_axis_step *)

Lemma object_rotate_axis_after {host : Host} (a : Axis) (d : Direction)
      (context : Context) :
  after (OBJECT_OT_rotate_axis a d context)
  = for_each_selected
      (fun obj =>
         Object.with_rotation_euler obj
           (add_to_axis (Object.rotation_euler obj) a
                        (signed_step d (scene context))))
      context.
Proof.
  unfold OBJECT_OT_rotate_axis.
  destruct (selected_objects context) eqn:Hsel.
  - simpl. symmetry. apply for_each_selected_none. exact Hsel.
  - destruct a, d; reflexivity.
Qed.







(** ** Vectors *)

Lemma vector_eq (a b : Vector.t) :
  Vector.x a = Vector.x b -> Vector.y a = Vector.y b ->
  Vector.z a = Vector.z b -> a = b.
Proof. destruct a, b; simpl; intros -> -> ->; reflexivity. Qed.

Lemma vector_add_assoc (a b c : Vector.t) :
  Vector.add (Vector.add a b) c = Vector.add a (Vector.add b c).
Proof. apply vector_eq; simpl; lra. Qed.

Lemma vector_add_zero_r (a : Vector.t) : Vector.add a Vector.zero = a.
Proof. apply vector_eq; simpl; lra. Qed.

Lemma vector_add_zero_l (a : Vector.t) : Vector.add Vector.zero a = a.
Proof. apply vector_eq; simpl; lra. Qed.

(** The left-to-right accumulation of the loops computes the sum. *)
Lemma fold_left_add {A : Type} (f : A -> Vector.t) (l : list A)
      (acc : Vector.t) :
  fold_left (fun v a => Vector.add v (f a)) l acc
  = Vector.add acc (vector_sum (map f l)).
Proof.
  revert acc. induction l as [|a l IH]; intros acc; simpl.
  - symmetry. apply vector_add_zero_r.
  - rewrite IH. apply vector_add_assoc.
Qed.

Lemma sum_normals_spec (faces : list BMFace.t) :
  sum_normals faces = vector_sum (map BMFace.normal faces).
Proof.
  unfold sum_normals. rewrite fold_left_add. apply vector_add_zero_l.
Qed.

Lemma sum_locations_from (l : list Object.t) (acc : Vector.t) (n : nat) :
  fold_left
    (fun (acc : Vector.t * nat) obj =>
       (Vector.add (fst acc) (Object.location obj), S (snd acc)))
    l (acc, n)
  = (Vector.add acc (vector_sum (map Object.location l)),
     (n + List.length l)%nat).
Proof.
  revert acc n. induction l as [|o l IH]; intros acc n; simpl.
  - rewrite vector_add_zero_r, Nat.add_0_r. reflexivity.
  - rewrite IH. rewrite vector_add_assoc. f_equal. lia.
Qed.

Lemma sum_locations_spec (l : list Object.t) :
  sum_locations l
  = (vector_sum (map Object.location l), List.length l).
Proof.
  unfold sum_locations. rewrite sum_locations_from.
  rewrite vector_add_zero_l. reflexivity.
Qed.

(** ** cursor.set_to_selection_center *)

(** C4: for every non-empty selection, [cursor.set_to_selection_center]
    finishes, sets the cursor location to the componentwise arithmetic mean of
    the selected objects' locations, and changes nothing else. *)
Theorem set_to_selection_center_is_mean (context : Context) :
  selected_objects context <> [] ->
  let center := mean (map Object.location (selected_objects context)) in
  let out := CURSOR_OT_set_to_selection_center context in
  status out = FINISHED
  /\ reports out = []
  /\ Cursor.location (cursor (scene (after out))) = center
  /\ after out
     = set_cursor context (Cursor.with_location (cursor (scene context)) center).
Proof.
  intros Hne. cbv zeta.
  unfold CURSOR_OT_set_to_selection_center.
  destruct (selected_objects context) as [|o l] eqn:Hsel; [contradiction|].
  rewrite sum_locations_spec.
  change (0 <? List.length (o :: l))%nat with true. cbv iota.
  unfold mean, vector_div. rewrite length_map.
  repeat split.
Qed.

Lemma set_to_selection_center_is_mean_witness :
  Cursor.location
    (cursor (scene (after (CURSOR_OT_set_to_selection_center rest_context))))
  = mean [Vector.mk 1 2 3; Vector.mk 3 4 5].
Proof.
  apply (set_to_selection_center_is_mean rest_context).
  simpl. discriminate.
Defined.

(** ** apply_cursor_rotation_to_object and cursor.apply_to_object *)

Lemma to_translation_set_translation (m : Matrix4.t) (v : Vector.t) :
  Matrix4.to_translation (Matrix4.set_translation m v) = v.
Proof. destruct v. reflexivity. Qed.

Lemma apply_cursor_rotation_translation {host : Host} (cur : Cursor.t)
      (obj : Object.t) :
  Matrix4.to_translation
    (Object.matrix_world (apply_cursor_rotation_to_object cur obj))
  = Matrix4.to_translation (Object.matrix_world obj).
Proof.
  unfold apply_cursor_rotation_to_object, Object.with_matrix_world; simpl.
  apply to_translation_set_translation.
Qed.

(** C8: [apply_cursor_rotation_to_object] leaves the translation of the
    object's [matrix_world] as it was, for every object and every cursor;
    hence [cursor.apply_to_object] preserves the world position of every
    object of the scene, selected or not. *)
Theorem apply_cursor_rotation_keeps_translation (host : Host) :
  (forall (cur : Cursor.t) (obj : Object.t),
      Matrix4.to_translation
        (Object.matrix_world (apply_cursor_rotation_to_object cur obj))
      = Matrix4.to_translation (Object.matrix_world obj))
  /\ (forall context : Context,
         map (fun o => (Object.name o,
                        Matrix4.to_translation (Object.matrix_world o)))
             (objects (scene (after (CURSOR_OT_apply_to_object context))))
         = map (fun o => (Object.name o,
                          Matrix4.to_translation (Object.matrix_world o)))
               (objects (scene context))).
Proof.
  split; [apply apply_cursor_rotation_translation|].
  intros context. unfold CURSOR_OT_apply_to_object.
  destruct (selected_objects context) eqn:Hsel; [reflexivity|].
  unfold finished, for_each_selected; simpl.
  rewrite map_map. apply map_ext. intros o.
  destruct (Object.select o); [|reflexivity].
  rewrite apply_cursor_rotation_translation. reflexivity.
Qed.

(** ** cursor.align_to_surface *)

Lemma vector_length_pos (v : Vector.t) :
  v <> Vector.zero -> 0 < vector_length v.
Proof.
  intros Hne. unfold vector_length. apply sqrt_lt_R0.
  destruct v as [vx vy vz]; simpl.
  destruct (Req_dec vx 0) as [Hx|Hx]; [|nra].
  destruct (Req_dec vy 0) as [Hy|Hy]; [|nra].
  destruct (Req_dec vz 0) as [Hz|Hz]; [|nra].
  exfalso. apply Hne. subst. reflexivity.
Qed.

Lemma vector_length_zero : vector_length Vector.zero = 0.
Proof.
  unfold vector_length; simpl.
  replace (0 * (0 * 1) + 0 * (0 * 1) + 0 * (0 * 1)) with 0 by lra.
  apply sqrt_0.
Qed.

Lemma vector_length_div (v : Vector.t) (k : R) :
  0 < k -> vector_length (vector_div v k) = vector_length v / k.
Proof.
  intros Hk. unfold vector_length, vector_div; simpl.
  replace (Vector.x v / k * (Vector.x v / k * 1)
           + Vector.y v / k * (Vector.y v / k * 1)
           + Vector.z v / k * (Vector.z v / k * 1))
    with ((Vector.x v * (Vector.x v * 1) + Vector.y v * (Vector.y v * 1)
           + Vector.z v * (Vector.z v * 1)) / k ^ 2)
    by (field; lra).
  rewrite sqrt_div_alt by nra.
  rewrite sqrt_pow2 by lra. reflexivity.
Qed.

(** Scaling by a positive factor does not change the direction. *)
Lemma normalize_div (v : Vector.t) (k : R) :
  0 < k -> v <> Vector.zero -> normalize (vector_div v k) = normalize v.
Proof.
  intros Hk Hne. unfold normalize. rewrite vector_length_div by exact Hk.
  pose proof (vector_length_pos v Hne) as Hlen.
  apply vector_eq; simpl; field; lra.
Qed.

(** C2: in edit-mesh mode with at least one face selected and a non-zero sum
    of the selected faces' normals, [cursor.align_to_surface] finishes and
    sets the cursor rotation to the Euler angles (in the cursor's rotation
    mode) of the rotation difference between the normalized mean of the
    selected normals and the up vector (0, 0, 1); when the absolute dot
    product of that unit normal with the up vector is not below 0.99 it sets
    the rotation to (0, 0, 0) instead. *)
Theorem align_to_surface_rotation (host : Host) (context : Context) :
  mode context = "EDIT_MESH"%string ->
  selected_normals context <> [] ->
  vector_sum (selected_normals context) <> Vector.zero ->
  let normal := normalize (mean (selected_normals context)) in
  let cur := cursor (scene context) in
  let out := CURSOR_OT_align_to_surface context in
  status out = FINISHED
  /\ reports out = []
  /\ after out
     = set_cursor context
         (Cursor.with_rotation_euler cur
            (if Rlt_dec (Rabs (Vector.dot normal up_vec)) 0.99 then
               matrix3_to_euler
                 (quaternion_to_matrix (rotation_difference normal up_vec))
                 (Cursor.rotation_mode cur)
             else Euler.mk 0 0 0)).
Proof.
  intros Hmode Hsel Hsum. cbv zeta.
  unfold CURSOR_OT_align_to_surface, selected_normals in *.
  rewrite Hmode. cbn [String.eqb Ascii.eqb Bool.eqb negb].
  destruct (filter BMFace.select (edit_faces context)) as [|f fs] eqn:Hf;
    [contradiction|].
  rewrite sum_normals_spec.
  set (total := vector_sum (map BMFace.normal (f :: fs))) in *.
  pose proof (vector_length_pos total Hsum) as Hlen.
  destruct (Rlt_dec 0 (vector_length total)) as [_|Hno]; [|contradiction].
  assert (Hnormal :
    normalize (mean (map BMFace.normal (f :: fs)))
    = Vector.mk (Vector.x total / vector_length total)
                (Vector.y total / vector_length total)
                (Vector.z total / vector_length total)).
  { unfold mean. fold total. rewrite normalize_div.
    - reflexivity.
    - apply lt_0_INR. simpl. lia.
    - exact Hsum. }
  rewrite Hnormal.
  destruct (Rlt_dec _ 0.99); repeat split.
Qed.

Lemma align_to_surface_rotation_witness :
  status (@CURSOR_OT_align_to_surface idle_host side_face_context) = FINISHED.
Proof.
  apply (align_to_surface_rotation idle_host side_face_context).
  - reflexivity.
  - simpl. discriminate.
  - simpl. intros Heq. apply (f_equal Vector.x) in Heq. simpl in Heq. lra.
Defined.

(** ** Cancellation *)

Lemma cancelled_is_clean (msg : string) (context : Context) :
  cancelled_cleanly (cancelled msg context) context.
Proof. repeat split. exists msg. reflexivity. Qed.

Section ViewSearch.
Context {host : Host}.
Variable rotation_mode : string.

Lemma view_euler_of_regions_none (regions : list Region.t) :
  view_euler_of_regions rotation_mode regions = None
  <-> existsb region_has_view regions = false.
Proof.
  induction regions as [|r rs IH]; simpl; [tauto|].
  unfold region_has_view at 1.
  destruct (String.eqb (Region.type r) "WINDOW"); simpl; [|exact IH].
  destruct (Region.view_rotation (Region.data r)); simpl;
    [split; discriminate|].
  destruct (Region.view_matrix (Region.data r)); simpl;
    [split; discriminate|exact IH].
Qed.

Lemma view_euler_of_spaces_none (regions : list Region.t)
      (spaces : list Space.t) :
  view_euler_of_spaces rotation_mode regions spaces = None
  <-> existsb (fun sp => String.eqb (Space.type sp) "VIEW_3D") spaces
      && existsb region_has_view regions = false.
Proof.
  induction spaces as [|s ss IH]; simpl; [tauto|].
  destruct (String.eqb (Space.type s) "VIEW_3D"); simpl; [|exact IH].
  pose proof (view_euler_of_regions_none regions) as Hr.
  destruct (view_euler_of_regions rotation_mode regions).
  - destruct (existsb region_has_view regions).
    + split; discriminate.
    + exfalso. destruct Hr as [_ Hr]. specialize (Hr eq_refl). discriminate.
  - destruct Hr as [Hr _]. rewrite (Hr eq_refl) in *.
    rewrite andb_false_r in IH. split; [reflexivity|]. intros _.
    apply IH. reflexivity.
Qed.

Lemma view_euler_of_areas_none (areas : list Area.t) :
  view_euler_of_areas rotation_mode areas = None
  <-> determinable_view areas = false.
Proof.
  unfold determinable_view.
  induction areas as [|a rest IH]; simpl; [tauto|].
  destruct (String.eqb (Area.type a) "VIEW_3D"); simpl; [|exact IH].
  pose proof (view_euler_of_spaces_none (Area.regions a) (Area.spaces a))
    as Hs.
  destruct (view_euler_of_spaces rotation_mode (Area.regions a)
                                 (Area.spaces a)).
  - destruct (existsb _ (Area.spaces a) && existsb _ (Area.regions a)).
    + split; discriminate.
    + exfalso. destruct Hs as [_ Hs]. specialize (Hs eq_refl). discriminate.
  - destruct Hs as [Hs _]. rewrite (Hs eq_refl). exact IH.
Qed.
End ViewSearch.

Lemma align_to_view_cancelled {host : Host} (context : Context) :
  status (CURSOR_OT_align_to_view context) = CANCELLED
  <-> determinable_view (screen_areas context) = false.
Proof.
  unfold CURSOR_OT_align_to_view.
  pose proof (view_euler_of_areas_none
                (Cursor.rotation_mode (cursor (scene context)))
                (screen_areas context)) as Hv.
  destruct (view_euler_of_areas _ (screen_areas context)); simpl.
  - split; [discriminate|]. intros H. apply Hv in H. discriminate.
  - split; [|reflexivity]. intros _. apply Hv. reflexivity.
Qed.

Lemma align_to_surface_cancelled {host : Host} (context : Context) :
  status (CURSOR_OT_align_to_surface context) = CANCELLED
  <-> requirement_missing cursor_align_to_surface context = true
      \/ degenerate_normal context.
Proof.
  unfold CURSOR_OT_align_to_surface, degenerate_normal, selected_normals.
  cbn [requirement_missing].
  destruct (String.eqb (mode context) "EDIT_MESH"); simpl.
  2:{ split; [left; reflexivity|reflexivity]. }
  destruct (filter BMFace.select (edit_faces context)) as [|f fs] eqn:Hf.
  { simpl. split; [left; reflexivity|reflexivity]. }
  rewrite sum_normals_spec.
  set (total := vector_sum (map BMFace.normal (f :: fs))).
  destruct (Rlt_dec 0 (vector_length total)) as [Hpos|Hzero].
  - split.
    + destruct (Rlt_dec _ 0.99); simpl; discriminate.
    + intros [Hfalse|[_ [_ Htotal]]]; [discriminate|].
      rewrite Htotal, vector_length_zero in Hpos. lra.
  - simpl. split; [|reflexivity]. intros _. right.
    split; [reflexivity|]. split; [discriminate|].
    destruct (Req_dec (Vector.x total) 0) as [Hx|Hx];
      [|exfalso; apply Hzero, vector_length_pos; intros E; rewrite E in Hx;
        apply Hx; reflexivity].
    destruct (Req_dec (Vector.y total) 0) as [Hy|Hy];
      [|exfalso; apply Hzero, vector_length_pos; intros E; rewrite E in Hy;
        apply Hy; reflexivity].
    destruct (Req_dec (Vector.z total) 0) as [Hz|Hz];
      [|exfalso; apply Hzero, vector_length_pos; intros E; rewrite E in Hz;
        apply Hz; reflexivity].
    apply vector_eq; assumption.
Qed.

Lemma align_to_surface_clean {host : Host} (context : Context) :
  status (CURSOR_OT_align_to_surface context) = CANCELLED ->
  cancelled_cleanly (CURSOR_OT_align_to_surface context) context.
Proof.
  unfold CURSOR_OT_align_to_surface.
  destruct (negb (String.eqb (mode context) "EDIT_MESH"));
    [intros _; apply cancelled_is_clean|].
  destruct (filter BMFace.select (edit_faces context));
    [intros _; apply cancelled_is_clean|].
  destruct (Rlt_dec 0 _); [|intros _; apply cancelled_is_clean].
  destruct (Rlt_dec _ 0.99); discriminate.
Qed.

(** Operators guarded by [if not context.selected_objects]. *)
Ltac selection_guard :=
  match goal with
  | |- context [selected_objects ?c] => destruct (selected_objects c) eqn:?
  end; simpl;
  (split;
   [ split;
     [ intros H; first [discriminate H | left; reflexivity]
     | intros [H|[H _]]; first [discriminate H | reflexivity] ]
   | intros H; first [discriminate H | apply cancelled_is_clean] ]).

(** Operators that never cancel. *)
Ltac never_cancels :=
  simpl;
  (split;
   [ split; [ intros H; discriminate H | intros [H|[H _]]; discriminate H ]
   | intros H; discriminate H ]).

(** C1, as stated, fails: in edit-mesh mode with the top and bottom faces
    selected nothing the operator requires is missing, and yet
    [cursor.align_to_surface] is cancelled. *)
Lemma align_to_surface_cancels_on_opposite_faces :
  requirement_missing cursor_align_to_surface opposite_faces_context = false
  /\ status (@execute idle_host cursor_align_to_surface opposite_faces_context)
     = CANCELLED.
Proof.
  split; [reflexivity|].
  apply (@align_to_surface_cancelled idle_host). right.
  split; [reflexivity|]. split; [simpl; discriminate|].
  apply vector_eq; simpl; lra.
Qed.

(** C1 (amended): an operator is cancelled exactly when its required
    selection or context is missing (no active object, no selected objects or
    faces, not in edit-mesh mode, no determinable view, fewer than two
    objects) or, for [cursor.align_to_surface], when the selected faces'
    normals sum to zero; and every cancelled execution reports one warning
    and leaves the whole context, hence the cursor and every object's
    transform, unchanged. *)
Theorem cancellation_characterised (host : Host) (op : Operator)
        (context : Context) :
  let out := execute op context in
  (status out = CANCELLED
   <-> requirement_missing op context = true
       \/ (op = cursor_align_to_surface /\ degenerate_normal context))
  /\ (status out = CANCELLED -> cancelled_cleanly out context).
Proof.
  cbv zeta.
  destruct op; cbn [execute requirement_missing];
    try solve [never_cancels].
  - (* cursor.copy_from_object *)
    unfold CURSOR_OT_copy_from_object.
    destruct (active_object context); never_cancels || idtac.
    simpl. split; [split; [left; reflexivity|reflexivity]|].
    intros _. apply cancelled_is_clean.
  - unfold CURSOR_OT_apply_to_object. selection_guard.
  - (* cursor.align_to_view *)
    split.
    + rewrite align_to_view_cancelled. split.
      * intros ->. left. reflexivity.
      * intros [H|[H _]]; [|discriminate H].
        destruct (determinable_view (screen_areas context));
          [discriminate H|reflexivity].
    + unfold CURSOR_OT_align_to_view.
      destruct (view_euler_of_areas _ _);
        [discriminate|intros _; apply cancelled_is_clean].
  - (* cursor.align_to_surface *)
    split; [|apply align_to_surface_clean].
    rewrite align_to_surface_cancelled. cbn [requirement_missing].
    split; intros [H|H]; auto. right. apply H.
  - (* cursor.set_to_selection_center *)
    unfold CURSOR_OT_set_to_selection_center.
    destruct (selected_objects context) as [|o l] eqn:Hsel.
    + simpl. split; [split; [left; reflexivity|reflexivity]|].
      intros _. apply cancelled_is_clean.
    + rewrite sum_locations_spec.
      change (0 <? List.length (o :: l))%nat with true. never_cancels.
  - unfold OBJECT_OT_origin_to_cursor. selection_guard.
  - unfold OBJECT_OT_rotate_axis. selection_guard.
  - unfold OBJECT_OT_reset_orientation. selection_guard.
  - unfold OBJECT_OT_align_to_cursor. selection_guard.
  - (* object.cursor_to_selected *)
    unfold OBJECT_OT_snap_cursor_to_selected, is_nil.
    destruct (selected_objects context);
      destruct (String.eqb (mode context) "EDIT_MESH"); simpl;
      try solve [never_cancels].
    split; [split; [left; reflexivity|reflexivity]|].
    intros _. apply cancelled_is_clean.
  - unfold OBJECT_OT_snap_selected_to_cursor. selection_guard.
  - (* object.align_objects_to_each_other *)
    unfold OBJECT_OT_align_objects_to_each_other, others_selected.
    destruct (active_object context) as [act|]; simpl.
    + destruct (filter _ (selected_objects context)); simpl.
      * split; [split; [left; reflexivity|reflexivity]|].
        intros _. apply cancelled_is_clean.
      * never_cancels.
    + split; [split; [left; reflexivity|reflexivity]|].
      intros _. apply cancelled_is_clean.
  - (* object.distribute_along_cursor *)
    unfold OBJECT_OT_distribute_along_cursor.
    destruct (Nat.ltb (List.length (selected_objects context)) 2); simpl.
    + split; [split; [left; reflexivity|reflexivity]|].
      intros _. apply cancelled_is_clean.
    + never_cancels.
  - unfold OBJECT_OT_copy_cursor_location. selection_guard.
Qed.

Lemma cancellation_characterised_witness :
  cancelled_cleanly
    (@execute idle_host cursor_apply_to_object nothing_selected_context)
    nothing_selected_context.
Proof.
  apply (proj2 (cancellation_characterised idle_host cursor_apply_to_object
                                           nothing_selected_context)).
  reflexivity.
Defined.

(** ** Termination *)

(** *** Loops *)

Lemma for_loop_plain {A St Res : Type} (f : A -> St -> Flow St Res)
      (items : list A) :
  forall (s : St) (fuel : nat),
    (List.length items < fuel)%nat ->
    exists n : nat,
      for_loop fuel items (plain f) s = Some (fold_flow f items s, n)
      /\ (n <= List.length items)%nat.
Proof.
  induction items as [|x rest IH]; intros s fuel Hfuel;
    (destruct fuel as [|fuel]; [simpl in Hfuel; lia|]).
  - exists 0%nat. split; [reflexivity|simpl; lia].
  - cbn [for_loop plain fold_flow ret].
    destruct (f x s) as [s'|r].
    + destruct (IH s' fuel) as [n [Hrun Hn]]; [simpl in Hfuel; lia|].
      rewrite Hrun. exists (S n). split; [reflexivity|simpl; lia].
    + exists 1%nat. split; [reflexivity|simpl; lia].
Qed.

Lemma fold_flow_collect {A B : Type} (keep : A -> bool) (f : A -> B)
      (items : list A) (acc : list B) :
  fold_flow
    (fun x acc => @Next (list B) Empty_set
                    (if keep x then acc ++ [f x] else acc))
    items acc
  = Next (acc ++ map f (filter keep items)).
Proof.
  revert acc. induction items as [|x rest IH]; intros acc; simpl.
  - rewrite app_nil_r. reflexivity.
  - rewrite IH. destruct (keep x); simpl; [|reflexivity].
    rewrite <- app_assoc. reflexivity.
Qed.

Lemma fold_flow_fold_left {A St : Type} (g : St -> A -> St)
      (items : list A) (s : St) :
  fold_flow (fun x s => @Next St Empty_set (g s x)) items s
  = Next (fold_left g items s).
Proof.
  revert s. induction items as [|x rest IH]; intros s; simpl;
    [reflexivity|apply IH].
Qed.

Lemma collect_returns {A B : Type} (fuel : nat) (items : list A)
      (keep : A -> bool) (f : A -> B) :
  (List.length items < fuel)%nat ->
  exists n : nat,
    collect fuel items keep f = Some (map f (filter keep items), n)
    /\ (n <= List.length items)%nat.
Proof.
  intros Hfuel. unfold collect.
  destruct (for_loop_plain
              (fun x acc => @Next (list B) Empty_set
                              (if keep x then acc ++ [f x] else acc))
              items [] fuel Hfuel) as [n [Hrun Hn]].
  rewrite Hrun, fold_flow_collect. simpl.
  exists (n + 0)%nat. split; [reflexivity|lia].
Qed.

Lemma filter_shorter {A : Type} (p : A -> bool) (l : list A) :
  (List.length (filter p l) <= List.length l)%nat.
Proof.
  induction l as [|a l IH]; simpl; [lia|].
  destruct (p a); simpl; lia.
Qed.

Lemma filter_all {A : Type} (l : list A) : filter (fun _ => true) l = l.
Proof. induction l as [|a l IH]; simpl; [|rewrite IH]; reflexivity. Qed.

Lemma selected_then_others (active : option Object.t) (l : list Object.t) :
  filter (is_not active) (filter Object.select l)
  = filter (fun obj => andb (Object.select obj) (is_not active obj)) l.
Proof.
  induction l as [|o l IH]; simpl; [reflexivity|].
  destruct (Object.select o); simpl; [|exact IH].
  destruct (is_not active o); rewrite IH; reflexivity.
Qed.

Lemma write_back_map (p : Object.t -> bool) (f : Object.t -> Object.t)
      (l : list Object.t) :
  write_back p (map f (filter p l)) l
  = map (fun o => if p o then f o else o) l.
Proof.
  induction l as [|o l IH]; simpl; [reflexivity|].
  destruct (p o) eqn:Hp; simpl; rewrite ?Hp, IH; reflexivity.
Qed.

Lemma for_each_selected_returns (fuel : nat) (f : Object.t -> Object.t)
      (context : Context) :
  (List.length (objects (scene context)) < fuel)%nat ->
  exists n : nat,
    Fuel.for_each_selected fuel f context
    = Some (for_each_selected f context, n)
    /\ (n <= List.length (objects (scene context)))%nat.
Proof.
  intros Hfuel. unfold Fuel.for_each_selected.
  pose proof (filter_shorter Object.select (objects (scene context))) as Hsel.
  fold (selected_objects context) in Hsel.
  destruct (collect_returns fuel (selected_objects context) (fun _ => true) f)
    as [n [Hrun Hn]]; [lia|].
  rewrite Hrun, filter_all. simpl.
  unfold selected_objects. rewrite write_back_map.
  exists (n + 0)%nat. split; [reflexivity|lia].
Qed.

(** *** The view search of cursor.align_to_view *)

Section ViewSearchUnderFuel.
Context {host : Host}.
Variable rotation_mode : string.

Lemma view_euler_of_regions_returns (regions : list Region.t) (fuel : nat) :
  (List.length regions < fuel)%nat ->
  exists n : nat,
    Fuel.view_euler_of_regions fuel rotation_mode regions
    = Some (flow_of (view_euler_of_regions rotation_mode regions), n)
    /\ (n <= List.length regions)%nat.
Proof.
  intros Hfuel. unfold Fuel.view_euler_of_regions.
  match goal with
  | |- context [for_loop _ _ (plain ?f) _] =>
      destruct (for_loop_plain f regions tt fuel Hfuel) as [n [Hrun Hn]]
  end.
  rewrite Hrun. exists n. split; [|exact Hn].
  do 2 f_equal. clear.
  induction regions as [|r rest IH]; simpl; [reflexivity|].
  destruct (String.eqb (Region.type r) "WINDOW"); [|exact IH].
  destruct (Region.view_rotation (Region.data r)); [reflexivity|].
  destruct (Region.view_matrix (Region.data r)); [reflexivity|exact IH].
Qed.

Lemma view_euler_of_spaces_returns (regions : list Region.t)
      (spaces : list Space.t) :
  forall fuel : nat,
    (List.length spaces + List.length regions < fuel)%nat ->
    exists n : nat,
      Fuel.view_euler_of_spaces fuel rotation_mode regions spaces
      = Some (flow_of (view_euler_of_spaces rotation_mode regions spaces), n)
      /\ (n <= List.length spaces * S (List.length regions))%nat.
Proof.
  induction spaces as [|sp rest IH]; intros fuel Hfuel;
    (destruct fuel as [|fuel]; [simpl in Hfuel; lia|]).
  - exists 0%nat. split; [reflexivity|simpl; lia].
  - specialize (IH fuel). unfold Fuel.view_euler_of_spaces in *.
    cbn [for_loop view_euler_of_spaces List.length] in *.
    destruct (String.eqb (Space.type sp) "VIEW_3D").
    + destruct (view_euler_of_regions_returns regions fuel) as [k [Hk Hkn]];
        [lia|].
      rewrite Hk.
      destruct (view_euler_of_regions rotation_mode regions) as [e|];
        cbn [flow_of].
      * exists (S k). split; [reflexivity|lia].
      * destruct IH as [n [Hn Hnn]]; [lia|].
        rewrite Hn. exists (S (k + n)). split; [reflexivity|lia].
    + destruct IH as [n [Hn Hnn]]; [lia|].
      cbn [ret]. rewrite Hn. exists (S (0 + n)). split; [reflexivity|lia].
Qed.
End ViewSearchUnderFuel.

Lemma area_size_depth (area : Area.t) :
  (List.length (Area.spaces area) + List.length (Area.regions area)
   < area_size area)%nat.
Proof. unfold area_size. nia. Qed.

Lemma area_size_work (area : Area.t) :
  (S (List.length (Area.spaces area) * S (List.length (Area.regions area)))
   <= area_size area)%nat.
Proof. unfold area_size. nia. Qed.

Lemma view_euler_of_areas_returns {host : Host} (rotation_mode : string)
      (areas : list Area.t) :
  forall fuel : nat,
    (List.length areas + list_sum (map area_size areas) < fuel)%nat ->
    exists n : nat,
      Fuel.view_euler_of_areas fuel rotation_mode areas
      = Some (flow_of (view_euler_of_areas rotation_mode areas), n)
      /\ (n <= list_sum (map area_size areas))%nat.
Proof.
  unfold list_sum.
  induction areas as [|a rest IH]; intros fuel Hfuel;
    (destruct fuel as [|fuel]; [simpl in Hfuel; lia|]).
  - exists 0%nat. split; [reflexivity|simpl; lia].
  - specialize (IH fuel). unfold Fuel.view_euler_of_areas in *.
    cbn [for_loop view_euler_of_areas List.length map fold_right] in *.
    pose proof (area_size_depth a) as Hdepth.
    pose proof (area_size_work a) as Hwork.
    destruct (String.eqb (Area.type a) "VIEW_3D").
    + destruct (view_euler_of_spaces_returns rotation_mode (Area.regions a)
                  (Area.spaces a) fuel) as [k [Hk Hkn]]; [lia|].
      rewrite Hk.
      destruct (view_euler_of_spaces rotation_mode (Area.regions a)
                                     (Area.spaces a)) as [e|];
        cbn [flow_of].
      * exists (S k). split; [reflexivity|lia].
      * destruct IH as [n [Hn Hnn]]; [lia|].
        rewrite Hn. exists (S (k + n)). split; [reflexivity|lia].
    + destruct IH as [n [Hn Hnn]]; [lia|].
      cbn [ret]. rewrite Hn. exists (S (0 + n)). split; [reflexivity|lia].
Qed.

(** *** The other searches and accumulations *)

Lemma is_machine_tools_available_returns (fuel : nat)
      (modules : list AddonModule) :
  (List.length modules < fuel)%nat ->
  exists n : nat,
    Fuel.is_machine_tools_available fuel modules
    = Some (is_machine_tools_available modules, n)
    /\ (n <= List.length modules)%nat.
Proof.
  intros Hfuel. unfold Fuel.is_machine_tools_available.
  match goal with
  | |- context [for_loop _ _ (plain ?f) _] =>
      destruct (for_loop_plain f modules tt fuel Hfuel) as [n [Hrun Hn]]
  end.
  rewrite Hrun. cbn [bind ret].
  exists (n + 0)%nat. split; [|lia].
  do 2 f_equal. clear.
  induction modules as [|m rest IH]; simpl; [reflexivity|].
  destruct ((String.eqb (module_name m) "MACHIN3tools"
             || String.eqb (module_name m) "machin3tools")
            && module_loaded m); [reflexivity|exact IH].
Qed.

Lemma first_slot_found (name : string) (m : Matrix4.t)
      (slots : list OrientationSlot.t) (start : nat) :
  match
    fold_flow
      (fun orientation (i : nat) =>
         if String.eqb (OrientationSlot.name orientation) name
         then @Leave nat nat i
         else Next (S i))
      slots start
  with
  | Leave i =>
      exists k : nat,
        i = (start + k)%nat
        /\ assign_slot k m slots = assign_first_slot name m slots
  | Next _ => assign_first_slot name m slots = slots
  end.
Proof.
  revert start. induction slots as [|o rest IH]; intros start; simpl;
    [reflexivity|].
  destruct (String.eqb (OrientationSlot.name o) name).
  - exists 0%nat. split; [lia|reflexivity].
  - specialize (IH (S start)).
    destruct (fold_flow _ rest (S start)) as [j|j].
    + rewrite IH. reflexivity.
    + destruct IH as [k [Hj Hk]]. exists (S k). split; [lia|].
      simpl. rewrite Hk. reflexivity.
Qed.

Lemma insert_by_key_length (p : R * nat) (l : list (R * nat)) :
  List.length (insert_by_key p l) = S (List.length l).
Proof.
  induction l as [|q rest IH]; simpl; [reflexivity|].
  destruct (Rle_dec (fst p) (fst q)); simpl; [|rewrite IH]; reflexivity.
Qed.

Lemma sort_by_key_length (l : list (R * nat)) :
  List.length (sort_by_key l) = List.length l.
Proof.
  induction l as [|p rest IH]; simpl; [reflexivity|].
  rewrite insert_by_key_length, IH. reflexivity.
Qed.

Lemma assignment_loop_distributes (origin direction : Vector.t) (spacing : R)
      (positions : list (R * nat)) :
  forall (start : nat) (l : list Object.t),
    fold_flow
      (fun (p : R * nat) (st : nat * list Object.t) =>
         @Next (nat * list Object.t) Empty_set
           (S (fst st),
            assign_location (snd p)
              (Vector.add origin
                          (Vector.mul direction (INR (fst st) * spacing)))
              (snd st)))
      positions (start, l)
    = Next ((start + List.length positions)%nat,
            distribute_from start origin direction spacing positions l).
Proof.
  induction positions as [|[k n] rest IH]; intros start l.
  - simpl. rewrite Nat.add_0_r. reflexivity.
  - cbn [fold_flow fst snd distribute_from List.length].
    rewrite IH. do 2 f_equal. lia.
Qed.

(** *** The operators *)

Section OperatorsUnderFuel.
Context {host : Host}.
Variable context : Context.
Variable fuel : nat.

Lemma selection_shorter :
  (List.length (selected_objects context)
   <= List.length (objects (scene context)))%nat.
Proof. apply filter_shorter. Qed.

Lemma apply_to_object_returns :
  (List.length (objects (scene context)) < fuel)%nat ->
  exists n : nat,
    Fuel.CURSOR_OT_apply_to_object fuel context
    = Some (CURSOR_OT_apply_to_object context, n)
    /\ (n <= List.length (objects (scene context)))%nat.
Proof.
  intros Hfuel.
  unfold Fuel.CURSOR_OT_apply_to_object, CURSOR_OT_apply_to_object.
  destruct (selected_objects context).
  - exists 0%nat. split; [reflexivity|lia].
  - cbv zeta.
    destruct (for_each_selected_returns fuel
                (apply_cursor_rotation_to_object (cursor (scene context)))
                context Hfuel) as [n [Hrun Hn]].
    rewrite Hrun. exists (n + 0)%nat. split; [reflexivity|lia].
Qed.

Lemma align_to_view_returns :
  (List.length (screen_areas context)
   + list_sum (map area_size (screen_areas context)) < fuel)%nat ->
  exists n : nat,
    Fuel.CURSOR_OT_align_to_view fuel context
    = Some (CURSOR_OT_align_to_view context, n)
    /\ (n <= list_sum (map area_size (screen_areas context)))%nat.
Proof.
  intros Hfuel.
  unfold Fuel.CURSOR_OT_align_to_view, CURSOR_OT_align_to_view. cbv zeta.
  destruct (view_euler_of_areas_returns
              (Cursor.rotation_mode (cursor (scene context)))
              (screen_areas context) fuel Hfuel) as [n [Hrun Hn]].
  rewrite Hrun. exists (n + 0)%nat. split; [|lia].
  destruct (view_euler_of_areas _ (screen_areas context)); reflexivity.
Qed.

Lemma align_to_surface_returns :
  (List.length (edit_faces context) < fuel)%nat ->
  exists n : nat,
    Fuel.CURSOR_OT_align_to_surface fuel context
    = Some (CURSOR_OT_align_to_surface context, n)
    /\ (n <= 2 * List.length (edit_faces context))%nat.
Proof.
  intros Hfuel.
  unfold Fuel.CURSOR_OT_align_to_surface, CURSOR_OT_align_to_surface.
  destruct (negb (String.eqb (mode context) "EDIT_MESH")).
  { exists 0%nat. split; [reflexivity|lia]. }
  pose proof (filter_shorter BMFace.select (edit_faces context)) as Hsel.
  destruct (collect_returns fuel (edit_faces context) BMFace.select
                            (fun f => f) Hfuel) as [n1 [Hrun1 Hn1]].
  rewrite Hrun1, map_id. cbn [bind].
  destruct (filter BMFace.select (edit_faces context)) as [|f fs] eqn:Hfaces.
  { exists (n1 + 0)%nat. split; [reflexivity|lia]. }
  match goal with
  | |- context [for_loop _ ?items (plain ?g) ?s] =>
      destruct (for_loop_plain g items s fuel) as [n2 [Hrun2 Hn2]]; [lia|]
  end.
  rewrite Hrun2.
  rewrite (fold_flow_fold_left
             (fun acc face => Vector.add acc (BMFace.normal face))).
  fold (sum_normals (f :: fs)). cbn [bind final]. cbv zeta.
  destruct (Rlt_dec 0 (vector_length (sum_normals (f :: fs))));
    [destruct (Rlt_dec _ 0.99)|];
    (eexists; split; [reflexivity|simpl in *; lia]).
Qed.

Lemma set_to_selection_center_returns :
  (List.length (objects (scene context)) < fuel)%nat ->
  exists n : nat,
    Fuel.CURSOR_OT_set_to_selection_center fuel context
    = Some (CURSOR_OT_set_to_selection_center context, n)
    /\ (n <= List.length (objects (scene context)))%nat.
Proof.
  intros Hfuel. pose proof selection_shorter as Hsel.
  unfold Fuel.CURSOR_OT_set_to_selection_center,
    CURSOR_OT_set_to_selection_center.
  destruct (selected_objects context) as [|o l].
  { exists 0%nat. split; [reflexivity|lia]. }
  match goal with
  | |- context [for_loop _ ?items (plain ?g) ?s] =>
      destruct (for_loop_plain g items s fuel) as [n [Hrun Hn]]; [lia|]
  end.
  rewrite Hrun.
  rewrite (fold_flow_fold_left
             (fun (acc : Vector.t * nat) obj =>
                (Vector.add (fst acc) (Object.location obj), S (snd acc)))).
  fold (sum_locations (o :: l)). cbn [bind final].
  destruct (sum_locations (o :: l)) as [center count].
  destruct (Nat.ltb 0 count);
    (eexists; split; [reflexivity|lia]).
Qed.

Lemma origin_to_cursor_returns :
  (List.length (addon_utils_modules context) < fuel)%nat ->
  exists n : nat,
    Fuel.OBJECT_OT_origin_to_cursor fuel context
    = Some (OBJECT_OT_origin_to_cursor context, n)
    /\ (n <= List.length (addon_utils_modules context))%nat.
Proof.
  intros Hfuel.
  unfold Fuel.OBJECT_OT_origin_to_cursor, OBJECT_OT_origin_to_cursor,
    machine_tools_available.
  destruct (selected_objects context).
  { exists 0%nat. split; [reflexivity|lia]. }
  destruct (is_machine_tools_available_returns
              fuel (addon_utils_modules context) Hfuel) as [n [Hrun Hn]].
  rewrite Hrun. exists (n + 0)%nat. split; [reflexivity|lia].
Qed.

Lemma rotate_axis_step_returns (a : Axis) (d : Direction) :
  (List.length (objects (scene context)) < fuel)%nat ->
  exists n : nat,
    Fuel.OBJECT_OT_rotate_axis fuel a d context
    = Some (OBJECT_OT_rotate_axis a d context, n)
    /\ (n <= List.length (objects (scene context)))%nat.
Proof.
  intros Hfuel.
  unfold Fuel.OBJECT_OT_rotate_axis, OBJECT_OT_rotate_axis.
  destruct (selected_objects context).
  - exists 0%nat. split; [reflexivity|lia].
  - cbv zeta.
    match goal with
    | |- context [Fuel.for_each_selected _ ?f _] =>
        destruct (for_each_selected_returns fuel f context Hfuel)
          as [n [Hrun Hn]]
    end.
    rewrite Hrun. exists (n + 0)%nat. split; [reflexivity|lia].
Qed.

Lemma object_reset_orientation_returns :
  (List.length (objects (scene context)) < fuel)%nat ->
  exists n : nat,
    Fuel.OBJECT_OT_reset_orientation fuel context
    = Some (OBJECT_OT_reset_orientation context, n)
    /\ (n <= List.length (objects (scene context)))%nat.
Proof.
  intros Hfuel.
  unfold Fuel.OBJECT_OT_reset_orientation, OBJECT_OT_reset_orientation.
  destruct (selected_objects context).
  - exists 0%nat. split; [reflexivity|lia].
  - match goal with
    | |- context [Fuel.for_each_selected _ ?f _] =>
        destruct (for_each_selected_returns fuel f context Hfuel)
          as [n [Hrun Hn]]
    end.
    rewrite Hrun. exists (n + 0)%nat. split; [reflexivity|lia].
Qed.

Lemma copy_cursor_location_returns :
  (List.length (objects (scene context)) < fuel)%nat ->
  exists n : nat,
    Fuel.OBJECT_OT_copy_cursor_location fuel context
    = Some (OBJECT_OT_copy_cursor_location context, n)
    /\ (n <= List.length (objects (scene context)))%nat.
Proof.
  intros Hfuel.
  unfold Fuel.OBJECT_OT_copy_cursor_location, OBJECT_OT_copy_cursor_location.
  destruct (selected_objects context).
  - exists 0%nat. split; [reflexivity|lia].
  - cbv zeta.
    match goal with
    | |- context [Fuel.for_each_selected _ ?f _] =>
        destruct (for_each_selected_returns fuel f context Hfuel)
          as [n [Hrun Hn]]
    end.
    rewrite Hrun. exists (n + 0)%nat. split; [reflexivity|lia].
Qed.

Lemma create_transform_orientation_returns (name : string) :
  let hosted := create_orientation name false context in
  (List.length (transform_orientation_slots (scene hosted)) < fuel)%nat ->
  exists n : nat,
    Fuel.OBJECT_OT_create_transform_orientation fuel name context
    = Some (OBJECT_OT_create_transform_orientation name context, n)
    /\ (n <= List.length (transform_orientation_slots (scene hosted)))%nat.
Proof.
  cbv zeta. intros Hfuel.
  unfold Fuel.OBJECT_OT_create_transform_orientation,
    OBJECT_OT_create_transform_orientation.
  cbv zeta.
  set (hosted := create_orientation name false context) in *.
  match goal with
  | |- context [for_loop _ ?items (plain ?g) ?s] =>
      destruct (for_loop_plain g items s fuel Hfuel) as [n [Hrun Hn]]
  end.
  rewrite Hrun. cbn [bind ret].
  exists (n + 0)%nat. split; [|lia].
  pose proof (first_slot_found name (cursor_matrix (cursor (scene hosted)))
                (transform_orientation_slots (scene hosted)) 0) as Hfound.
  destruct (fold_flow _ (transform_orientation_slots (scene hosted)) 0%nat)
    as [j|j].
  - rewrite Hfound. reflexivity.
  - destruct Hfound as [k [Hj Hk]]. simpl in Hj. subst j.
    rewrite Hk. reflexivity.
Qed.

Lemma align_objects_to_each_other_returns :
  (List.length (objects (scene context)) < fuel)%nat ->
  exists n : nat,
    Fuel.OBJECT_OT_align_objects_to_each_other fuel context
    = Some (OBJECT_OT_align_objects_to_each_other context, n)
    /\ (n <= 2 * List.length (objects (scene context)))%nat.
Proof.
  intros Hfuel. pose proof selection_shorter as Hsel.
  unfold Fuel.OBJECT_OT_align_objects_to_each_other,
    OBJECT_OT_align_objects_to_each_other.
  cbv zeta.
  destruct (collect_returns fuel (selected_objects context)
              (is_not (active_object context)) (fun obj => obj))
    as [n1 [Hrun1 Hn1]]; [lia|].
  rewrite Hrun1, map_id. cbn [bind].
  pose proof (filter_shorter (is_not (active_object context))
                             (selected_objects context)) as Hothers.
  destruct (active_object context) as [active_obj|].
  2:{ exists (n1 + 0)%nat. split; [reflexivity|lia]. }
  destruct (filter (is_not (Some active_obj)) (selected_objects context))
    as [|o l] eqn:Hfilter.
  { exists (n1 + 0)%nat. split; [reflexivity|lia]. }
  match goal with
  | |- context [collect _ ?items ?keep ?f] =>
      destruct (collect_returns fuel items keep f) as [n2 [Hrun2 Hn2]];
        [lia|]
  end.
  rewrite Hrun2, filter_all, <- Hfilter. cbn [bind ret].
  unfold selected_objects. rewrite selected_then_others, write_back_map.
  eexists. split; [reflexivity|].
  unfold selected_objects in *. lia.
Qed.

Lemma distribute_along_cursor_returns (spacing : R) (axis : Axis) :
  (List.length (objects (scene context)) < fuel)%nat ->
  exists n : nat,
    Fuel.OBJECT_OT_distribute_along_cursor fuel spacing axis context
    = Some (OBJECT_OT_distribute_along_cursor spacing axis context, n)
    /\ (n <= 2 * List.length (objects (scene context)))%nat.
Proof.
  intros Hfuel. pose proof selection_shorter as Hsel.
  unfold Fuel.OBJECT_OT_distribute_along_cursor,
    OBJECT_OT_distribute_along_cursor.
  destruct (Nat.ltb (List.length (selected_objects context)) 2).
  { exists 0%nat. split; [reflexivity|lia]. }
  cbv zeta.
  match goal with
  | |- context [collect _ ?items ?keep ?f] =>
      destruct (collect_returns fuel items keep f) as [n1 [Hrun1 Hn1]];
        [lia|]
  end.
  rewrite Hrun1, filter_all. cbn [bind].
  match goal with
  | |- context [for_loop _ ?items (plain ?g) ?s] =>
      assert (Hlen : List.length items
                     = List.length (selected_objects context))
        by (rewrite sort_by_key_length, length_map; reflexivity);
      destruct (for_loop_plain g items s fuel) as [n2 [Hrun2 Hn2]]; [lia|]
  end.
  rewrite Hrun2.
  rewrite (assignment_loop_distributes
             (Cursor.location (cursor (scene context)))
             (Matrix4.row_xyz (cursor_matrix (cursor (scene context)))
                              (axis_index axis))
             spacing).
  cbn [final snd ret].
  eexists. split; [reflexivity|lia].
Qed.
End OperatorsUnderFuel.

(** C7, as stated, fails in its list of loops: in a context with no object,
    no mesh face and no screen area, [object.create_transform_orientation]
    still evaluates a loop body twice, over the orientation slots, before it
    returns. *)
Lemma create_transform_orientation_walks_slots :
  selected_objects slots_only_context = []
  /\ edit_faces slots_only_context = []
  /\ screen_areas slots_only_context = []
  /\ @Fuel.execute idle_host 3
       (object_create_transform_orientation "Cursor") slots_only_context
     = Some (@execute idle_host
               (object_create_transform_orientation "Cursor")
               slots_only_context,
             2%nat).
Proof. repeat split. Qed.

(** C7 (amended): every operator's [execute] returns on every input, the
    host calls it makes being taken to return: run with its loops under fuel
    it gives the outcome of [execute] as soon as the fuel exceeds the size of
    the finite collections it walks, and the loop bodies it evaluates are no
    more than that size.  The collections are the scene's objects, the mesh
    faces, the screen areas with their spaces and regions, the orientation
    slots and the add-on modules [is_machine_tools_available] goes through;
    the one sort is a call to the host's list sort. *)
Theorem execute_terminates (host : Host) (op : Operator) (context : Context)
        (fuel : nat) :
  (collections_size (walked_context op context) < fuel)%nat ->
  exists ticks : nat,
    Fuel.execute fuel op context = Some (execute op context, ticks)
    /\ (ticks <= collections_size (walked_context op context))%nat.
Proof.
  unfold collections_size.
  destruct op; cbn [Fuel.execute execute walked_context]; intros Hfuel;
    try (exists 0%nat; split; [reflexivity|lia]).
  - destruct (apply_to_object_returns context fuel) as [n [Hrun Hn]];
      [lia|]. exists n. split; [exact Hrun|lia].
  - destruct (align_to_view_returns context fuel) as [n [Hrun Hn]];
      [lia|]. exists n. split; [exact Hrun|lia].
  - destruct (align_to_surface_returns context fuel) as [n [Hrun Hn]];
      [lia|]. exists n. split; [exact Hrun|lia].
  - destruct (set_to_selection_center_returns context fuel)
      as [n [Hrun Hn]]; [lia|]. exists n. split; [exact Hrun|lia].
  - destruct (origin_to_cursor_returns context fuel) as [n [Hrun Hn]];
      [lia|]. exists n. split; [exact Hrun|lia].
  - destruct (rotate_axis_step_returns context fuel axis direction)
      as [n [Hrun Hn]]; [lia|]. exists n. split; [exact Hrun|lia].
  - destruct (object_reset_orientation_returns context fuel)
      as [n [Hrun Hn]]; [lia|]. exists n. split; [exact Hrun|lia].
  - destruct (create_transform_orientation_returns context fuel name)
      as [n [Hrun Hn]]; [lia|]. exists n. split; [exact Hrun|lia].
  - destruct (align_objects_to_each_other_returns context fuel)
      as [n [Hrun Hn]]; [lia|]. exists n. split; [exact Hrun|lia].
  - destruct (distribute_along_cursor_returns context fuel spacing axis)
      as [n [Hrun Hn]]; [lia|]. exists n. split; [exact Hrun|lia].
  - destruct (copy_cursor_location_returns context fuel) as [n [Hrun Hn]];
      [lia|]. exists n. split; [exact Hrun|lia].
Qed.

Lemma execute_terminates_witness :
  (collections_size
     (@walked_context idle_host cursor_align_to_view viewport_context)
   < 20)%nat
  /\ exists ticks : nat,
       @Fuel.execute idle_host 20 cursor_align_to_view viewport_context
       = Some (@execute idle_host cursor_align_to_view viewport_context,
               ticks)
       /\ (ticks
           <= collections_size
                (@walked_context idle_host cursor_align_to_view
                                 viewport_context))%nat.
Proof.
  assert (Hfuel :
    (collections_size
       (@walked_context idle_host cursor_align_to_view viewport_context)
     < 20)%nat)
    by (unfold collections_size; simpl; lia).
  split; [exact Hfuel|].
  exact (execute_terminates idle_host cursor_align_to_view viewport_context
                            20 Hfuel).
Defined.

(** * Further properties of the operators *)

(** ** What an operator leaves alone *)

Lemma set_cursor_frame (context : Context) (c : Cursor.t) :
  objects (scene (set_cursor context c)) = objects (scene context)
  /\ cursor_align_props (scene (set_cursor context c))
     = cursor_align_props (scene context)
  /\ transform_orientation_slots (scene (set_cursor context c))
     = transform_orientation_slots (scene context)
  /\ active_object_name (set_cursor context c) = active_object_name context
  /\ mode (set_cursor context c) = mode context.
Proof. repeat split. Qed.

Lemma cursor_only_shape {host : Host} (op : Operator) (context : Context) :
  writes_cursor_only op = true ->
  exists c : Cursor.t,
    after (execute op context) = set_cursor context c
    /\ Cursor.rotation_mode c = Cursor.rotation_mode (cursor (scene context))
    /\ (writes_cursor_location op = false ->
        Cursor.location c = Cursor.location (cursor (scene context)))
    /\ (writes_cursor_location op = true ->
        Cursor.rotation_euler c
        = Cursor.rotation_euler (cursor (scene context))).
Proof.
  assert (Hsame : exists c : Cursor.t,
             context = set_cursor context c
             /\ Cursor.rotation_mode c
                = Cursor.rotation_mode (cursor (scene context))
             /\ Cursor.location c = Cursor.location (cursor (scene context))
             /\ Cursor.rotation_euler c
                = Cursor.rotation_euler (cursor (scene context))).
  { exists (cursor (scene context)). rewrite set_cursor_same. repeat split. }
  assert (Hkeep : forall b : bool,
             exists c : Cursor.t,
               context = set_cursor context c
               /\ Cursor.rotation_mode c
                  = Cursor.rotation_mode (cursor (scene context))
               /\ (b = false ->
                   Cursor.location c = Cursor.location (cursor (scene context)))
               /\ (b = true ->
                   Cursor.rotation_euler c
                   = Cursor.rotation_euler (cursor (scene context)))).
  { intros b. destruct Hsame as [c [H1 [H2 [H3 H4]]]]. exists c. auto. }
  destruct op; try discriminate; intros _;
    cbn [execute writes_cursor_location].
  - eexists. split; [reflexivity|]. split; [reflexivity|].
    split; [reflexivity|discriminate].
  - eexists. split; [reflexivity|]. split; [reflexivity|].
    split; [reflexivity|discriminate].
  - eexists. split; [reflexivity|]. split; [reflexivity|].
    split; [reflexivity|discriminate].
  - unfold CURSOR_OT_copy_from_object.
    destruct (active_object context); [|apply Hkeep].
    eexists. split; [reflexivity|]. split; [reflexivity|].
    split; [reflexivity|discriminate].
  - unfold CURSOR_OT_align_to_view.
    destruct (view_euler_of_areas _ _); [|apply Hkeep].
    eexists. split; [reflexivity|]. split; [reflexivity|].
    split; [reflexivity|discriminate].
  - unfold CURSOR_OT_align_to_surface.
    destruct (negb _); [apply Hkeep|].
    destruct (filter _ _); [apply Hkeep|].
    destruct (Rlt_dec 0 _); [|apply Hkeep].
    destruct (Rlt_dec _ 0.99);
      (eexists; split; [reflexivity|]; split; [reflexivity|];
       split; [reflexivity|discriminate]).
  - eexists. split; [reflexivity|]. split; [reflexivity|].
    split; [reflexivity|discriminate].
  - unfold CURSOR_OT_set_to_selection_center.
    destruct (selected_objects context) as [|o l]; [apply Hkeep|].
    destruct (sum_locations (o :: l)) as [center count].
    destruct (Nat.ltb 0 count); [|apply Hkeep].
    eexists. split; [reflexivity|]. split; [reflexivity|].
    split; [discriminate|reflexivity].
  - eexists. split; [reflexivity|]. split; [reflexivity|].
    split; [discriminate|reflexivity].
Qed.

(** X1: the nine operators that work on the 3D cursor alone (reset, rotate,
    flip, copy from object, align to view, align to surface, preset,
    selection centre, view centre) never touch anything but the cursor: the
    objects, the add-on settings, the orientation slots, the active object
    and the mode are as before, and so is the cursor's rotation mode.  Those
    that set a rotation keep the cursor location, and the two that set the
    location keep the cursor rotation. *)
Theorem cursor_operators_touch_cursor_only (host : Host) (op : Operator)
        (context : Context) :
  writes_cursor_only op = true ->
  let context' := after (execute op context) in
  objects (scene context') = objects (scene context)
  /\ cursor_align_props (scene context') = cursor_align_props (scene context)
  /\ transform_orientation_slots (scene context')
     = transform_orientation_slots (scene context)
  /\ active_object_name context' = active_object_name context
  /\ mode context' = mode context
  /\ Cursor.rotation_mode (cursor (scene context'))
     = Cursor.rotation_mode (cursor (scene context))
  /\ (writes_cursor_location op = false ->
      Cursor.location (cursor (scene context'))
      = Cursor.location (cursor (scene context)))
  /\ (writes_cursor_location op = true ->
      Cursor.rotation_euler (cursor (scene context'))
      = Cursor.rotation_euler (cursor (scene context))).
Proof.
  intros Hop. cbv zeta.
  destruct (cursor_only_shape op context Hop) as [c [Hc [Hmode [Hloc Hrot]]]].
  rewrite Hc.
  destruct (set_cursor_frame context c) as [H1 [H2 [H3 [H4 H5]]]].
  repeat split; assumption.
Qed.

Lemma cursor_operators_touch_cursor_only_witness :
  objects
    (scene (after (@execute idle_host cursor_align_to_surface
                            side_face_context)))
  = [cube].
Proof.
  apply (cursor_operators_touch_cursor_only idle_host cursor_align_to_surface
                                            side_face_context).
  reflexivity.
Defined.

Lemma Forall2_map_self {A : Type} (P : A -> A -> Prop) (g : A -> A)
      (l : list A) :
  (forall a, P a (g a)) -> Forall2 P l (map g l).
Proof.
  intros Hg. induction l as [|a l IH]; simpl; constructor; auto.
Qed.

Lemma same_identity_refl (o : Object.t) : same_identity o o.
Proof. repeat split. Qed.

Lemma for_each_selected_identity (f : Object.t -> Object.t)
      (context : Context) :
  (forall o, Object.name (f o) = Object.name o
             /\ Object.select (f o) = Object.select o) ->
  Forall2 same_identity (objects (scene context))
          (objects (scene (for_each_selected f context))).
Proof.
  intros Hf. unfold for_each_selected.
  change (objects (scene (set_objects context ?l))) with l.
  apply Forall2_map_self. intros o.
  destruct (Object.select o) eqn:Hsel.
  - destruct (Hf o) as [Hn Hs]. split; [exact Hn|].
    split; [exact Hs|]. rewrite Hsel. discriminate.
  - apply same_identity_refl.
Qed.

Lemma set_objects_frame (context : Context) (l : list Object.t) :
  cursor (scene (set_objects context l)) = cursor (scene context)
  /\ cursor_align_props (scene (set_objects context l))
     = cursor_align_props (scene context)
  /\ transform_orientation_slots (scene (set_objects context l))
     = transform_orientation_slots (scene context)
  /\ active_object_name (set_objects context l) = active_object_name context
  /\ mode (set_objects context l) = mode context.
Proof. repeat split. Qed.

Lemma objects_only_shape {host : Host} (op : Operator) (context : Context) :
  writes_selected_objects op = true ->
  exists l : list Object.t,
    after (execute op context) = set_objects context l
    /\ Forall2 same_identity (objects (scene context)) l.
Proof.
  assert (Hkeep : exists l : list Object.t,
             context = set_objects context l
             /\ Forall2 same_identity (objects (scene context)) l).
  { exists (objects (scene context)). rewrite set_objects_same.
    split; [reflexivity|]. rewrite <- (map_id (objects (scene context))) at 2.
    apply Forall2_map_self. apply same_identity_refl. }
  assert (Hloop : forall f : Object.t -> Object.t,
             (forall o, Object.name (f o) = Object.name o
                        /\ Object.select (f o) = Object.select o) ->
             exists l : list Object.t,
               for_each_selected f context = set_objects context l
               /\ Forall2 same_identity (objects (scene context)) l).
  { intros f Hf. eexists. split; [reflexivity|].
    apply (for_each_selected_identity f context Hf). }
  destruct op; try discriminate; intros _; cbn [execute].
  - unfold CURSOR_OT_apply_to_object.
    destruct (selected_objects context); [apply Hkeep|].
    apply Hloop. intros o. split; reflexivity.
  - unfold OBJECT_OT_rotate_axis.
    destruct (selected_objects context); [apply Hkeep|].
    apply Hloop. intros o. split; reflexivity.
  - unfold OBJECT_OT_reset_orientation.
    destruct (selected_objects context); [apply Hkeep|].
    apply Hloop. intros o. split; reflexivity.
  - unfold OBJECT_OT_align_objects_to_each_other.
    destruct (active_object context) as [act|]; [|apply Hkeep].
    destruct (filter _ (selected_objects context)); [apply Hkeep|].
    eexists. split; [reflexivity|].
    apply Forall2_map_self. intros o.
    destruct (Object.select o) eqn:Hsel;
      destruct (is_not (Some act) o); cbn [andb];
      try apply same_identity_refl.
    split; [reflexivity|]. split; [reflexivity|].
    rewrite Hsel. discriminate.
  - unfold OBJECT_OT_copy_cursor_location.
    destruct (selected_objects context); [apply Hkeep|].
    apply Hloop. intros o. split; reflexivity.
Qed.

(** X2: the operators that loop over the selected objects themselves
    ([cursor.apply_to_object], [object.rotate_axis_step],
    [object.reset_orientation], [object.align_objects_to_each_other],
    [object.copy_cursor_location]) never move the cursor and never change the
    settings, the slots, the active object or the mode; they keep the scene's
    objects in place with their names and selection flags, and an object that
    is not selected comes out exactly as it went in. *)
Theorem object_operators_touch_selected_only (host : Host) (op : Operator)
        (context : Context) :
  writes_selected_objects op = true ->
  let context' := after (execute op context) in
  cursor (scene context') = cursor (scene context)
  /\ cursor_align_props (scene context') = cursor_align_props (scene context)
  /\ transform_orientation_slots (scene context')
     = transform_orientation_slots (scene context)
  /\ active_object_name context' = active_object_name context
  /\ mode context' = mode context
  /\ Forall2 same_identity (objects (scene context))
             (objects (scene context')).
Proof.
  intros Hop. cbv zeta.
  destruct (objects_only_shape op context Hop) as [l [Hl Hid]].
  rewrite Hl.
  destruct (set_objects_frame context l) as [H1 [H2 [H3 [H4 H5]]]].
  repeat split; assumption.
Qed.

Lemma object_operators_touch_selected_only_witness :
  cursor
    (scene (after (@execute idle_host (object_rotate_axis_step X NEG)
                            rest_context)))
  = cursor (scene rest_context).
Proof.
  apply (object_operators_touch_selected_only
           idle_host (object_rotate_axis_step X NEG) rest_context).
  reflexivity.
Defined.

(** ** Reports *)



(** ** Loops over the selection *)

Lemma for_each_selected_compose (f g : Object.t -> Object.t)
      (context : Context) :
  (forall o, Object.select (g o) = Object.select o) ->
  for_each_selected f (for_each_selected g context)
  = for_each_selected (fun o => f (g o)) context.
Proof.
  intros Hg. unfold for_each_selected.
  change (objects (scene (set_objects context ?l))) with l.
  match goal with
  | |- set_objects (set_objects ?c ?l1) ?l2 = _ =>
      change (set_objects (set_objects c l1) l2) with (set_objects c l2)
  end.
  f_equal. rewrite map_map. apply map_ext. intros o.
  destruct (Object.select o) eqn:Hsel.
  - rewrite Hg, Hsel. reflexivity.
  - rewrite Hsel. reflexivity.
Qed.

Lemma for_each_selected_ext (f g : Object.t -> Object.t) (context : Context) :
  (forall o, f o = g o) ->
  for_each_selected f context = for_each_selected g context.
Proof.
  intros Hfg. unfold for_each_selected. f_equal. apply map_ext.
  intros o. rewrite Hfg. reflexivity.
Qed.

Lemma for_each_selected_all (f : Object.t -> Object.t) (context : Context)
      (P : Object.t -> Prop) :
  (forall o, Object.select (f o) = Object.select o) ->
  (forall o, P (f o)) ->
  forall o', In o' (selected_objects (for_each_selected f context)) -> P o'.
Proof.
  intros Hsel HP o'. unfold selected_objects, for_each_selected.
  change (objects (scene (set_objects context ?l))) with l.
  rewrite filter_In, in_map_iff. intros [[o [Ho _]] Hs]. subst o'.
  destruct (Object.select o) eqn:Ho; [apply HP|].
  rewrite Ho in Hs. discriminate.
Qed.

Lemma object_reset_after {host : Host} (context : Context) :
  after (OBJECT_OT_reset_orientation context)
  = for_each_selected
      (fun obj => Object.with_rotation_euler obj (Euler.mk 0 0 0)) context.
Proof.
  unfold OBJECT_OT_reset_orientation.
  destruct (selected_objects context) eqn:Hsel; [|reflexivity].
  simpl. symmetry. apply for_each_selected_none. exact Hsel.
Qed.

Lemma copy_cursor_location_after {host : Host} (context : Context) :
  after (OBJECT_OT_copy_cursor_location context)
  = for_each_selected
      (fun obj =>
         Object.with_location obj (Cursor.location (cursor (scene context))))
      context.
Proof.
  unfold OBJECT_OT_copy_cursor_location.
  destruct (selected_objects context) eqn:Hsel; [|reflexivity].
  simpl. symmetry. apply for_each_selected_none. exact Hsel.
Qed.

(** X4: after [object.reset_orientation] every selected object has the
    rotation (0, 0, 0); running it a second time changes nothing; and it
    wipes out whatever [object.rotate_axis_step] did before it, so that
    rotating and then resetting is the same as resetting. *)
Theorem object_reset_orientation_absorbs (host : Host) (context : Context) :
  (forall o',
      In o' (selected_objects
               (after (execute object_reset_orientation context))) ->
      Object.rotation_euler o' = Euler.mk 0 0 0)
  /\ after (execute object_reset_orientation
              (after (execute object_reset_orientation context)))
     = after (execute object_reset_orientation context)
  /\ (forall (a : Axis) (d : Direction),
         after (execute object_reset_orientation
                  (after (execute (object_rotate_axis_step a d) context)))
         = after (execute object_reset_orientation context)).
Proof.
  cbn [execute]. split; [|split].
  - rewrite object_reset_after.
    apply for_each_selected_all; intros o; reflexivity.
  - rewrite !object_reset_after.
    rewrite for_each_selected_compose by reflexivity.
    apply for_each_selected_ext. reflexivity.
  - intros a d. rewrite !object_reset_after, object_rotate_axis_after.
    rewrite for_each_selected_compose by reflexivity.
    apply for_each_selected_ext. reflexivity.
Qed.

Lemma object_reset_orientation_absorbs_witness :
  Object.rotation_euler
    (Object.with_rotation_euler cube (Euler.mk 0 0 0))
  = Euler.mk 0 0 0.
Proof.
  apply (proj1 (object_reset_orientation_absorbs idle_host rest_context)).
  simpl. left. reflexivity.
Defined.

(** X5: after [object.copy_cursor_location] every selected object's location
    is the cursor's location, and running it twice is the same as running it
    once. *)
Theorem copy_cursor_location_places_selection (host : Host)
        (context : Context) :
  (forall o',
      In o' (selected_objects
               (after (execute object_copy_cursor_location context))) ->
      Object.location o' = Cursor.location (cursor (scene context)))
  /\ after (execute object_copy_cursor_location
              (after (execute object_copy_cursor_location context)))
     = after (execute object_copy_cursor_location context).
Proof.
  cbn [execute]. split.
  - rewrite copy_cursor_location_after.
    apply for_each_selected_all; intros o; reflexivity.
  - rewrite !copy_cursor_location_after.
    rewrite for_each_selected_compose by reflexivity.
    apply for_each_selected_ext. reflexivity.
Qed.

Lemma copy_cursor_location_places_selection_witness :
  Object.location (Object.with_location lamp Vector.zero) = Vector.zero.
Proof.
  apply (proj1 (copy_cursor_location_places_selection idle_host rest_context)).
  simpl. right. left. reflexivity.
Defined.

(** ** Presets and flips *)

(** X6: the FRONT preset does exactly what [cursor.reset_orientation] does;
    flipping Z turns the LEFT preset into the RIGHT preset and back, and
    flipping X turns the TOP preset into the BOTTOM preset and back. *)
Theorem presets_and_flips (context : Context) :
  CURSOR_OT_set_preset_orientation FRONT context
  = CURSOR_OT_reset_orientation context
  /\ after (CURSOR_OT_flip_axis Z
              (after (CURSOR_OT_set_preset_orientation LEFT context)))
     = after (CURSOR_OT_set_preset_orientation RIGHT context)
  /\ after (CURSOR_OT_flip_axis Z
              (after (CURSOR_OT_set_preset_orientation RIGHT context)))
     = after (CURSOR_OT_set_preset_orientation LEFT context)
  /\ after (CURSOR_OT_flip_axis X
              (after (CURSOR_OT_set_preset_orientation TOP context)))
     = after (CURSOR_OT_set_preset_orientation BOTTOM context)
  /\ after (CURSOR_OT_flip_axis X
              (after (CURSOR_OT_set_preset_orientation BOTTOM context)))
     = after (CURSOR_OT_set_preset_orientation TOP context).
Proof.
  unfold CURSOR_OT_set_preset_orientation, CURSOR_OT_flip_axis,
    CURSOR_OT_reset_orientation, finished, set_cursor,
    Cursor.with_rotation_euler, Euler.copy; simpl.
  split; [reflexivity|].
  repeat split; do 4 f_equal; lra.
Qed.

(** ** cursor.align_to_surface on near-vertical normals *)

Lemma vector_sum_nil_zero (context : Context) :
  filter BMFace.select (edit_faces context) = [] ->
  vector_sum (selected_normals context) = Vector.zero.
Proof. unfold selected_normals. intros ->. reflexivity. Qed.

(** X7: in edit-mesh mode, when the summed normal of the selected faces is
    not zero and its Z component is at least 0.99 of its length in absolute
    value (the faces look up or down within about eight degrees),
    [cursor.align_to_surface] finishes and sets the cursor rotation to
    (0, 0, 0); a face looking straight down gives the same rotation as one
    looking straight up. *)
Theorem align_to_surface_near_vertical (host : Host) (context : Context) :
  mode context = "EDIT_MESH"%string ->
  vector_sum (selected_normals context) <> Vector.zero ->
  0.99 * vector_length (vector_sum (selected_normals context))
  <= Rabs (Vector.z (vector_sum (selected_normals context))) ->
  status (execute cursor_align_to_surface context) = FINISHED
  /\ Cursor.rotation_euler
       (cursor (scene (after (execute cursor_align_to_surface context))))
     = Euler.mk 0 0 0.
Proof.
  intros Hmode Hsum Hz. cbn [execute].
  unfold CURSOR_OT_align_to_surface.
  rewrite Hmode. cbn [String.eqb Ascii.eqb Bool.eqb negb].
  destruct (filter BMFace.select (edit_faces context)) as [|f fs] eqn:Hf.
  { exfalso. apply Hsum. apply vector_sum_nil_zero. exact Hf. }
  unfold selected_normals in *. rewrite Hf in *.
  rewrite sum_normals_spec.
  set (total := vector_sum (map BMFace.normal (f :: fs))) in *.
  pose proof (vector_length_pos total Hsum) as Hlen.
  destruct (Rlt_dec 0 (vector_length total)) as [_|Hno]; [|contradiction].
  destruct (Rlt_dec _ 0.99) as [Hsmall|_]; [exfalso|split; reflexivity].
  clearbody total.
  unfold Vector.dot, up_vec in Hsmall. simpl in Hsmall.
  replace (Vector.x total / vector_length total * 0
           + Vector.y total / vector_length total * 0
           + Vector.z total / vector_length total * 1)
    with (Vector.z total * / vector_length total) in Hsmall
    by (field; lra).
  rewrite Rabs_mult, Rabs_inv, (Rabs_pos_eq (vector_length total)) in Hsmall
    by lra.
  assert (Hq : Rabs (Vector.z total) * / vector_length total
               * vector_length total = Rabs (Vector.z total))
    by (field; lra).
  nra.
Qed.

Lemma align_to_surface_near_vertical_witness :
  Cursor.rotation_euler
    (cursor (scene (after (@execute idle_host cursor_align_to_surface
                                    down_face_context))))
  = Euler.mk 0 0 0.
Proof.
  assert (Hlen : vector_length
                   (vector_sum (selected_normals down_face_context)) = 1).
  { unfold vector_length; simpl.
    replace (_ + _ + _) with 1 by lra. apply sqrt_1. }
  apply (align_to_surface_near_vertical idle_host down_face_context).
  - reflexivity.
  - simpl. intros Heq. apply (f_equal Vector.z) in Heq. simpl in Heq. lra.
  - rewrite Hlen. simpl.
    replace (-1 + 0) with (-1) by lra.
    rewrite Rabs_left by lra. lra.
Defined.

(** ** cursor.align_to_view: which area decides *)

Lemma view_euler_of_areas_skip {host : Host} (rotation_mode : string)
      (skipped rest : list Area.t) :
  determinable_view skipped = false ->
  view_euler_of_areas rotation_mode (skipped ++ rest)
  = view_euler_of_areas rotation_mode rest.
Proof.
  unfold determinable_view.
  induction skipped as [|a l IH]; simpl; [reflexivity|].
  intros Hnone. apply orb_false_iff in Hnone. destruct Hnone as [Ha Hl].
  destruct (String.eqb (Area.type a) "VIEW_3D"); simpl in Ha; [|auto].
  apply view_euler_of_spaces_none with (rotation_mode := rotation_mode) in Ha.
  rewrite Ha. auto.
Qed.

Lemma view_euler_of_spaces_any {host : Host} (rotation_mode : string)
      (regions : list Region.t) (spaces : list Space.t) :
  existsb (fun sp => String.eqb (Space.type sp) "VIEW_3D") spaces = true ->
  view_euler_of_spaces rotation_mode regions spaces
  = view_euler_of_regions rotation_mode regions.
Proof.
  induction spaces as [|s ss IH]; simpl; [discriminate|].
  destruct (String.eqb (Space.type s) "VIEW_3D"); simpl; [intros _|exact IH].
  destruct (view_euler_of_regions rotation_mode regions) eqn:Hr;
    [reflexivity|].
  apply view_euler_of_spaces_none.
  apply view_euler_of_regions_none in Hr. rewrite Hr.
  apply andb_false_r.
Qed.

(** X8: [cursor.align_to_view] is decided by the first area of the screen
    that is a 3D viewport with a 3D-view space and a window region exposing
    view data: the areas before it that offer no view are passed over, the
    areas after it are never consulted, and the cursor rotation becomes the
    one read from that area's first usable window region. *)
Theorem align_to_view_first_usable_area (host : Host) (context : Context)
        (skipped rest : list Area.t) (area : Area.t) :
  screen_areas context = skipped ++ area :: rest ->
  determinable_view skipped = false ->
  determinable_view [area] = true ->
  exists e : Euler.t,
    view_euler_of_regions
      (Cursor.rotation_mode (cursor (scene context))) (Area.regions area)
    = Some e
    /\ execute cursor_align_to_view context
       = finished
           (set_cursor context
              (Cursor.with_rotation_euler (cursor (scene context)) e)).
Proof.
  intros Hareas Hskip Harea. cbn [execute].
  unfold CURSOR_OT_align_to_view.
  rewrite Hareas, view_euler_of_areas_skip by exact Hskip.
  unfold determinable_view in Harea. simpl in Harea.
  rewrite orb_false_r in Harea.
  apply andb_true_iff in Harea. destruct Harea as [Harea Hregions].
  apply andb_true_iff in Harea. destruct Harea as [Htype Hspaces].
  cbn [view_euler_of_areas]. rewrite Htype.
  rewrite view_euler_of_spaces_any by exact Hspaces.
  destruct (view_euler_of_regions _ (Area.regions area)) as [e|] eqn:He.
  - exists e. split; reflexivity.
  - apply view_euler_of_regions_none in He. rewrite He in Hregions.
    discriminate.
Qed.

Lemma align_to_view_first_usable_area_witness :
  exists e : Euler.t,
    @view_euler_of_regions idle_host "XYZ"
      [Region.mk "HEADER" (Region.mkdata None None);
       Region.mk "WINDOW" (Region.mkdata (Some (Quaternion.mk 1 0 0 0)) None)]
    = Some e
    /\ @execute idle_host cursor_align_to_view viewport_context
       = finished
           (set_cursor viewport_context
              (Cursor.with_rotation_euler
                 (cursor (scene viewport_context)) e)).
Proof.
  apply (align_to_view_first_usable_area
           idle_host viewport_context
           [Area.mk "PROPERTIES" [Space.mk "PROPERTIES"]
                    [Region.mk "WINDOW" (Region.mkdata None None)]]
           []
           (Area.mk "VIEW_3D" [Space.mk "VIEW_3D"]
                    [Region.mk "HEADER" (Region.mkdata None None);
                     Region.mk "WINDOW"
                               (Region.mkdata (Some (Quaternion.mk 1 0 0 0))
                                              None)])).
  - reflexivity.
  - reflexivity.
  - reflexivity.
Defined.

(** ** object.align_objects_to_each_other *)

Lemma to_translation_mul_diagonal (m : Matrix4.t) (s : Vector.t) :
  Matrix4.to_translation (Matrix4.mul_diagonal m s)
  = Matrix4.to_translation m.
Proof. reflexivity. Qed.

Lemma active_object_has_name (context : Context) (act : Object.t) :
  active_object context = Some act ->
  active_object_name context = Some (Object.name act).
Proof.
  unfold active_object.
  destruct (active_object_name context) as [n|]; [|discriminate].
  intros Hfind. apply find_some in Hfind. destruct Hfind as [_ Hn].
  apply Nat.eqb_eq in Hn. rewrite Hn. reflexivity.
Qed.

(** X9: [object.align_objects_to_each_other] keeps the world position of
    every object of the scene (the translation of each [matrix_world] is as
    before), and the active object itself, whose rotation is being copied,
    comes out unchanged. *)
Theorem align_objects_keeps_positions (host : Host) (context : Context) :
  Forall2
    (fun o o' =>
       Object.name o' = Object.name o
       /\ Matrix4.to_translation (Object.matrix_world o')
          = Matrix4.to_translation (Object.matrix_world o)
       /\ (active_object_name context = Some (Object.name o) -> o' = o))
    (objects (scene context))
    (objects
       (scene (after (execute object_align_objects_to_each_other context)))).
Proof.
  cbn [execute]. unfold OBJECT_OT_align_objects_to_each_other.
  assert (Hsame :
    Forall2
      (fun o o' =>
         Object.name o' = Object.name o
         /\ Matrix4.to_translation (Object.matrix_world o')
            = Matrix4.to_translation (Object.matrix_world o)
         /\ (active_object_name context = Some (Object.name o) -> o' = o))
      (objects (scene context)) (objects (scene context))).
  { rewrite <- (map_id (objects (scene context))) at 2.
    apply Forall2_map_self. intros o. repeat split. }
  destruct (active_object context) as [act|] eqn:Hact; [|exact Hsame].
  destruct (filter _ (selected_objects context)); [exact Hsame|].
  unfold finished, set_objects; simpl.
  apply Forall2_map_self. intros o.
  destruct (Object.select o); simpl; [|repeat split].
  destruct (Nat.eqb (Object.name o) (Object.name act)) eqn:Hname; simpl;
    [repeat split|].
  split; [reflexivity|]. split.
  - rewrite to_translation_mul_diagonal.
    apply to_translation_set_translation.
  - intros Hn. rewrite (active_object_has_name context act Hact) in Hn.
    injection Hn as Hn. rewrite Hn, Nat.eqb_refl in Hname. discriminate.
Qed.

Lemma align_objects_keeps_positions_witness :
  active_object_name rest_context = Some (Object.name cube)
  /\ hd_error
       (objects
          (scene (after (@execute idle_host object_align_objects_to_each_other
                                  rest_context))))
     = Some cube.
Proof.
  split; [reflexivity|].
  pose proof (align_objects_keeps_positions idle_host rest_context) as Hall.
  remember (objects
              (scene (after (@execute idle_host
                                      object_align_objects_to_each_other
                                      rest_context)))) as l eqn:Hl.
  change (objects (scene rest_context)) with [cube; lamp] in Hall.
  inversion Hall as [|o o' l1 l2 [_ [_ Hactive]] Hrest]; subst.
  simpl. f_equal. apply Hactive. reflexivity.
Defined.

(** ** object.create_transform_orientation *)

Lemma assign_first_slot_names (name : string) (m : Matrix4.t)
      (slots : list OrientationSlot.t) :
  map OrientationSlot.name (assign_first_slot name m slots)
  = map OrientationSlot.name slots.
Proof.
  induction slots as [|s rest IH]; simpl; [reflexivity|].
  destruct (String.eqb (OrientationSlot.name s) name); simpl;
    [reflexivity|]. rewrite IH. reflexivity.
Qed.

Lemma assign_first_slot_absent (name : string) (m : Matrix4.t)
      (slots : list OrientationSlot.t) :
  ~ In name (map OrientationSlot.name slots) ->
  assign_first_slot name m slots = slots.
Proof.
  induction slots as [|s rest IH]; simpl; [reflexivity|].
  intros Hnot.
  destruct (String.eqb (OrientationSlot.name s) name) eqn:Hs.
  - exfalso. apply Hnot. left. apply String.eqb_eq. exact Hs.
  - rewrite IH; [reflexivity|]. intros Hin. apply Hnot. right. exact Hin.
Qed.

Lemma assign_first_slot_first (name : string) (m : Matrix4.t)
      (before later : list OrientationSlot.t) (s : OrientationSlot.t) :
  ~ In name (map OrientationSlot.name before) ->
  OrientationSlot.name s = name ->
  assign_first_slot name m (before ++ s :: later)
  = before ++ OrientationSlot.mk name m :: later.
Proof.
  intros Hnot Hs.
  induction before as [|b rest IH]; simpl.
  - rewrite Hs, String.eqb_refl. reflexivity.
  - destruct (String.eqb (OrientationSlot.name b) name) eqn:Hb.
    + exfalso. apply Hnot. left. apply String.eqb_eq. exact Hb.
    + rewrite IH; [reflexivity|]. intros Hin. apply Hnot. right. exact Hin.
Qed.

(** X10: [object.create_transform_orientation] always finishes with its
    "Created ..." INFO report and keeps the names and order of the
    orientation slots the host operator left.  Only the first slot carrying
    the requested name receives the cursor matrix, later slots of the same
    name keep theirs; and when no slot carries the name, no slot is written
    at all although success is still reported. *)
Theorem create_transform_orientation_slots (host : Host) (name : string)
        (context : Context) :
  let hosted := create_orientation name false context in
  let out := execute (object_create_transform_orientation name) context in
  let slots := transform_orientation_slots (scene hosted) in
  let slots' := transform_orientation_slots (scene (after out)) in
  status out = FINISHED
  /\ (exists msg, reports out = [(INFO, msg)])
  /\ map OrientationSlot.name slots' = map OrientationSlot.name slots
  /\ (~ In name (map OrientationSlot.name slots) -> after out = hosted)
  /\ (forall before later s,
         slots = before ++ s :: later ->
         ~ In name (map OrientationSlot.name before) ->
         OrientationSlot.name s = name ->
         slots'
         = before
             ++ OrientationSlot.mk name (cursor_matrix (cursor (scene hosted)))
             :: later).
Proof.
  cbv zeta. cbn [execute].
  unfold OBJECT_OT_create_transform_orientation; simpl.
  split; [reflexivity|]. split; [eexists; reflexivity|].
  split; [apply assign_first_slot_names|]. split.
  - intros Hnot. rewrite assign_first_slot_absent by exact Hnot.
    destruct (create_orientation name false context) as [[c p l s] a m ar f mt].
    reflexivity.
  - intros before later s Hslots Hnot Hs. rewrite Hslots.
    apply assign_first_slot_first; assumption.
Qed.

Lemma create_transform_orientation_slots_witness :
  transform_orientation_slots
    (scene (after (@execute idle_host
                            (object_create_transform_orientation "Cursor")
                            slots_context)))
  = [OrientationSlot.mk "GLOBAL" identity4]
      ++ OrientationSlot.mk "Cursor"
           (@cursor_matrix idle_host (cursor (scene slots_context)))
      :: [OrientationSlot.mk "Cursor" identity4].
Proof.
  apply (proj2 (proj2 (proj2 (proj2
           (create_transform_orientation_slots idle_host "Cursor"
                                               slots_context))))
           [OrientationSlot.mk "GLOBAL" identity4]
           [OrientationSlot.mk "Cursor" identity4]
           (OrientationSlot.mk "Cursor" identity4)).
  - reflexivity.
  - simpl. intros [H|[]]. discriminate H.
  - reflexivity.
Defined.

(** ** rotate_euler: the axis argument *)

Lemma upper_ascii_idempotent (c : ascii) :
  upper_ascii (upper_ascii c) = upper_ascii c.
Proof.
  unfold upper_ascii.
  destruct (Nat.leb 97 (nat_of_ascii c) && Nat.leb (nat_of_ascii c) 122)
    eqn:Hc.
  - apply andb_true_iff in Hc. destruct Hc as [Hlo Hhi].
    apply Nat.leb_le in Hlo. apply Nat.leb_le in Hhi.
    rewrite nat_ascii_embedding by lia.
    replace (Nat.leb 97 (nat_of_ascii c - 32)) with false; [reflexivity|].
    symmetry. apply Nat.leb_gt. lia.
  - rewrite Hc. reflexivity.
Qed.

Lemma upper_idempotent (s : string) : upper (upper s) = upper s.
Proof.
  induction s as [|c s IH]; simpl; [reflexivity|].
  rewrite upper_ascii_idempotent, IH. reflexivity.
Qed.

(** X11: [rotate_euler] reads its axis argument without regard to letter
    case ("x" and "X" rotate alike), and for any string that is not an X, Y
    or Z in either case it ignores [delta] and only normalizes the Euler. *)
Theorem rotate_euler_axis_argument (host : Host) (e : Euler.t)
        (axis : string) (delta : R) :
  rotate_euler e (upper axis) delta = rotate_euler e axis delta
  /\ (upper axis <> "X"%string -> upper axis <> "Y"%string ->
      upper axis <> "Z"%string ->
      rotate_euler e axis delta = euler_normalized e).
Proof.
  split.
  - unfold rotate_euler. rewrite upper_idempotent. reflexivity.
  - intros Hx Hy Hz. unfold rotate_euler.
    apply String.eqb_neq in Hx, Hy, Hz. rewrite Hx, Hy, Hz. reflexivity.
Qed.

Lemma rotate_euler_axis_argument_witness :
  @rotate_euler idle_host (Euler.mk 1 2 3) "xy" 1
  = @euler_normalized idle_host (Euler.mk 1 2 3).
Proof.
  apply (proj2 (rotate_euler_axis_argument idle_host (Euler.mk 1 2 3) "xy" 1));
    discriminate.
Defined.

(** ** object.distribute_along_cursor *)

Lemma insert_by_key_perm (p : R * nat) (l : list (R * nat)) :
  Permutation (insert_by_key p l) (p :: l).
Proof.
  induction l as [|q rest IH]; simpl; [apply Permutation_refl|].
  destruct (Rle_dec (fst p) (fst q)); [apply Permutation_refl|].
  eapply Permutation_trans; [apply perm_skip, IH|apply perm_swap].
Qed.

Lemma sort_by_key_perm (l : list (R * nat)) :
  Permutation (sort_by_key l) l.
Proof.
  induction l as [|p rest IH]; simpl; [apply Permutation_refl|].
  eapply Permutation_trans; [apply insert_by_key_perm|].
  apply perm_skip, IH.
Qed.

Lemma insert_by_key_sorted (p : R * nat) (l : list (R * nat)) :
  StronglySorted key_le l -> StronglySorted key_le (insert_by_key p l).
Proof.
  induction l as [|q rest IH]; simpl; intros Hs.
  - constructor; constructor.
  - inversion Hs as [|q' rest' Hrest Hall]; subst.
    destruct (Rle_dec (fst p) (fst q)) as [Hle|Hgt].
    + constructor; [exact Hs|].
      constructor; [exact Hle|].
      eapply Forall_impl; [|exact Hall].
      intros r Hr. unfold key_le in *. lra.
    + constructor; [apply IH, Hrest|].
      eapply Permutation_Forall;
        [apply Permutation_sym, insert_by_key_perm|].
      constructor; [unfold key_le; lra|exact Hall].
Qed.

Lemma sort_by_key_sorted (l : list (R * nat)) :
  StronglySorted key_le (sort_by_key l).
Proof.
  induction l as [|p rest IH]; simpl; [constructor|].
  apply insert_by_key_sorted, IH.
Qed.

Lemma distribute_from_placed (start : nat) (origin direction : Vector.t)
      (spacing : R) (positions : list (R * nat)) (l : list Object.t) :
  distribute_from start origin direction spacing positions l
  = map (placed start origin direction spacing positions) l.
Proof.
  revert start l.
  induction positions as [|[k n] rest IH]; intros start l; simpl.
  - symmetry. apply map_id.
  - rewrite IH. unfold assign_location. rewrite map_map. reflexivity.
Qed.

Lemma placed_identity (start : nat) (origin direction : Vector.t)
      (spacing : R) (positions : list (R * nat)) (o : Object.t) :
  Object.name (placed start origin direction spacing positions o)
  = Object.name o
  /\ Object.select (placed start origin direction spacing positions o)
     = Object.select o.
Proof.
  revert start o.
  induction positions as [|[k n] rest IH]; intros start o; simpl;
    [split; reflexivity|].
  destruct (IH (S start)
               (if Nat.eqb (Object.name o) n then
                  Object.with_location o
                    (Vector.add origin
                       (Vector.mul direction (INR start * spacing)))
                else o)) as [Hn Hs].
  rewrite Hn, Hs.
  destruct (Nat.eqb (Object.name o) n); split; reflexivity.
Qed.

Lemma placed_absent (start : nat) (origin direction : Vector.t)
      (spacing : R) (positions : list (R * nat)) (o : Object.t) :
  ~ In (Object.name o) (map snd positions) ->
  placed start origin direction spacing positions o = o.
Proof.
  revert start.
  induction positions as [|[k n] rest IH]; intros start Hnot; simpl;
    [reflexivity|].
  simpl in Hnot.
  destruct (Nat.eqb (Object.name o) n) eqn:Hn.
  - exfalso. apply Hnot. left. symmetry. apply Nat.eqb_eq. exact Hn.
  - apply IH. intros Hin. apply Hnot. right. exact Hin.
Qed.

Lemma placed_at (start : nat) (origin direction : Vector.t) (spacing : R)
      (positions : list (R * nat)) (o : Object.t) (i : nat) (k : R) :
  NoDup (map snd positions) ->
  nth_error positions i = Some (k, Object.name o) ->
  Object.location (placed start origin direction spacing positions o)
  = Vector.add origin
               (Vector.mul direction (INR (start + i) * spacing)).
Proof.
  revert start i.
  induction positions as [|[k' n] rest IH]; intros start i Hnodup Hnth.
  - destruct i; discriminate.
  - simpl in Hnodup. inversion Hnodup as [|n' rest' Hnotin Hrest]; subst.
    destruct i as [|j]; simpl in Hnth.
    + injection Hnth as Hk Hn. subst n k'. simpl.
      rewrite Nat.eqb_refl, Nat.add_0_r.
      rewrite placed_absent; [reflexivity|exact Hnotin].
    + simpl.
      assert (Hin : In (Object.name o) (map snd rest)).
      { apply nth_error_In in Hnth.
        apply (in_map snd) in Hnth. exact Hnth. }
      destruct (Nat.eqb (Object.name o) n) eqn:Hn.
      * apply Nat.eqb_eq in Hn. subst n. contradiction.
      * rewrite (IH (S start) j Hrest Hnth).
        replace (S start + j)%nat with (start + S j)%nat by lia.
        reflexivity.
Qed.

Lemma selected_names_distinct (objs : list Object.t) :
  NoDup (map Object.name objs) ->
  NoDup (map Object.name (filter Object.select objs)).
Proof.
  intros Hall.
  induction objs as [|o rest IH]; simpl; [constructor|].
  simpl in Hall. apply NoDup_cons_iff in Hall. destruct Hall as [Hfresh Hrest].
  destruct (Object.select o); simpl; [|exact (IH Hrest)].
  apply NoDup_cons; [|exact (IH Hrest)].
  intros Hin. apply Hfresh.
  apply in_map_iff in Hin. destruct Hin as [o2 [Hname Hin]].
  apply filter_In in Hin. rewrite <- Hname.
  apply in_map. exact (proj1 Hin).
Qed.

Lemma NoDup_map_injective {A B : Type} (f : A -> B) (l : list A) (x y : A) :
  NoDup (map f l) -> In x l -> In y l -> f x = f y -> x = y.
Proof.
  induction l as [|a l IH]; simpl; intros Hnd Hx Hy Hxy; [contradiction|].
  inversion Hnd as [|b l' Hnotin Hrest]; subst.
  destruct Hx as [->|Hx], Hy as [->|Hy]; auto.
  - exfalso. apply Hnotin. rewrite Hxy. apply in_map. exact Hy.
  - exfalso. apply Hnotin. rewrite <- Hxy. apply in_map. exact Hx.
Qed.

Lemma Forall2_map_self_in {A : Type} (P : A -> A -> Prop) (g : A -> A)
      (l : list A) :
  (forall a, In a l -> P a (g a)) -> Forall2 P l (map g l).
Proof.
  induction l as [|a l IH]; simpl; intros Hg; constructor.
  - apply Hg. left. reflexivity.
  - apply IH. intros b Hb. apply Hg. right. exact Hb.
Qed.

Lemma ranked_names {host : Host} (axis : Axis) (context : Context) :
  Permutation (map snd (sort_by_key (row_projections axis context)))
              (map Object.name (selected_objects context)).
Proof.
  eapply Permutation_trans; [apply Permutation_map, sort_by_key_perm|].
  unfold row_projections. rewrite map_map. simpl. apply Permutation_refl.
Qed.

(** X14: with at least two objects selected (and object names unique, as the
    host keeps them), [object.distribute_along_cursor] finishes and lines the
    selected objects up along row [axis_idx] of [cursor.matrix], the vector
    the code reads as [cursor_matrix[axis_idx][:3]]: ranked by increasing
    projection of their world position, relative to the cursor, on that row,
    the object of rank [i] is given the location
    cursor.location + row * (i * spacing), each selected object getting a
    rank of its own below the number selected.  Names and selection flags are
    kept and unselected objects are not touched. *)
Theorem distribute_along_cursor_places (host : Host) (spacing : R)
        (axis : Axis) (context : Context) :
  NoDup (map Object.name (objects (scene context))) ->
  (2 <= List.length (selected_objects context))%nat ->
  let ranked := sort_by_key (row_projections axis context) in
  let out := execute (object_distribute_along_cursor spacing axis) context in
  status out = FINISHED
  /\ Permutation ranked (row_projections axis context)
  /\ StronglySorted key_le ranked
  /\ Forall2
       (fun o o' =>
          Object.name o' = Object.name o
          /\ Object.select o' = Object.select o
          /\ (Object.select o = false -> o' = o)
          /\ (Object.select o = true ->
              exists i : nat,
                (i < List.length (selected_objects context))%nat
                /\ nth_error ranked i
                   = Some (row_projection axis context o, Object.name o)
                /\ Object.location o' = row_slot spacing axis context i))
       (objects (scene context)) (objects (scene (after out))).
Proof.
  intros Hnames Htwo. cbv zeta. cbn [execute].
  unfold OBJECT_OT_distribute_along_cursor.
  replace (Nat.ltb (List.length (selected_objects context)) 2) with false
    by (symmetry; apply Nat.ltb_ge; exact Htwo).
  fold (row_projections axis context).
  split; [reflexivity|].
  split; [apply sort_by_key_perm|].
  split; [apply sort_by_key_sorted|].
  unfold finished; cbn [after].
  change (objects (scene (set_objects context ?l))) with l.
  rewrite distribute_from_placed.
  set (ranked := sort_by_key (row_projections axis context)).
  assert (Hranked : NoDup (map snd ranked)).
  { eapply Permutation_NoDup;
      [apply Permutation_sym, ranked_names|].
    apply selected_names_distinct. exact Hnames. }
  apply Forall2_map_self_in. intros o Ho.
  destruct (placed_identity 0 (Cursor.location (cursor (scene context)))
              (Matrix4.row_xyz (cursor_matrix (cursor (scene context)))
                               (axis_index axis))
              spacing ranked o) as [Hn Hs].
  split; [exact Hn|]. split; [exact Hs|]. split.
  - intros Hsel. apply placed_absent. intros Hin.
    apply (Permutation_in _ (ranked_names axis context)) in Hin.
    apply in_map_iff in Hin. destruct Hin as [o2 [Hname Hin2]].
    apply filter_In in Hin2. destruct Hin2 as [Hin2 Hsel2].
    assert (Heq : o2 = o)
      by (apply (NoDup_map_injective Object.name _ o2 o Hnames Hin2 Ho Hname)).
    subst o2. rewrite Hsel in Hsel2. discriminate.
  - intros Hsel.
    assert (Hin : In (row_projection axis context o, Object.name o) ranked).
    { apply (Permutation_in _
               (Permutation_sym (sort_by_key_perm (row_projections axis context)))).
      unfold row_projections.
      apply (in_map (fun obj => (row_projection axis context obj,
                                 Object.name obj))).
      apply filter_In. split; assumption. }
    apply In_nth_error in Hin. destruct Hin as [i Hi].
    exists i. split; [|split; [exact Hi|]].
    + assert (Hlt : (i < List.length ranked)%nat)
        by (apply nth_error_Some; rewrite Hi; discriminate).
      unfold ranked in Hlt.
      rewrite (Permutation_length (sort_by_key_perm _)) in Hlt.
      unfold row_projections in Hlt. rewrite length_map in Hlt. exact Hlt.
    + rewrite (placed_at 0 _ _ _ ranked o i _ Hranked Hi). reflexivity.
Qed.

Lemma distribute_along_cursor_places_witness :
  let ranked := sort_by_key (@row_projections idle_host Z far_first_context) in
  let out :=
    @execute idle_host (object_distribute_along_cursor 2 Z)
             far_first_context in
  status out = FINISHED
  /\ Permutation ranked (@row_projections idle_host Z far_first_context)
  /\ StronglySorted key_le ranked
  /\ Forall2
       (fun o o' =>
          Object.name o' = Object.name o
          /\ Object.select o' = Object.select o
          /\ (Object.select o = false -> o' = o)
          /\ (Object.select o = true ->
              exists i : nat,
                (i < 2)%nat
                /\ nth_error ranked i
                   = Some (@row_projection idle_host Z far_first_context o,
                           Object.name o)
                /\ Object.location o'
                   = @row_slot idle_host 2 Z far_first_context i))
       [lamp; cube] (objects (scene (after out))).
Proof.
  apply (distribute_along_cursor_places idle_host 2 Z far_first_context).
  - simpl. repeat constructor; simpl; intuition discriminate.
  - simpl. lia.
Defined.

(** * Registration *)

(** ** The Machine Tools pie patch *)

Lemma with_pie_class_same (r : Registry) :
  with_pie_class r (MACHIN3_MT_cursor_pie r) = r.
Proof. destruct r. reflexivity. Qed.

(** X15: [integrate_with_machine_tools_cursor_pie] returns True exactly when
    the Machine Tools pie class exists and has a [draw] method, and changes
    nothing otherwise.  Integrating twice is the same as integrating once:
    the original [draw] saved the first time is not overwritten by the
    add-on's own wrapper, so the saved original is never that wrapper unless
    it was there before.  [remove_machine_tools_integration] after one or
    several integrations puts a class that carried no saved original back as
    it was, and does nothing to a class that was never patched. *)
Theorem machine_tools_patch_round_trip (r : Registry) :
  let patched := snd (integrate_with_machine_tools_cursor_pie r) in
  (fst (integrate_with_machine_tools_cursor_pie r) = true
   <-> exists c d, MACHIN3_MT_cursor_pie r = Some c /\ pie_draw c = Some d)
  /\ (fst (integrate_with_machine_tools_cursor_pie r) = false -> patched = r)
  /\ snd (integrate_with_machine_tools_cursor_pie patched) = patched
  /\ ((forall c, MACHIN3_MT_cursor_pie r = Some c ->
                 pie_original_draw c <> Some enhanced_draw
                 /\ (pie_original_draw c = None ->
                     pie_draw c <> Some enhanced_draw)) ->
      forall c', MACHIN3_MT_cursor_pie patched = Some c' ->
                 pie_original_draw c' <> Some enhanced_draw)
  /\ ((forall c, MACHIN3_MT_cursor_pie r = Some c ->
                 pie_original_draw c = None) ->
      remove_machine_tools_integration patched = r
      /\ remove_machine_tools_integration r = r).
Proof.
  cbv zeta. unfold integrate_with_machine_tools_cursor_pie,
              remove_machine_tools_integration.
  destruct r as [mods pie snap cls prop ctx kc items next handles].
  destruct pie as [[[d|] [o|]]|]; simpl.
  all: repeat split; try discriminate; try reflexivity.
  all: try (intros _; eexists; eexists; split; reflexivity).
  all: try (intros [c [d' [Hc Hd]]]; inversion Hc; subst; discriminate).
  all: try (intros H c' Hc'; inversion Hc'; subst; simpl;
            destruct (H _ eq_refl) as [H1 H2]; simpl in *;
            first [exact H1 | intros E; apply H2; [reflexivity|];
                               inversion E; reflexivity | discriminate]).
  all: try (intros H; specialize (H _ eq_refl); discriminate).
  all: match goal with
       | H : forall c, Some _ = Some c -> _ |- _ =>
           specialize (H _ eq_refl); discriminate
       end.
Qed.

Lemma machine_tools_patch_round_trip_witness :
  remove_machine_tools_integration
    (snd (integrate_with_machine_tools_cursor_pie
            (snd (integrate_with_machine_tools_cursor_pie
                    machine_tools_registry))))
  = machine_tools_registry.
Proof.
  pose proof (machine_tools_patch_round_trip machine_tools_registry)
    as [_ [_ [Hidem [_ Hback]]]].
  rewrite Hidem. apply Hback.
  intros c Hc. inversion Hc. reflexivity.
Defined.

(** ** The pie-menu hotkey *)

Lemma remove_handles_filter (handles : list nat) (items : list KeymapItem) :
  fold_left (fun items kmi => remove_keymap_item kmi items) handles items
  = filter (fun item => negb (existsb (Nat.eqb (kmi_id item)) handles)) items.
Proof.
  revert items. induction handles as [|h rest IH]; intros items; simpl.
  - induction items as [|it items IHi]; simpl; [reflexivity|].
    rewrite <- IHi. reflexivity.
  - rewrite IH. unfold remove_keymap_item.
    induction items as [|it items IHi]; simpl; [reflexivity|].
    destruct (Nat.eqb (kmi_id it) h); simpl; [exact IHi|].
    destruct (existsb (Nat.eqb (kmi_id it)) rest); simpl;
      [exact IHi|rewrite IHi; reflexivity].
Qed.

Lemma filter_none_kept {A : Type} (p : A -> bool) (l : list A) :
  (forall a, In a l -> p a = false) -> filter p l = [].
Proof.
  induction l as [|a l IH]; simpl; intros Hall; [reflexivity|].
  rewrite (Hall a (or_introl eq_refl)).
  apply IH. intros b Hb. apply Hall. right. exact Hb.
Qed.

Lemma keymap_grown_step (r0 r : Registry) (added : list KeymapItem) :
  keymap_grown r0 r added ->
  exists added',
    keymap_grown r0 (register_keymap_pie r) added'
    /\ (List.length added' <= S (List.length added))%nat.
Proof.
  intros [Hitems [Hhandles [Hbind [Hids Hnext]]]].
  assert (Hsame : exists added',
             keymap_grown r0 r added'
             /\ (List.length added' <= S (List.length added))%nat).
  { exists added. split; [repeat split; assumption|lia]. }
  assert (Hnew : forall shift ctrl alt : bool,
             ((if shift then 1 else 0) + (if ctrl then 1 else 0)
              + (if alt then 1 else 0) = 1)%nat ->
             exists added',
               keymap_grown r0 (bind_pie_key r shift ctrl alt) added'
               /\ (List.length added' <= S (List.length added))%nat).
  { intros shift ctrl alt Hone.
    exists (added ++ [mkKeymapItem (next_keymap_item_id r) "wm.call_menu_pie"
                                   "S" "PRESS" shift ctrl alt
                                   pie_wheel_idname]).
    split; [|rewrite length_app; simpl; lia].
    unfold keymap_grown, bind_pie_key; simpl.
    rewrite Hitems, Hhandles, map_app, !app_assoc. simpl.
    split; [reflexivity|]. split; [reflexivity|].
    split; [apply Forall_app; split; [exact Hbind|]|].
    { constructor; [|constructor]. repeat split. exact Hone. }
    split; [|lia].
    apply Forall_app. split.
    - eapply Forall_impl; [|exact Hids]. simpl. intros it Hit. lia.
    - constructor; [simpl; lia|constructor]. }
  unfold register_keymap_pie.
  destruct (negb (keyconfig_addon r)); [exact Hsame|].
  destruct (match lookup_props r with
            | Some props => pie_menu_key props
            | None => KeyALT
            end);
    [apply Hnew; reflexivity|apply Hnew; reflexivity
     |apply Hnew; reflexivity|exact Hsame].
Qed.

Lemma keymap_grown_times (r : Registry) (n : nat) :
  exists added,
    keymap_grown r (register_keymap_pie_times n r) added
    /\ (List.length added <= n)%nat.
Proof.
  induction n as [|n [added [Hgrown Hlen]]].
  - exists []. split; [|simpl; lia].
    unfold keymap_grown; simpl. rewrite !app_nil_r.
    repeat split; try constructor; lia.
  - destruct (keymap_grown_step r _ added Hgrown) as [added' [Hg' Hl']].
    exists added'. split; [exact Hg'|lia].
Qed.

(** X16: calling [register_keymap_pie] any number of times never alters the
    hotkeys already in the keymap; it appends at most one item per call, each
    of them S pressed with exactly one of Shift, Ctrl and Alt and opening the
    pie wheel menu.  [unregister_keymap_pie] afterwards removes exactly those
    items, leaving the keymap as it was before the first call and
    [addon_keymaps] empty. *)
Theorem keymap_pie_round_trip (r : Registry) (n : nat) :
  addon_keymaps r = [] ->
  Forall (fun item => (kmi_id item < next_keymap_item_id r)%nat)
         (view3d_keymap_items r) ->
  let bound := register_keymap_pie_times n r in
  (exists added,
      view3d_keymap_items bound = view3d_keymap_items r ++ added
      /\ Forall pie_binding added
      /\ (List.length added <= n)%nat)
  /\ view3d_keymap_items (unregister_keymap_pie bound)
     = view3d_keymap_items r
  /\ addon_keymaps (unregister_keymap_pie bound) = [].
Proof.
  intros Hnone Hfresh. cbv zeta.
  destruct (keymap_grown_times r n)
    as [added [[Hitems [Hhandles [Hbind [Hids Hnext]]]] Hlen]].
  split; [exists added; repeat split; assumption|].
  split; [|reflexivity].
  unfold unregister_keymap_pie; simpl.
  rewrite remove_handles_filter, Hitems, Hhandles, Hnone. simpl.
  rewrite filter_app.
  assert (Hkeep :
    filter (fun item =>
              negb (existsb (Nat.eqb (kmi_id item)) (map kmi_id added)))
           (view3d_keymap_items r)
    = view3d_keymap_items r).
  { apply forallb_filter_id. apply forallb_forall. intros it Hit.
    apply negb_true_iff.
    destruct (existsb (Nat.eqb (kmi_id it)) (map kmi_id added)) eqn:Hex;
      [|reflexivity].
    apply existsb_exists in Hex. destruct Hex as [k [Hk Heq]].
    apply in_map_iff in Hk. destruct Hk as [it2 [Hid Hin2]].
    apply Nat.eqb_eq in Heq.
    rewrite Forall_forall in Hfresh, Hids.
    specialize (Hfresh it Hit). specialize (Hids it2 Hin2). lia. }
  assert (Hdrop :
    filter (fun item =>
              negb (existsb (Nat.eqb (kmi_id item)) (map kmi_id added)))
           added
    = []).
  { clear Hitems Hhandles Hbind Hids Hlen.
    assert (Hall : forall it, In it added ->
                   negb (existsb (Nat.eqb (kmi_id it)) (map kmi_id added))
                   = false).
    { intros it Hit. apply negb_false_iff. apply existsb_exists.
      exists (kmi_id it). split; [apply in_map; exact Hit|].
      apply Nat.eqb_refl. }
    apply filter_none_kept. exact Hall. }
  rewrite Hkeep, Hdrop. apply app_nil_r.
Qed.

Lemma keymap_pie_round_trip_witness :
  view3d_keymap_items
    (unregister_keymap_pie
       (register_keymap_pie_times
          3 (with_scene_property machine_tools_registry true)))
  = view3d_keymap_items machine_tools_registry.
Proof.
  apply (keymap_pie_round_trip
           (with_scene_property machine_tools_registry true) 3).
  - reflexivity.
  - simpl. repeat constructor.
Defined.

(** ** register and unregister *)

Lemma register_classes_all (cs : list string) (r : Registry) :
  fold_left register_class cs r
  = with_classes r (registered_classes r ++ cs).
Proof.
  revert r. induction cs as [|c cs IH]; intros r; simpl.
  - rewrite app_nil_r. destruct r. reflexivity.
  - rewrite IH. unfold register_class, with_classes; simpl.
    rewrite <- app_assoc. reflexivity.
Qed.

Lemma unregister_classes_all (cs : list string) (r : Registry) :
  fold_left unregister_class cs r
  = with_classes r
      (fold_left (fun l c => remove_first c l) cs (registered_classes r)).
Proof.
  revert r. induction cs as [|c cs IH]; intros r; simpl.
  - destruct r. reflexivity.
  - rewrite IH. reflexivity.
Qed.

Lemma remove_first_absent (x : string) (l : list string) :
  ~ In x l -> remove_first x l = l.
Proof.
  induction l as [|y l IH]; simpl; intros Hnot; [reflexivity|].
  destruct (String.eqb y x) eqn:Hy.
  - exfalso. apply Hnot. left. apply String.eqb_eq. exact Hy.
  - rewrite IH; [reflexivity|]. intros Hin. apply Hnot. right. exact Hin.
Qed.

Lemma remove_first_last (x : string) (l : list string) :
  ~ In x l -> remove_first x (l ++ [x]) = l.
Proof.
  induction l as [|y l IH]; simpl; intros Hnot.
  - rewrite String.eqb_refl. reflexivity.
  - destruct (String.eqb y x) eqn:Hy.
    + exfalso. apply Hnot. left. apply String.eqb_eq. exact Hy.
    + rewrite IH; [reflexivity|]. intros Hin. apply Hnot. right. exact Hin.
Qed.

Lemma remove_registered_classes (cs l : list string) :
  NoDup cs -> (forall c, In c cs -> ~ In c l) ->
  fold_left (fun l c => remove_first c l) (rev cs) (l ++ cs) = l.
Proof.
  intros Hnd. revert l.
  induction cs as [|c cs IH] using rev_ind; intros l Hout; simpl.
  - apply app_nil_r.
  - rewrite rev_app_distr; simpl.
    apply NoDup_remove in Hnd. rewrite app_nil_r in Hnd.
    destruct Hnd as [Hnd Hc].
    rewrite app_assoc, remove_first_last.
    + apply IH; [exact Hnd|].
      intros c' Hc'. apply Hout. apply in_or_app. left. exact Hc'.
    + intros Hin. apply in_app_or in Hin. destruct Hin as [Hin|Hin].
      * apply (Hout c); [apply in_or_app; right; left; reflexivity|exact Hin].
      * apply Hc. exact Hin.
Qed.

Lemma classes_distinct : NoDup classes.
Proof.
  unfold classes.
  repeat (apply NoDup_cons;
          [simpl; intuition discriminate|]).
  apply NoDup_nil.
Qed.

Lemma remove_fresh_item (items : list KeymapItem) (item : KeymapItem) :
  Forall (fun it => (kmi_id it < kmi_id item)%nat) items ->
  remove_keymap_item (kmi_id item) (items ++ [item]) = items.
Proof.
  intros Hfresh. unfold remove_keymap_item. rewrite filter_app. simpl.
  rewrite Nat.eqb_refl. simpl. rewrite app_nil_r.
  apply forallb_filter_id. apply forallb_forall. intros it Hit.
  rewrite Forall_forall in Hfresh. specialize (Hfresh it Hit).
  apply negb_true_iff. apply Nat.eqb_neq. lia.
Qed.

(** X17: [register] registers the add-on's classes in their listed order and
    defines the scene property.  With Machine Tools available it patches the
    Machine Tools pie class and leaves the snap menu alone; without it, it
    appends [draw_snap_menu] to the snap menu and leaves the pie class alone.
    It binds a hotkey only when the add-on key configuration exists and the
    scene's settings can be read, enable the pie menu and name a modifier;
    the keymap is otherwise unchanged, and what is bound is a single S +
    modifier item for the pie wheel. *)
Theorem register_wiring (r : Registry) :
  let r' := register r in
  registered_classes r' = registered_classes r ++ classes
  /\ scene_property_defined r' = true
  /\ (is_machine_tools_available (addon_modules r) = true ->
      snap_menu_draw_funcs r' = snap_menu_draw_funcs r
      /\ MACHIN3_MT_cursor_pie r'
         = MACHIN3_MT_cursor_pie
             (snd (integrate_with_machine_tools_cursor_pie r)))
  /\ (is_machine_tools_available (addon_modules r) = false ->
      snap_menu_draw_funcs r'
      = snap_menu_draw_funcs r ++ ["draw_snap_menu"%string]
      /\ MACHIN3_MT_cursor_pie r' = MACHIN3_MT_cursor_pie r)
  /\ (view3d_keymap_items r' = view3d_keymap_items r
      \/ exists props item,
           keyconfig_addon r = true
           /\ context_scene_props r = Some props
           /\ use_pie_menu props = true
           /\ pie_menu_key props <> KeyNONE
           /\ pie_binding item
           /\ view3d_keymap_items r' = view3d_keymap_items r ++ [item]).
Proof.
  cbv zeta. unfold register. rewrite register_classes_all.
  generalize classes as cs. intros cs.
  destruct r as [mods pie snap cls prop ctx kc items next handles].
  unfold lookup_props, integrate_with_machine_tools_cursor_pie,
    register_menu_draw, register_keymap_pie, lookup_props; simpl.
  destruct (is_machine_tools_available mods);
    destruct pie as [[[d|] [o|]]|]; simpl;
    destruct ctx as [props|]; simpl;
    try (destruct (use_pie_menu props) eqn:Huse; simpl);
    try (destruct kc; simpl);
    try (destruct (pie_menu_key props) eqn:Hkey; simpl).
  all: repeat split; try discriminate; try (intros _; split; reflexivity).
  all: try (left; reflexivity).
  all: right; eexists; eexists;
    (split; [reflexivity|]; split; [reflexivity|]; split; [exact Huse|];
     split; [rewrite Hkey; discriminate|]; split; [|reflexivity]);
    repeat split.
Qed.

Lemma register_wiring_witness :
  snap_menu_draw_funcs (register machine_tools_registry)
  = ["draw_other"%string]
  /\ MACHIN3_MT_cursor_pie (register machine_tools_registry)
     = Some (mkPieClass (Some enhanced_draw) (Some (foreign_draw 7))).
Proof.
  apply (register_wiring machine_tools_registry). reflexivity.
Defined.

(** X18: on a registry the add-on has left no trace in (none of its classes
    registered, scene property undefined, [draw_snap_menu] not in the snap
    menu, no saved original on the pie class, [addon_keymaps] empty, keymap
    ids below the host's counter), [unregister] after [register] restores
    the registered classes, the scene property, the snap menu, the Machine
    Tools pie class, the keymap items and [addon_keymaps] to what they
    were. *)
Theorem unregister_undoes_register (r : Registry) :
  untouched r -> same_registrations r (unregister (register r)).
Proof.
  intros [Hcls [Hprop [Hsnap [Hpie [Hkeys Hfresh]]]]].
  unfold register, unregister.
  rewrite register_classes_all, unregister_classes_all.
  pose proof classes_distinct as Hdistinct.
  revert Hcls Hdistinct. generalize classes as cs. intros cs Hcls Hdistinct.
  destruct r as [mods pie snap cls prop ctx kc items next handles].
  simpl in Hcls, Hprop, Hsnap, Hpie, Hkeys, Hfresh. subst prop handles.
  assert (Hclasses :
    fold_left (fun l c => remove_first c l) (rev cs) (cls ++ cs) = cls)
    by (apply remove_registered_classes; [exact Hdistinct|exact Hcls]).
  assert (Hmenu : remove_first "draw_snap_menu" (snap ++ ["draw_snap_menu"%string])
                  = snap)
    by (apply remove_first_last; exact Hsnap).
  assert (Hnomenu : remove_first "draw_snap_menu" snap = snap)
    by (apply remove_first_absent; exact Hsnap).
  assert (Hitem : forall shift ctrl alt name,
             remove_keymap_item next
               (items ++ [mkKeymapItem next "wm.call_menu_pie" "S" "PRESS"
                                       shift ctrl alt name])
             = items).
  { intros shift ctrl alt name.
    apply (remove_fresh_item items
             (mkKeymapItem next "wm.call_menu_pie" "S" "PRESS"
                           shift ctrl alt name)).
    exact Hfresh. }
  unfold same_registrations, lookup_props,
    integrate_with_machine_tools_cursor_pie, register_menu_draw,
    register_keymap_pie, lookup_props, unregister_menu_draw,
    unregister_keymap_pie, remove_machine_tools_integration, bind_pie_key;
    simpl.
  destruct (is_machine_tools_available mods);
    destruct pie as [[[d|] [o|]]|]; simpl;
    try (exfalso; specialize (Hpie _ eq_refl); discriminate);
    destruct ctx as [props|]; simpl;
    try (destruct (use_pie_menu props); simpl);
    try (destruct kc; simpl);
    try (destruct (pie_menu_key props); simpl);
    rewrite ?Hclasses, ?Hmenu, ?Hnomenu, ?Hitem;
    repeat split.
Qed.

Lemma unregister_undoes_register_witness :
  same_registrations standalone_registry
                     (unregister (register standalone_registry)).
Proof.
  apply (unregister_undoes_register standalone_registry).
  unfold untouched; simpl.
  split; [intros cls Hin [Hother|[]]; subst cls; simpl in Hin;
          intuition discriminate|].
  split; [reflexivity|].
  split; [intros [H|[]]; discriminate H|].
  split; [intros c Hc; discriminate Hc|].
  split; [reflexivity|].
  repeat constructor.
Defined.

(** * User interface *)

Lemma forallb_In {A : Type} (check : A -> bool) (l : list A) (a : A) :
  forallb check l = true -> In a l -> check a = true.
Proof. intros Hall Hin. rewrite forallb_forall in Hall. apply Hall, Hin. Qed.

(** X19: in the sidebar panel no button rotates the cursor or the objects
    negatively about X or about Y.  Each rotation row draws three buttons;
    the two labelled "-X" (likewise "-Y") run the operator with axis X and
    the default direction POS, and with direction NEG and the default axis Z:
    a rotation button of the panel with a minus label either rotates
    positively about the axis it names or negatively about Z. *)
Theorem panel_minus_buttons (machine_tools : bool)
        (props : CursorAlignProperties) (e : UIEntry) (text : string)
        (a : Axis) (d : Direction) :
  In e (VIEW3D_PT_cursor_align_draw machine_tools props) ->
  rotation_of_entry e = Some (text, a, d) ->
  (d = NEG -> a = Z)
  /\ (forall named : Axis,
         text = rotation_label named NEG ->
         (a = named /\ d = POS) \/ (a = Z /\ d = NEG)).
Proof.
  intros Hin Hrot.
  set (check := fun e : UIEntry =>
         match rotation_of_entry e with
         | Some (t, b, NEG) =>
             match b with Z => String.eqb t "-X" || String.eqb t "-Y"
                                 || String.eqb t "-Z"
                     | _ => false end
         | Some (t, X, POS) => String.eqb t "+X" || String.eqb t "-X"
         | Some (t, Y, POS) => String.eqb t "+Y" || String.eqb t "-Y"
         | Some (t, Z, POS) => String.eqb t "+Z" || String.eqb t "-Z"
         | None => true
         end).
  assert (Hall : forallb check
                   (VIEW3D_PT_cursor_align_draw machine_tools props) = true).
  { unfold VIEW3D_PT_cursor_align_draw.
    destruct machine_tools, (rotation_step props); vm_compute; reflexivity. }
  pose proof (forallb_In check _ e Hall Hin) as Hcheck.
  unfold check in Hcheck. rewrite Hrot in Hcheck.
  split.
  - intros ->. destruct a; [discriminate|discriminate|reflexivity].
  - intros named ->.
    destruct d, a, named; simpl in *; try discriminate; auto.
Qed.

Lemma panel_minus_buttons_witness :
  (X = X /\ POS = POS) \/ (X = Z /\ POS = NEG).
Proof.
  apply (proj2 (panel_minus_buttons
                  false default_props
                  (ui_operator "cursor.rotate_axis" "-X" [kv "axis" "X"])
                  "-X" X POS
                  ltac:(unfold VIEW3D_PT_cursor_align_draw; simpl;
                        do 4 right; left; reflexivity)
                  eq_refl) X).
  reflexivity.
Defined.

(** X20: [draw_snap_menu] draws nothing at all when Machine Tools is
    available.  Otherwise it, like the Machine Tools integration menu, offers
    every one of the six cursor rotations (three axes, two directions), and
    in both menus every rotation button does what its label says. *)
Theorem menus_offer_all_rotations (props : CursorAlignProperties) :
  draw_snap_menu true = []
  /\ (forall (a : Axis) (d : Direction),
         In (ui_operator "cursor.rotate_axis" (rotation_label a d)
               [kv "axis" (axis_name a);
                kv "direction" (match d with POS => "POS" | NEG => "NEG" end)])
            (draw_snap_menu false)
         /\ In (ui_operator "cursor.rotate_axis" (rotation_label a d)
                  [kv "axis" (axis_name a);
                   kv "direction"
                      (match d with POS => "POS" | NEG => "NEG" end)])
               (VIEW3D_MT_cursor_align_machine_tools_draw props)
         /\ operator_of_entry
              (ui_operator "cursor.rotate_axis" (rotation_label a d)
                 [kv "axis" (axis_name a);
                  kv "direction"
                     (match d with POS => "POS" | NEG => "NEG" end)])
            = Some (cursor_rotate_axis a d))
  /\ (forall (e : UIEntry) (text : string) (a : Axis) (d : Direction),
         In e (draw_snap_menu false
               ++ VIEW3D_MT_cursor_align_machine_tools_draw props) ->
         rotation_of_entry e = Some (text, a, d) ->
         text = rotation_label a d).
Proof.
  split; [reflexivity|]. split.
  - intros a d. split; [|split].
    + destruct a, d; simpl; tauto.
    + unfold VIEW3D_MT_cursor_align_machine_tools_draw.
      apply in_or_app. right. destruct a, d; simpl; tauto.
    + destruct a, d; reflexivity.
  - intros e text a d Hin Hrot.
    set (check := fun e : UIEntry =>
           match rotation_of_entry e with
           | Some (t, b, c) => String.eqb t (rotation_label b c)
           | None => true
           end).
    assert (Hall : forallb check
                     (draw_snap_menu false
                      ++ VIEW3D_MT_cursor_align_machine_tools_draw props)
                   = true).
    { unfold VIEW3D_MT_cursor_align_machine_tools_draw.
      destruct (rotation_step props); vm_compute; reflexivity. }
    pose proof (forallb_In check _ e Hall Hin) as Hcheck.
    unfold check in Hcheck. rewrite Hrot in Hcheck.
    apply String.eqb_eq. exact Hcheck.
Qed.

Lemma menus_offer_all_rotations_witness :
  "-Y"%string = rotation_label Y NEG.
Proof.
  apply (proj2 (proj2 (menus_offer_all_rotations default_props))
           (ui_operator "cursor.rotate_axis" "-Y"
                        [kv "axis" "Y"; kv "direction" "NEG"])
           "-Y"%string Y NEG).
  - apply in_or_app. left. simpl. do 17 right. left. reflexivity.
  - reflexivity.
Defined.

(** X21: no button the add-on draws is dead: in the sidebar panel, the snap
    menu entries, the pie wheel, the Machine Tools menu and the slot added to
    the Machine Tools pie, every button's operator id is the [bl_idname] of
    one of the operators the add-on defines. *)
Theorem every_button_has_an_operator (machine_tools : bool)
        (props : CursorAlignProperties) (e : UIEntry) :
  In e (all_drawn machine_tools props) ->
  is_button e = true ->
  exists op : Operator, operator_of_entry e = Some op.
Proof.
  intros Hin Hbutton.
  set (check := fun e : UIEntry =>
         match operator_of_entry e with
         | Some _ => true
         | None => negb (is_button e)
         end).
  assert (Hall : forallb check (all_drawn machine_tools props) = true).
  { unfold all_drawn, VIEW3D_PT_cursor_align_draw,
      VIEW3D_MT_cursor_align_machine_tools_draw.
    destruct machine_tools, (rotation_step props); vm_compute; reflexivity. }
  pose proof (forallb_In check _ e Hall Hin) as Hcheck.
  unfold check in Hcheck.
  destruct (operator_of_entry e) as [op|]; [exists op; reflexivity|].
  rewrite Hbutton in Hcheck. discriminate.
Qed.

Lemma every_button_has_an_operator_witness :
  exists op : Operator,
    operator_of_entry
      (ui_operator "cursor.machine_tools_menu" "Quick Access Menu" [])
    = Some op.
Proof.
  apply (every_button_has_an_operator
           true default_props
           (ui_operator "cursor.machine_tools_menu" "Quick Access Menu" [])).
  - unfold all_drawn, VIEW3D_PT_cursor_align_draw. simpl.
    right. left. reflexivity.
  - reflexivity.
Defined.

(** * Applying the cursor rotation and copying it back *)

Lemma to_3x3_after_apply (m : Matrix3.t) (loc : Vector.t) :
  Matrix4.to_3x3
    (Matrix4.set_translation
       (Matrix4.mul_diagonal (Matrix4.of_3x3 m) (Vector.mk 1 1 1)) loc)
  = m.
Proof.
  destruct m as [[a b c] [d e f] [g h i]].
  unfold Matrix4.to_3x3, Matrix4.set_translation, Matrix4.mul_diagonal,
    Matrix4.of_3x3; simpl.
  rewrite !Rmult_1_r. reflexivity.
Qed.

(** X22: for an object of unit scale, on a host whose matrix-to-Euler
    conversion gives back the cursor's Euler from the cursor's rotation
    matrix, applying the cursor rotation to the object with
    [apply_cursor_rotation_to_object] and then copying the object's rotation
    with [copy_object_rotation_to_cursor] leaves the cursor's rotation, and
    the whole cursor, as it was. *)
Theorem apply_then_copy_back (host : Host) (cur : Cursor.t) (obj : Object.t) :
  matrix_to_scale (Object.matrix_world obj) = Vector.mk 1 1 1 ->
  matrix3_to_euler (euler_to_matrix (Cursor.rotation_euler cur))
                   (Cursor.rotation_mode cur)
  = Cursor.rotation_euler cur ->
  copy_object_rotation_to_cursor (apply_cursor_rotation_to_object cur obj) cur
  = cur.
Proof.
  intros Hscale Hinverse.
  unfold copy_object_rotation_to_cursor, apply_cursor_rotation_to_object,
    Object.with_matrix_world; simpl.
  rewrite Hscale, to_3x3_after_apply, Hinverse.
  destruct cur. reflexivity.
Qed.

Lemma apply_then_copy_back_witness :
  @copy_object_rotation_to_cursor
    idle_host
    (@apply_cursor_rotation_to_object idle_host (cursor (scene rest_context))
                                      cube)
    (cursor (scene rest_context))
  = cursor (scene rest_context).
Proof.
  apply (apply_then_copy_back idle_host (cursor (scene rest_context)) cube);
    reflexivity.
Defined.
